(** * The transaction cache of airbitz-core (abcd/bitcoin/TxDatabase.cpp)

    A shallow embedding of [TxDatabase] and [TxFilter]: the row table is a
    finite map from txid to row, every public operation is a function from
    database to database (the mutex is not modelled), [time(nullptr)] is an
    explicit argument, and the libbitcoin codec (transaction hashes and the
    satoshi wire format) and the iteration order of [std::unordered_map] are
    parameters of the development. *)

From Stdlib Require Import ZArith List Lia.
From Stdlib Require Import Strings.String Strings.Byte.
From Stdlib Require Import Numbers.DecimalString.
From stdpp Require Import base option list fin_maps gmap strings.

Local Open Scope Z_scope.

#[local] Set Warnings "-clear-no-such-hyp".

(** ** Bytes and hashes *)

#[global] Instance byte_eq_dec : EqDecision byte := Byte.byte_eq_dec.

#[global] Program Instance byte_countable : Countable byte :=
  inj_countable Byte.to_N Byte.of_N Byte.of_to_N.

(** [bc::hash_digest] is [std::array<uint8_t, 32>]; the length is a
    well-formedness condition where the wire format needs it. *)
Abbreviation hash_digest := (list byte).

Abbreviation data_chunk := (list byte).

(** ** libbitcoin transactions *)

Module Point.
(** [bc::point_type] (also [output_point], [input_point]). *)
Record t : Type := mk { hash : hash_digest; index : Z }.
End Point.

#[global] Instance point_eq_dec : EqDecision Point.t.
Proof. solve_decision. Defined.

#[global] Instance point_countable : Countable Point.t :=
  inj_countable' (fun p => (Point.hash p, Point.index p))
                 (fun q => Point.mk q.1 q.2)
                 (fun p => match p with Point.mk _ _ => eq_refl end).

Module TxIn.
(** [bc::transaction_input_type]. *)
Record t : Type := mk
    { previous_output : Point.t; script : data_chunk; sequence : Z }.
End TxIn.

Module TxOut.
(** [bc::transaction_output_type]. *)
Record t : Type := mk { value : Z; script : data_chunk }.
End TxOut.

Module Tx.
(** [bc::transaction_type]. *)
Record t : Type := mk
    { version : Z; locktime : Z; inputs : list TxIn.t; outputs : list TxOut.t }.

(** The default-constructed [bc::transaction_type()]. *)
Definition default : t := mk 0 0 [] [].
End Tx.

Abbreviation transaction_type := Tx.t.

#[global] Instance TxIn_eq_dec : EqDecision TxIn.t.
Proof. solve_decision. Defined.

#[global] Instance TxOut_eq_dec : EqDecision TxOut.t.
Proof. solve_decision. Defined.

#[global] Instance Tx_eq_dec : EqDecision Tx.t.
Proof. solve_decision. Defined.

Module OutputInfo.
(** [bc::output_info_type]: an output point and the value of the output. *)
Record t : Type := mk { point : Point.t; value : Z }.
End OutputInfo.

#[global] Instance OutputInfo_eq_dec : EqDecision OutputInfo.t.
Proof. solve_decision. Defined.

(** [AddressSet]: a set of encoded payment addresses. *)
Abbreviation AddressSet := (gset string).

(** ** TxState and TxRow *)

Module TxState.
(** Modelled from the spec: the enumeration [TxState] of TxDatabase.hpp
    (the header is not among the sources), with the enumerators of
    section 3 and their byte values of section 4.5, 0 for [unconfirmed] and
    1 for [confirmed].  A scoped enumeration has underlying type [int], so
    [static_cast<TxState>] of a byte read by [load] can yield a value that
    is neither enumerator: [cast v], with [v] different from 0 and 1. *)
Inductive t : Type :=
  | unconfirmed
  | confirmed
  | cast (v : Z).

(** [static_cast<TxState>(v)] *)
Definition of_Z (v : Z) : t :=
  if decide (v = 0) then unconfirmed
  else if decide (v = 1) then confirmed
  else cast v.

(** [static_cast<int>(s)] *)
Definition to_Z (s : t) : Z :=
  match s with
  | unconfirmed => 0
  | confirmed => 1
  | cast v => v
  end.
End TxState.

#[global] Instance TxState_eq_dec : EqDecision TxState.t.
Proof. solve_decision. Defined.

Module TxRow.
(** Modelled from the spec: the struct [TxDatabase::TxRow] of
    TxDatabase.hpp (the header is not among the sources), with the fields of
    section 3 in the order of the aggregate initialiser in
    [TxDatabase::insert], which section 4.1 reads as: the new row is marked
    malleated, and [need_check] and [master_confirm] are false. *)
Record t : Type := mk
    { tx : transaction_type;
      txid : hash_digest;
      ntxid : hash_digest;
      state : TxState.t;
      block_height : Z;          (* long long *)
      timestamp : Z;             (* time_t *)
      bMalleated : bool;
      bMasterConfirm : bool;
      need_check : bool }.

Definition set_state (s : TxState.t) (r : t) : t :=
    mk (tx r) (txid r) (ntxid r) s (block_height r) (timestamp r)
       (bMalleated r) (bMasterConfirm r) (need_check r).
Definition set_block_height (h : Z) (r : t) : t :=
    mk (tx r) (txid r) (ntxid r) (state r) h (timestamp r)
       (bMalleated r) (bMasterConfirm r) (need_check r).
Definition set_timestamp (ts : Z) (r : t) : t :=
    mk (tx r) (txid r) (ntxid r) (state r) (block_height r) ts
       (bMalleated r) (bMasterConfirm r) (need_check r).
Definition set_bMalleated (b : bool) (r : t) : t :=
    mk (tx r) (txid r) (ntxid r) (state r) (block_height r) (timestamp r)
       b (bMasterConfirm r) (need_check r).
Definition set_bMasterConfirm (b : bool) (r : t) : t :=
    mk (tx r) (txid r) (ntxid r) (state r) (block_height r) (timestamp r)
       (bMalleated r) b (need_check r).
Definition set_need_check (b : bool) (r : t) : t :=
    mk (tx r) (txid r) (ntxid r) (state r) (block_height r) (timestamp r)
       (bMalleated r) (bMasterConfirm r) b.
End TxRow.

(** The row table [std::unordered_map<bc::hash_digest, TxRow>].  A
    [TxRow *] into the table is modelled by the key of the row. *)
Abbreviation row_table := (gmap hash_digest TxRow.t).

(** Modelled from the spec: the data members of class [TxDatabase] of
    TxDatabase.hpp (the header is not among the sources), as section 3 lists
    them and the constructor, [load] and [at_height] use them. *)
Record TxDatabase : Type := mkTxDatabase
  { last_height_ : Z;            (* size_t *)
    unconfirmed_timeout_ : Z;    (* unsigned *)
    rows_ : row_table }.

Definition set_rows (rows : row_table) (db : TxDatabase) : TxDatabase :=
  mkTxDatabase (last_height_ db) (unconfirmed_timeout_ db) rows.

Definition set_last_height (h : Z) (db : TxDatabase) : TxDatabase :=
  mkTxDatabase h (unconfirmed_timeout_ db) (rows_ db).

(** ** Status *)

(** Modelled from the spec: the error codes of [Status] (abcd/util, not
    among the sources) that [TxDatabase.cpp] uses. *)
Inductive tABC_CC : Type :=
  | ABC_CC_Ok
  | ABC_CC_ParseError
  | ABC_CC_Synchronizing.

(** Modelled from the spec: [Status] (abcd/util, not among the sources).
    [Status()] is success, [ABC_ERROR(code, message)] a failure; the error
    kinds of section 7 differ in the message. *)
Inductive Status : Type :=
  | Status_ok
  | ABC_ERROR (code : tABC_CC) (message : string).

(** ** Machine integers *)

(** conversion to a 64-bit unsigned integer ([size_t], [uint64_t]) *)
Definition to_u64 (z : Z) : Z := z mod 2 ^ 64.

(** conversion of a 64-bit pattern to [long long] *)
Definition to_i64 (z : Z) : Z := (z + 2 ^ 63) mod 2 ^ 64 - 2 ^ 63.

Definition in_i64 (z : Z) : Prop := - 2 ^ 63 <= z < 2 ^ 63.
Definition in_u64 (z : Z) : Prop := 0 <= z < 2 ^ 64.

(** ** Bytes on the wire

    [bc::serializer] writes integers little-endian; the safe deserializer
    returned by [bc::make_deserializer] throws [end_of_stream] when fewer
    bytes remain than a read asks for. *)

(** [static_cast<uint8_t>(z)] *)
Definition byte_of_Z (z : Z) : byte :=
  default x00 (Byte.of_N (Z.to_N (z mod 256))).

Definition Z_of_byte (b : byte) : Z := Z.of_N (Byte.to_N b).

Fixpoint to_little_endian (n : nat) (z : Z) : list byte :=
  match n with
  | O => []
  | S n => byte_of_Z z :: to_little_endian n (z / 256)
  end.

Fixpoint from_little_endian (l : list byte) : Z :=
  match l with
  | [] => 0
  | b :: l => Z_of_byte b + 256 * from_little_endian l
  end.

Definition write_byte (z : Z) : list byte := [byte_of_Z z].
Definition write_4_bytes (z : Z) : list byte := to_little_endian 4 z.
Definition write_8_bytes (z : Z) : list byte := to_little_endian 8 z.
Definition write_hash (h : hash_digest) : list byte := h.

(** The size of [bc::hash_digest]. *)
Definition hash_size : nat := 32.

(** A read of [n] raw bytes: [None] is the thrown [end_of_stream],
    otherwise the bytes and the advanced iterator. *)
Fixpoint read_data (n : nat) (s : list byte)
  : option (list byte * list byte) :=
  match n with
  | O => Some ([], s)
  | S n =>
      match s with
      | [] => None
      | b :: s => prod_map (cons b) id <$> read_data n s
      end
  end.

Definition read_byte (s : list byte) : option (Z * list byte) :=
  match s with
  | [] => None
  | b :: s => Some (Z_of_byte b, s)
  end.

Definition read_4_bytes (s : list byte) : option (Z * list byte) :=
  prod_map from_little_endian id <$> read_data 4 s.

Definition read_8_bytes (s : list byte) : option (Z * list byte) :=
  prod_map from_little_endian id <$> read_data 8 s.

Definition read_hash (s : list byte) : option (hash_digest * list byte) :=
  read_data hash_size s.

(** ** The hash of an outpoint *)

(** [std::hash<bc::point_type>::operator()]: the first eight bytes of the
    transaction hash, read as a little-endian [size_t], xor the index. *)
Definition point_type_hash (p : Point.t) : Z :=
  Z.lxor (from_little_endian (take 8 (Point.hash p))) (Point.index p).

(** ** An instance of the codec, for the closed examples

    A transaction hashes to its version, its lock time and its input
    scripts, padded to 32 bytes; the normalized hash leaves the scripts
    out, so that transactions differing in input scripts only are
    malleated siblings. *)

Definition pad32 (l : list byte) : hash_digest :=
  take 32 (l ++ replicate 32 x00).

Definition demo_makeNtxid (tx : transaction_type) : hash_digest :=
  pad32 [byte_of_Z (Tx.version tx); byte_of_Z (Tx.locktime tx)].

Definition demo_hash_transaction (tx : transaction_type) : hash_digest :=
  pad32 ([byte_of_Z (Tx.version tx); byte_of_Z (Tx.locktime tx)]
         ++ flat_map TxIn.script (Tx.inputs tx)).

(** ** Serialization constants *)

Definition old_serial_magic : Z := 0x3eab61c3.
Definition serial_magic : Z := 0xfecdb763.
Definition serial_tx : Z := 0x42.

(** * The debug log (src/ABC_Debug.c)

    [TxDatabase::serialize] and [TxDatabase::load] report through
    [ABC_DebugLog].  The function formats a line in a static buffer of 4096
    bytes and prints it.  The buffer is a list of bytes, a C string in it
    ends at the first NUL, and a read or a write outside the buffer is
    [None].  [localtime] and the expansion of the caller's format by
    [vsprintf] are not in the repository: the broken-down time and the
    bytes that [vsprintf] produces are arguments. *)

(** [struct tm], the fields that the log reads *)
Module Tm.
Record t : Type := mk
    { tm_sec : Z; tm_min : Z; tm_hour : Z;
      tm_mday : Z; tm_mon : Z; tm_year : Z }.
End Tm.

(** [int] arithmetic, two's complement on 32 bits *)
Definition to_i32 (z : Z) : Z := (z + 2 ^ 31) mod 2 ^ 32 - 2 ^ 31.

(** The conversion [%d] of [printf] with a minimum field [width] filled
    with zeros (the flag [0]) and a minimum number of digits [precision]:
    [%d] is [format_d 0 1], [%02d] is [format_d 2 1] and [%.2d] is
    [format_d 0 2]. *)
Definition decimal_digits (z : Z) : list byte :=
  list_byte_of_string (NilZero.string_of_uint (N.to_uint (Z.abs_N z))).

Definition format_d (width precision : nat) (z : Z) : list byte :=
  let sign := if decide (z < 0) then ["-"%byte] else [] in
  let digits := decimal_digits z in
  let digits := replicate (precision - length digits) "0"%byte ++ digits in
  sign ++ replicate (width - (length sign + length digits)) "0"%byte
       ++ digits.

(** the arguments of the first [sprintf], formatted by
    ["%d-%02d-%02d %.2d:%.2d:%.2d ABC_Log: "] *)
Definition timestamp (newtime : Tm.t) : list byte :=
  format_d 0 1 (to_i32 (Tm.tm_year newtime + 1900))
  ++ "-"%byte :: format_d 2 1 (to_i32 (Tm.tm_mon newtime + 1))
  ++ "-"%byte :: format_d 2 1 (Tm.tm_mday newtime)
  ++ " "%byte :: format_d 0 2 (Tm.tm_hour newtime)
  ++ ":"%byte :: format_d 0 2 (Tm.tm_min newtime)
  ++ ":"%byte :: format_d 0 2 (Tm.tm_sec newtime)
  ++ list_byte_of_string " ABC_Log: ".

(** [strlen]: the index of the first NUL of the buffer *)
Fixpoint strlen (s : list byte) : option nat :=
  match s with
  | [] => None
  | c :: s' => if decide (c = x00) then Some 0%nat else S <$> strlen s'
  end.

(** [sprintf (buf + off, ...)]: the formatted bytes and a NUL, written from
    the offset [off] *)
Definition sprintf (buf : list byte) (off : nat) (formatted : list byte)
  : option (list byte) :=
  if decide (off + length formatted + 1 ≤ length buf)%nat
  then Some (take off buf ++ formatted
             ++ x00 :: drop (off + length formatted + 1) buf)
  else None.

(** [buf[i] = c] *)
Definition store (buf : list byte) (i : nat) (c : byte)
  : option (list byte) :=
  if decide (i < length buf)%nat then Some (<[i := c]> buf) else None.

(** [ABC_DebugLog]: the bytes printed and the buffer [szOut] after the
    call.  Without [DEBUG] the body is empty. *)
Definition ABC_DebugLog (DEBUG : bool) (newtime : Tm.t)
  (formatted : list byte) (szOut : list byte)
  : option (list byte * list byte) :=
  if DEBUG then
    szOut ← sprintf szOut 0 (timestamp newtime);
    n ← strlen szOut;
    szOut ← sprintf szOut n formatted;
    n ← strlen szOut;
    c ← (if decide (n = 0%nat) then None else szOut !! (n - 1)%nat);
    szOut ← (if decide (c ≠ x0a) then
               n ← strlen szOut;
               szOut ← store szOut (n + 1) x00;
               n ← strlen szOut;
               store szOut n x0a
             else Some szOut);
    n ← strlen szOut;
    Some (take n szOut, szOut)
  else Some ([], szOut).

(** The C string of a byte sequence: the bytes before its first NUL. *)
Fixpoint c_string (s : list byte) : list byte :=
  match s with
  | [] => []
  | c :: s' => if decide (c = x00) then [] else c :: c_string s'
  end.

(** A line: the text, with a newline after it unless it ends with one. *)
Definition line (s : list byte) : list byte :=
  if decide (last s = Some x0a) then s else s ++ [x0a].

(** The broken-down times that [localtime] gives for the years 1000 to
    9999. *)
Definition calendar (newtime : Tm.t) : Prop :=
  -900 ≤ Tm.tm_year newtime ≤ 8099
  ∧ 0 ≤ Tm.tm_mon newtime ≤ 11
  ∧ 1 ≤ Tm.tm_mday newtime ≤ 31
  ∧ 0 ≤ Tm.tm_hour newtime ≤ 23
  ∧ 0 ≤ Tm.tm_min newtime ≤ 59
  ∧ 0 ≤ Tm.tm_sec newtime ≤ 60.

(** * The database operations *)

Section Cache.

(** [bc::hash_transaction] and [makeNtxid] (Utility.hpp): the ordinary and
    the malleation-invariant hash of a transaction. *)
Variable hash_transaction : transaction_type → hash_digest.
Variable makeNtxid : transaction_type → hash_digest.

(** The order in which a range-for visits the rows of the table.  The C++
    standard leaves it unspecified; it is some enumeration of the table. *)
Variable iterate : row_table → list (hash_digest * TxRow.t).
Hypothesis iterate_perm : ∀ m, iterate m ≡ₚ map_to_list m.

(** libbitcoin's satoshi wire format of a transaction: [satoshi_save],
    [satoshi_load] ([None] is the thrown [end_of_stream]) and
    [satoshi_raw_size]. *)
Variable satoshi_save : transaction_type → list byte.
Variable satoshi_load : list byte → option transaction_type.
Variable satoshi_raw_size : transaction_type → nat.

(** [TxDatabase::TxDatabase(unsigned unconfirmed_timeout)] *)
Definition TxDatabase_new (unconfirmed_timeout : Z) : TxDatabase :=
  mkTxDatabase 0 unconfirmed_timeout ∅.

(** [TxDatabase::last_height]: the [size_t] member, returned as
    [long long]. *)
Definition last_height (db : TxDatabase) : Z := to_i64 (last_height_ db).

(** [TxDatabase::ntxidLookupAll]: pointers to the rows with this ntxid. *)
Definition ntxidLookupAll (ntxid : hash_digest) (rows : row_table)
  : list hash_digest :=
  (filter (λ kr, TxRow.ntxid kr.2 = ntxid) (iterate rows)).*1.

(** the rows a list of pointers refers to *)
Definition deref_all (rows : row_table) (ps : list hash_digest)
  : list TxRow.t :=
  omap (λ p, rows !! p) ps.

(** [TxDatabase::txidExists] *)
Definition txidExists (txid : hash_digest) (db : TxDatabase) : bool :=
  bool_decide (is_Some (rows_ db !! txid)).

(** [TxDatabase::ntxidExists] *)
Definition ntxidExists (ntxid : hash_digest) (db : TxDatabase) : bool :=
  match ntxidLookupAll ntxid (rows_ db) with
  | [] => false
  | _ :: _ => true
  end.

(** [TxDatabase::txidLookup] *)
Definition txidLookup (txid : hash_digest) (db : TxDatabase)
  : transaction_type :=
  match rows_ db !! txid with
  | None => Tx.default
  | Some r => TxRow.tx r
  end.

(** The loop of [TxDatabase::ntxidLookup] over [txRows], with the locals
    [tx] and [foundTx]. *)
Fixpoint ntxidLookup_loop (txRows : list TxRow.t) (tx : transaction_type)
  (foundTx : bool) : transaction_type :=
  match txRows with
  | [] => tx
  | r :: rest =>
      let tx' :=
        if negb foundTx then TxRow.tx r
        else if decide (TxRow.state r = TxState.confirmed) then TxRow.tx r
        else tx in
      if TxRow.bMasterConfirm r then tx'
      else ntxidLookup_loop rest tx' true
  end.

(** [TxDatabase::ntxidLookup].  The local [tx] is default-initialised
    ([bc::transaction_type tx;], not [bc::transaction_type()] as in
    [txidLookup]): it has no inputs and no outputs, and its [version] and
    [locktime] are not initialised.  What these two fields hold when the
    loop begins is given by the arguments [version] and [locktime]. *)
Definition ntxidLookup (version locktime : Z) (ntxid : hash_digest)
  (db : TxDatabase) : transaction_type :=
  let txRows := deref_all (rows_ db) (ntxidLookupAll ntxid (rows_ db)) in
  ntxidLookup_loop txRows (Tx.mk version locktime [] []) false.

(** [TxDatabase::txidHeight] *)
Definition txidHeight (txid : hash_digest) (db : TxDatabase) : Z :=
  match rows_ db !! txid with
  | None => 0
  | Some r =>
      if decide (TxRow.state r ≠ TxState.confirmed) then 0 else TxRow.block_height r
  end.

(** [TxDatabase::ntxidHeight]: the returned pair is the status and the
    value of the out-parameter [result] after the call. *)
Definition ntxidHeight (result : Z) (ntxid : hash_digest) (db : TxDatabase)
  : Status * Z :=
  let txRows := deref_all (rows_ db) (ntxidLookupAll ntxid (rows_ db)) in
  match txRows with
  | [] => (ABC_ERROR ABC_CC_Synchronizing "tx isn't in the database", result)
  | _ :: _ =>
      let height :=
        foldl (λ height row,
                 if decide (TxRow.state row = TxState.confirmed) then
                   if decide (height < TxRow.block_height row)
                   then TxRow.block_height row else height
                 else height) 0 txRows in
      let height :=
        if decide (1 < Z.of_nat (length txRows) ∧ height = 0)
        then -1 else height in
      (Status_ok, height)
  end.

(** [TxDatabase::check_fork].  Both loops are [for (auto row: rows_)]: each
    iteration works on a copy of the table entry, so the assignment to
    [row.second.need_check] in the second loop changes the copy, which is
    dropped at the end of the iteration.  [height] is [size_t], which makes
    the comparisons with the [long long] block height unsigned. *)
Definition check_fork (height : Z) (db : TxDatabase) : TxDatabase :=
  let prev_height :=
    foldl (λ prev_height (row : hash_digest * TxRow.t),
             if decide (TxRow.state row.2 = TxState.confirmed
                        ∧ to_u64 (TxRow.block_height row.2) < height
                        ∧ prev_height < to_u64 (TxRow.block_height row.2))
             then to_u64 (TxRow.block_height row.2) else prev_height)
          0 (iterate (rows_ db)) in
  foldl (λ db (row : hash_digest * TxRow.t),
           let row :=
             if decide (TxRow.state row.2 = TxState.confirmed
                        ∧ to_u64 (TxRow.block_height row.2) = prev_height)
             then (row.1, TxRow.set_need_check true row.2) else row in
           db)
        db (iterate (rows_ db)).

(** One iteration of the loop of [TxDatabase::insert] over [txRows]; the
    state is the table and the locals [height], [state], [bMalleated]. *)
Definition insert_step (txid : hash_digest)
  (acc : row_table * Z * TxState.t * bool) (i : hash_digest)
  : row_table * Z * TxState.t * bool :=
  let '(rows, height, state, bMalleated) := acc in
  match rows !! i with
  | Some r =>
      if decide (txid ≠ TxRow.txid r) then
        (alter (TxRow.set_bMalleated true) i rows,
         TxRow.block_height r, TxRow.state r, true)
      else acc
  | None => acc
  end.

(** [TxDatabase::insert]; [now] is [time(nullptr)]. *)
Definition insert (now : Z) (tx : transaction_type) (db : TxDatabase)
  : bool * TxDatabase :=
  let ntxid := makeNtxid tx in
  let txid := hash_transaction tx in
  match rows_ db !! txid with
  | None =>
      let txRows := ntxidLookupAll ntxid (rows_ db) in
      let '(rows, height, state, bMalleated) :=
        foldl (insert_step txid) (rows_ db, 0, TxState.unconfirmed, false) txRows in
      (true,
       set_rows
         (<[txid := TxRow.mk tx txid ntxid state height now bMalleated
                             false false]> rows) db)
  | Some _ => (false, db)
  end.

(** [TxDatabase::clear] *)
Definition clear (db : TxDatabase) : TxDatabase :=
  mkTxDatabase 0 (unconfirmed_timeout_ db) ∅.

(** [TxDatabase::at_height] *)
Definition at_height (height : Z) (db : TxDatabase) : TxDatabase :=
  check_fork height (set_last_height height db).

(** One iteration of the sibling loop of [TxDatabase::confirmed]; [row] is
    the table entry at [txid]. *)
Definition confirmed_step (txid : hash_digest) (block_height : Z)
  (rows : row_table) (i : hash_digest) : row_table :=
  match rows !! i with
  | Some r =>
      if decide (txid ≠ TxRow.txid r) then
        alter (TxRow.set_bMalleated true) txid
          (alter (λ r, TxRow.set_bMalleated true
                         (TxRow.set_state TxState.confirmed
                            (TxRow.set_block_height block_height r)))
                 i rows)
      else rows
  | None => rows
  end.

(** [TxDatabase::confirmed]; [None] is the failed [BITCOIN_ASSERT]. *)
Definition confirmed (txid : hash_digest) (block_height : Z)
  (db : TxDatabase) : option TxDatabase :=
  match rows_ db !! txid with
  | None => None
  | Some row =>
      let db :=
        if decide (TxRow.state row = TxState.confirmed
                   ∧ TxRow.block_height row ≠ block_height)
        then check_fork (to_u64 (TxRow.block_height row)) db
        else db in
      let txRows := ntxidLookupAll (TxRow.ntxid row) (rows_ db) in
      let rows :=
        alter (λ r, TxRow.set_bMasterConfirm true
                      (TxRow.set_block_height block_height
                         (TxRow.set_state TxState.confirmed r)))
              txid (rows_ db) in
      Some (set_rows (foldl (confirmed_step txid block_height) rows txRows) db)
  end.

(** One iteration of the sibling loop of [TxDatabase::unconfirmed]; the
    state is the table and the locals [height], [state], [bMalleated]. *)
Definition unconfirmed_step (txid : hash_digest)
  (acc : row_table * Z * TxState.t * bool) (i : hash_digest)
  : row_table * Z * TxState.t * bool :=
  let '(rows, height, state, bMalleated) := acc in
  match rows !! i with
  | Some r =>
      if decide (txid ≠ TxRow.txid r) then
        if TxRow.bMasterConfirm r then
          (rows, TxRow.block_height r, TxRow.state r, bMalleated)
        else
          (alter (λ r, TxRow.set_bMalleated true
                         (TxRow.set_state TxState.unconfirmed
                            (TxRow.set_block_height (-1) r)))
                 i rows,
           -1, state, true)
      else acc
  | None => acc
  end.

(** [TxDatabase::unconfirmed]; [None] is the failed [BITCOIN_ASSERT]. *)
Definition unconfirmed (txid : hash_digest) (db : TxDatabase)
  : option TxDatabase :=
  match rows_ db !! txid with
  | None => None
  | Some row =>
      let '(db, height, state, bMalleated) :=
        if decide (TxRow.state row = TxState.confirmed) then
          let txRows := ntxidLookupAll (TxRow.ntxid row) (rows_ db) in
          let '(rows, height, state, bMalleated) :=
            foldl (unconfirmed_step txid)
                  (rows_ db, 0, TxState.unconfirmed, TxRow.bMalleated row) txRows in
          let db := set_rows rows db in
          let db :=
            match rows !! txid with
            | Some row =>
                if decide (TxState.unconfirmed = TxRow.state row)
                then check_fork (to_u64 (TxRow.block_height row)) db
                else db
            | None => db
            end in
          (db, height, state, bMalleated)
        else (db, 0, TxState.unconfirmed, TxRow.bMalleated row) in
      Some (set_rows
              (alter (λ r, TxRow.set_bMalleated bMalleated
                             (TxRow.set_state state
                                (TxRow.set_block_height height r)))
                     txid (rows_ db)) db)
  end.

(** [TxDatabase::reset_timestamp] *)
Definition reset_timestamp (now : Z) (txid : hash_digest) (db : TxDatabase)
  : TxDatabase :=
  set_rows (alter (TxRow.set_timestamp now) txid (rows_ db)) db.

(** [TxDatabase::foreach_unconfirmed]: the arguments of the calls of [f],
    in order. *)
Definition foreach_unconfirmed (db : TxDatabase) : list hash_digest :=
  (filter (λ row, TxRow.state row.2 ≠ TxState.confirmed) (iterate (rows_ db))).*1.

(** [TxDatabase::foreach_forked]: the arguments of the calls of [f], in
    order. *)
Definition foreach_forked (db : TxDatabase) : list hash_digest :=
  (filter (λ row, TxRow.state row.2 = TxState.confirmed
                  ∧ TxRow.need_check row.2 = true)
          (iterate (rows_ db))).*1.

(** ** TxFilter *)

(** The loop of [TxFilter::isSafe] over the inputs of the row of [txid];
    [recurse] is the recursive call of [isSafe]. *)
Fixpoint isSafe_inputs
  (recurse : hash_digest → gmap hash_digest bool
             → option (bool * gmap hash_digest bool))
  (doubleSpends_ : gset Point.t) (txid : hash_digest)
  (inputs : list TxIn.t) (visited_ : gmap hash_digest bool)
  : option (bool * gmap hash_digest bool) :=
  match inputs with
  | [] => Some (true, <[txid := true]> visited_)
  | input :: inputs =>
      if decide (TxIn.previous_output input ∈ doubleSpends_)
      then Some (false, <[txid := false]> visited_)
      else
        match recurse (Point.hash (TxIn.previous_output input)) visited_ with
        | None => None
        | Some (false, visited_) => Some (false, <[txid := false]> visited_)
        | Some (true, visited_) =>
            isSafe_inputs recurse doubleSpends_ txid inputs visited_
        end
  end.

(** [TxFilter::isSafe] for the filter over [cache_] and [doubleSpends_].
    The memo table [visited_] is threaded through; [fuel] bounds the depth
    of the recursion, and [None] stands for a recursion deeper than that. *)
Fixpoint isSafe (cache_ : TxDatabase) (doubleSpends_ : gset Point.t)
  (fuel : nat) (txid : hash_digest) (visited_ : gmap hash_digest bool)
  : option (bool * gmap hash_digest bool) :=
  match fuel with
  | O => None
  | S fuel =>
      match visited_ !! txid with
      | Some b => Some (b, visited_)
      | None =>
          match rows_ cache_ !! txid with
          | None => Some (true, <[txid := true]> visited_)
          | Some row =>
              if decide (TxState.confirmed = TxRow.state row)
              then Some (true, <[txid := true]> visited_)
              else
                isSafe_inputs (isSafe cache_ doubleSpends_ fuel)
                  doubleSpends_ txid (Tx.inputs (TxRow.tx row)) visited_
          end
      end
  end.

(** A sequence of [isSafe] calls on one filter, each with the memo table
    the calls before it left. *)
Fixpoint isSafe_calls (cache_ : TxDatabase) (doubleSpends_ : gset Point.t)
  (fuel : nat) (txids : list hash_digest) (visited_ : gmap hash_digest bool)
  : option (gmap hash_digest bool) :=
  match txids with
  | [] => Some visited_
  | txid :: txids =>
      match isSafe cache_ doubleSpends_ fuel txid visited_ with
      | None => None
      | Some (_, visited_) =>
          isSafe_calls cache_ doubleSpends_ fuel txids visited_
      end
  end.

(** ** Serializer *)

(** The bytes [TxDatabase::serialize] writes for one table entry; nothing
    for a purged row.  The sum of the [time_t] timestamp and the [unsigned]
    timeout is a 64-bit signed sum. *)
Definition serialize_row (now : Z) (unconfirmed_timeout : Z)
  (row : hash_digest * TxRow.t) : list byte :=
  if decide (to_i64 (TxRow.timestamp row.2 + unconfirmed_timeout) < now
             ∧ TxState.unconfirmed = TxRow.state row.2)
  then []
  else
    let height :=
      if decide (TxState.unconfirmed = TxRow.state row.2)
      then TxRow.timestamp row.2 else TxRow.block_height row.2 in
    write_byte serial_tx
    ++ write_hash row.1
    ++ satoshi_save (TxRow.tx row.2)
    ++ write_byte (TxState.to_Z (TxRow.state row.2))
    ++ write_8_bytes height
    ++ write_byte (Z.b2z (TxRow.need_check row.2))
    ++ write_hash (TxRow.txid row.2)
    ++ write_hash (TxRow.ntxid row.2)
    ++ write_byte (Z.b2z (TxRow.bMalleated row.2))
    ++ write_byte (Z.b2z (TxRow.bMasterConfirm row.2)).

(** [TxDatabase::serialize]; [now] is [time(nullptr)]. *)
Definition serialize (now : Z) (db : TxDatabase) : data_chunk :=
  write_4_bytes serial_magic
  ++ write_8_bytes (last_height_ db)
  ++ flat_map (serialize_row now (unconfirmed_timeout_ db))
              (iterate (rows_ db)).

(** conversion of a byte to [bool] *)
Definition bool_of_Z (z : Z) : bool := bool_decide (z ≠ 0).

(** The body of the loop of [TxDatabase::load] after the record kind has
    been read: the key and the row of one record, and the advanced
    iterator.  [None] is the thrown [end_of_stream].  The iterator is
    advanced over the transaction by [satoshi_raw_size], at most to the end
    of the input. *)
Definition load_row (now : Z) (s : list byte)
  : option (hash_digest * TxRow.t * list byte) :=
  '(hash, s) ← read_hash s;
  tx ← satoshi_load s;
  let s := drop (satoshi_raw_size tx) s in
  '(state, s) ← read_byte s;
  let state := TxState.of_Z state in
  '(block_height, s) ← read_8_bytes s;
  let block_height := to_i64 block_height in
  let timestamp :=
    if decide (TxState.unconfirmed = state) then block_height else now in
  '(need_check, s) ← read_byte s;
  '(txid, s) ← read_hash s;
  '(ntxid, s) ← read_hash s;
  '(bMalleated, s) ← read_byte s;
  '(bMasterConfirm, s) ← read_byte s;
  Some (hash,
        TxRow.mk tx txid ntxid state block_height timestamp
                 (bool_of_Z bMalleated) (bool_of_Z bMasterConfirm)
                 (bool_of_Z need_check),
        s).

(** How the [try] block of [TxDatabase::load] ends: it falls through with
    the locals [last_height] and [rows], it returns a status, or
    [bc::end_of_stream] is thrown. *)
Inductive load_outcome : Type :=
  | Loaded (rows : row_table)
  | Returned (status : Status)
  | Thrown_end_of_stream.

(** The [while (serial.iterator() != data.end())] loop of
    [TxDatabase::load].  Every iteration consumes at least the record
    kind, so [length s] iterations are enough; [None] stands for more
    iterations than [fuel]. *)
Fixpoint load_rows (fuel : nat) (now : Z) (s : list byte) (rows : row_table)
  : option load_outcome :=
  match s with
  | [] => Some (Loaded rows)
  | b :: s =>
      match fuel with
      | O => None
      | S fuel =>
          if decide (Z_of_byte b ≠ serial_tx) then
            Some (Returned
                    (ABC_ERROR ABC_CC_ParseError
                       "Unknown entry in transaction database"))
          else
            match load_row now s with
            | None => Some Thrown_end_of_stream
            | Some (hash, row, s) =>
                load_rows fuel now s (<[hash := row]> rows)
            end
      end
  end.

(** [TxDatabase::load]; [now] is [time(nullptr)].  The result is the
    status and the database after the call. *)
Definition load (now : Z) (data : data_chunk) (db : TxDatabase)
  : option (Status * TxDatabase) :=
  match read_4_bytes data with
  | None =>
      Some (ABC_ERROR ABC_CC_ParseError "Truncated transaction database", db)
  | Some (magic, s) =>
      if decide (serial_magic ≠ magic) then
        Some (if decide (old_serial_magic = magic)
              then ABC_ERROR ABC_CC_ParseError
                     "Outdated transaction database format"
              else ABC_ERROR ABC_CC_ParseError
                     "Unknown transaction database header",
              db)
      else
        match read_8_bytes s with
        | None =>
            Some (ABC_ERROR ABC_CC_ParseError
                    "Truncated transaction database", db)
        | Some (last_height, s) =>
            match load_rows (length s) now s ∅ with
            | None => None
            | Some (Returned status) => Some (status, db)
            | Some Thrown_end_of_stream =>
                Some (ABC_ERROR ABC_CC_ParseError
                        "Truncated transaction database", db)
            | Some (Loaded rows) =>
                Some (Status_ok,
                      mkTxDatabase last_height (unconfirmed_timeout_ db) rows)
            end
        end
  end.

(** ** Addresses and unspent outputs *)

Section Addresses.

(** libbitcoin's [payment_address] with its [operator==], [bc::extract]
    (the address of a script of a standard form) and
    [payment_address::encoded]. *)
Context {payment_address : Type}.
Context {payment_address_eq_dec : EqDecision payment_address}.
Variable extract : data_chunk → option payment_address.
Variable encoded : payment_address → string.

(** The loop of [TxFilter::check] over the inputs of the row: [true] when
    it runs to its end, [false] when it returns at an input whose script
    has no address or an address that is not in [addresses_]. *)
Definition check_inputs (addresses_ : AddressSet) (inputs : list TxIn.t)
  : bool :=
  forallb (λ input,
             match extract (TxIn.script input) with
             | Some address => bool_decide (encoded address ∈ addresses_)
             | None => false
             end) inputs.

(** [TxFilter::check] for the filter over [cache_], [doubleSpends_] and
    [addresses_]; the memo table and [fuel] are those of [isSafe]. *)
Definition check (cache_ : TxDatabase) (doubleSpends_ : gset Point.t)
  (addresses_ : AddressSet) (fuel : nat) (txid : hash_digest)
  (row : TxRow.t) (filter : bool) (visited_ : gmap hash_digest bool)
  : option (bool * gmap hash_digest bool) :=
  if filter && bool_decide (TxState.confirmed ≠ TxRow.state row) then
    if check_inputs addresses_ (Tx.inputs (TxRow.tx row))
    then isSafe cache_ doubleSpends_ fuel txid visited_
    else Some (false, visited_)
  else isSafe cache_ doubleSpends_ fuel txid visited_.


(** The first loop of [TxDatabase::get_utxos] at one input; the state is
    the sets [spends] and [doubleSpends].  [spends.insert] fails on an
    outpoint that is in [spends] already. *)
Definition get_utxos_spend (acc : gset Point.t * gset Point.t)
  (input : TxIn.t) : gset Point.t * gset Point.t :=
  let '(spends, doubleSpends) := acc in
  if decide (TxIn.previous_output input ∈ spends)
  then (spends, {[TxIn.previous_output input]} ∪ doubleSpends)
  else ({[TxIn.previous_output input]} ∪ spends, doubleSpends).

(** The first loop of [TxDatabase::get_utxos]: [spends] and
    [doubleSpends]. *)
Definition get_utxos_spends (db : TxDatabase) : gset Point.t * gset Point.t :=
  foldl (λ acc (row : hash_digest * TxRow.t),
           foldl get_utxos_spend acc (Tx.inputs (TxRow.tx row.2)))
        (∅, ∅) (iterate (rows_ db)).

(** The inner loop of the second loop of [TxDatabase::get_utxos], from the
    output of index [i] on; the state is the memo table of [checker] and
    the list [out].  The condition is evaluated left to right, so
    [checker.check] is called only for an unspent output of ours. *)
Fixpoint get_utxos_outputs (cache_ : TxDatabase)
  (spends doubleSpends : gset Point.t) (addresses : AddressSet)
  (filter : bool) (fuel : nat) (row : hash_digest * TxRow.t) (i : Z)
  (outputs : list TxOut.t) (visited_ : gmap hash_digest bool)
  (out : list OutputInfo.t)
  : option (gmap hash_digest bool * list OutputInfo.t) :=
  match outputs with
  | [] => Some (visited_, out)
  | output :: outputs =>
      let point := Point.mk row.1 i in
      let interesting :=
        if decide (point ∉ spends) then
          match extract (TxOut.script output) with
          | Some address =>
              if decide (encoded address ∈ addresses)
              then check cache_ doubleSpends addresses fuel row.1 row.2
                         filter visited_
              else Some (false, visited_)
          | None => Some (false, visited_)
          end
        else Some (false, visited_) in
      match interesting with
      | None => None
      | Some (b, visited_) =>
          get_utxos_outputs cache_ spends doubleSpends addresses filter fuel
            row (i + 1) outputs visited_
            (if b then out ++ [OutputInfo.mk point (TxOut.value output)]
             else out)
      end
  end.

(** The second loop of [TxDatabase::get_utxos].  The counter [i] of the
    inner loop is a [uint32_t]: on a transaction with 2^32 outputs or more
    it wraps around before it reaches their number and the loop does not
    end, which is [None]. *)
Fixpoint get_utxos_rows (cache_ : TxDatabase)
  (spends doubleSpends : gset Point.t) (addresses : AddressSet)
  (filter : bool) (fuel : nat) (rows : list (hash_digest * TxRow.t))
  (visited_ : gmap hash_digest bool) (out : list OutputInfo.t)
  : option (gmap hash_digest bool * list OutputInfo.t) :=
  match rows with
  | [] => Some (visited_, out)
  | row :: rows =>
      if decide (2 ^ 32 ≤ Z.of_nat (length (Tx.outputs (TxRow.tx row.2))))
      then None
      else
        match get_utxos_outputs cache_ spends doubleSpends addresses filter
                fuel row 0 (Tx.outputs (TxRow.tx row.2)) visited_ out with
        | None => None
        | Some (visited_, out) =>
            get_utxos_rows cache_ spends doubleSpends addresses filter fuel
              rows visited_ out
        end
  end.

(** [TxDatabase::get_utxos]; [None] when the call does not return (the
    recursion of [isSafe] is deeper than [fuel], or an inner loop does not
    end). *)
Definition get_utxos (fuel : nat) (addresses : AddressSet) (filter : bool)
  (db : TxDatabase) : option (list OutputInfo.t) :=
  let '(spends, doubleSpends) := get_utxos_spends db in
  snd <$> get_utxos_rows db spends doubleSpends addresses filter fuel
            (iterate (rows_ db)) ∅ [].

End Addresses.

(** * The vocabulary of the properties *)

(** The database [db'] and the new row [row] after an [insert] of a
    transaction whose txid was not in [db]. *)
Definition insert_post (now : Z) (tx : transaction_type)
  (db db' : TxDatabase) (row : TxRow.t) : Prop :=
  let txid := hash_transaction tx in
  let ntxid := makeNtxid tx in
  last_height_ db' = last_height_ db
  ∧ unconfirmed_timeout_ db' = unconfirmed_timeout_ db
  ∧ rows_ db' !! txid = Some row
  ∧ TxRow.tx row = tx
  ∧ TxRow.txid row = txid
  ∧ TxRow.ntxid row = ntxid
  ∧ TxRow.timestamp row = now
  ∧ TxRow.need_check row = false
  ∧ TxRow.bMasterConfirm row = false
  ∧ (∀ k, k ≠ txid →
       rows_ db' !! k
       = (λ r, if decide (TxRow.ntxid r = ntxid ∧ txid ≠ TxRow.txid r)
               then TxRow.set_bMalleated true r else r)
           <$> rows_ db !! k)
  ∧ ((∀ k r, rows_ db !! k = Some r → TxRow.ntxid r = ntxid →
             txid = TxRow.txid r) →
     TxRow.state row = TxState.unconfirmed
     ∧ TxRow.block_height row = 0
     ∧ TxRow.bMalleated row = false)
  ∧ ((∃ k r, rows_ db !! k = Some r ∧ TxRow.ntxid r = ntxid
             ∧ txid ≠ TxRow.txid r) →
     TxRow.bMalleated row = true
     ∧ ∃ k r, rows_ db !! k = Some r ∧ TxRow.ntxid r = ntxid
              ∧ txid ≠ TxRow.txid r
              ∧ TxRow.state row = TxRow.state r
              ∧ TxRow.block_height row = TxRow.block_height r).

(** What the sibling loop of [confirmed] makes of the row [r] under key
    [k]: [sib] says that the loop treats [r] as a sibling, [hassib] that it
    treats some row so. *)
Definition confirmed_row (txid : hash_digest) (h : Z) (sib hassib : Prop)
  (k : hash_digest) (r r' : TxRow.t) : Prop :=
  TxRow.tx r' = TxRow.tx r
  ∧ TxRow.txid r' = TxRow.txid r
  ∧ TxRow.ntxid r' = TxRow.ntxid r
  ∧ TxRow.timestamp r' = TxRow.timestamp r
  ∧ TxRow.bMasterConfirm r' = TxRow.bMasterConfirm r
  ∧ TxRow.need_check r' = TxRow.need_check r
  ∧ (sib → TxRow.state r' = TxState.confirmed
           ∧ TxRow.block_height r' = h
           ∧ TxRow.bMalleated r' = true)
  ∧ (¬ sib → TxRow.state r' = TxRow.state r
             ∧ TxRow.block_height r' = TxRow.block_height r
             ∧ (TxRow.bMalleated r' = true
                ↔ TxRow.bMalleated r = true ∨ (k = txid ∧ hassib))).

(** What [confirmed txid h] makes of the row [r] under key [k], where
    [n] is the ntxid of the row under [txid] and [hassib] says that the
    cluster of [n] has a row with a different txid. *)
Definition confirmed_post (txid n : hash_digest) (h : Z) (hassib : Prop)
  (k : hash_digest) (r r' : TxRow.t) : Prop :=
  let sib := TxRow.ntxid r = n ∧ txid ≠ TxRow.txid r in
  TxRow.tx r' = TxRow.tx r
  ∧ TxRow.txid r' = TxRow.txid r
  ∧ TxRow.ntxid r' = TxRow.ntxid r
  ∧ TxRow.timestamp r' = TxRow.timestamp r
  ∧ TxRow.need_check r' = TxRow.need_check r
  ∧ (k = txid → TxRow.bMasterConfirm r' = true)
  ∧ (k ≠ txid → TxRow.bMasterConfirm r' = TxRow.bMasterConfirm r)
  ∧ (k = txid ∨ sib →
     TxRow.state r' = TxState.confirmed ∧ TxRow.block_height r' = h)
  ∧ (k ≠ txid → ¬ sib →
     TxRow.state r' = TxRow.state r
     ∧ TxRow.block_height r' = TxRow.block_height r)
  ∧ (sib → TxRow.bMalleated r' = true)
  ∧ (¬ sib → (TxRow.bMalleated r' = true
              ↔ TxRow.bMalleated r = true ∨ (k = txid ∧ hassib))).

(** Two tables with the same keys whose rows are related by [R]. *)
Definition table_rel (R : TxRow.t → TxRow.t → Prop) (m m' : row_table)
  : Prop :=
  ∀ k, match m !! k with
       | None => m' !! k = None
       | Some r => ∃ r', m' !! k = Some r' ∧ R r r'
       end.

(** What [unconfirmed] keeps of a row: everything but the state and the
    block height, and a malleated flag that is set stays set. *)
Definition unconfirmed_post (r r' : TxRow.t) : Prop :=
  TxRow.tx r' = TxRow.tx r
  ∧ TxRow.txid r' = TxRow.txid r
  ∧ TxRow.ntxid r' = TxRow.ntxid r
  ∧ TxRow.timestamp r' = TxRow.timestamp r
  ∧ TxRow.need_check r' = TxRow.need_check r
  ∧ TxRow.bMasterConfirm r' = TxRow.bMasterConfirm r
  ∧ (TxRow.bMalleated r = true → TxRow.bMalleated r' = true).

(** A call of [insert], [confirmed] or [unconfirmed]. *)
Inductive operation : Type :=
  | Op_insert (now : Z) (tx : transaction_type)
  | Op_confirmed (txid : hash_digest) (block_height : Z)
  | Op_unconfirmed (txid : hash_digest).

Definition run_operation (o : operation) (db : TxDatabase)
  : option TxDatabase :=
  match o with
  | Op_insert now tx => Some (insert now tx db).2
  | Op_confirmed txid block_height => confirmed txid block_height db
  | Op_unconfirmed txid => unconfirmed txid db
  end.

(** The calls of [ops] in order; [None] when an assertion fails. *)
Fixpoint run (ops : list operation) (db : TxDatabase) : option TxDatabase :=
  match ops with
  | [] => Some db
  | o :: ops =>
      match run_operation o db with
      | Some db => run ops db
      | None => None
      end
  end.

(** Invariant 1 of the data model: every row is stored under its txid. *)
Definition keys_consistent (db : TxDatabase) : Prop :=
  ∀ k r, rows_ db !! k = Some r → TxRow.txid r = k.

(** Two rows that share an ntxid are both marked malleated. *)
Definition malleation_invariant (db : TxDatabase) : Prop :=
  ∀ k1 k2 r1 r2,
    k1 ≠ k2 →
    rows_ db !! k1 = Some r1 → rows_ db !! k2 = Some r2 →
    TxRow.ntxid r1 = TxRow.ntxid r2 →
    TxRow.bMalleated r1 = true ∧ TxRow.bMalleated r2 = true.

(** What [confirmed] and [unconfirmed] keep of every row. *)
Definition keeps_ids (r r' : TxRow.t) : Prop :=
  TxRow.txid r' = TxRow.txid r
  ∧ TxRow.ntxid r' = TxRow.ntxid r
  ∧ (TxRow.bMalleated r = true → TxRow.bMalleated r' = true).

(** At most one row of an ntxid cluster has [bMasterConfirm] set. *)
Definition single_master (db : TxDatabase) : Prop :=
  ∀ k1 k2 r1 r2,
    rows_ db !! k1 = Some r1 → rows_ db !! k2 = Some r2 →
    TxRow.ntxid r1 = TxRow.ntxid r2 →
    TxRow.bMasterConfirm r1 = true → TxRow.bMasterConfirm r2 = true →
    k1 = k2.

(** The flag is set on exactly the rows on which [confirmed] was called
    in [done], and those rows exist. *)
Definition master_tracks (db : TxDatabase) (done : list operation) : Prop :=
  (∀ k r, rows_ db !! k = Some r →
          (TxRow.bMasterConfirm r = true ↔ ∃ h, Op_confirmed k h ∈ done))
  ∧ (∀ k h, Op_confirmed k h ∈ done → is_Some (rows_ db !! k)).

(** The loop of [ntxidHeight]: the largest block height of a confirmed
    row, or 0 when none is positive. *)
Definition max_confirmed_height (height : Z) (txRows : list TxRow.t) : Z :=
  foldl (λ height row,
           if decide (TxRow.state row = TxState.confirmed) then
             if decide (height < TxRow.block_height row)
             then TxRow.block_height row else height
           else height) height txRows.

(** The reference definition of [is_safe], in the words of the
    specification: a transaction that is not in the table or whose row is
    confirmed is safe; otherwise it is unsafe when the previous outpoint of
    one of its inputs is in the double-spend set or the source transaction
    of one of its inputs is unsafe, and safe when no input fails. *)
Inductive is_safe_spec (cache_ : TxDatabase) (doubleSpends_ : gset Point.t)
  : hash_digest → bool → Prop :=
  | safe_missing txid :
      rows_ cache_ !! txid = None →
      is_safe_spec cache_ doubleSpends_ txid true
  | safe_confirmed txid row :
      rows_ cache_ !! txid = Some row →
      TxRow.state row = TxState.confirmed →
      is_safe_spec cache_ doubleSpends_ txid true
  | safe_inputs txid row :
      rows_ cache_ !! txid = Some row →
      TxRow.state row ≠ TxState.confirmed →
      (∀ input, input ∈ Tx.inputs (TxRow.tx row) →
                TxIn.previous_output input ∉ doubleSpends_) →
      (∀ input, input ∈ Tx.inputs (TxRow.tx row) →
                is_safe_spec cache_ doubleSpends_
                  (Point.hash (TxIn.previous_output input)) true) →
      is_safe_spec cache_ doubleSpends_ txid true
  | unsafe_double_spend txid row input :
      rows_ cache_ !! txid = Some row →
      TxRow.state row ≠ TxState.confirmed →
      input ∈ Tx.inputs (TxRow.tx row) →
      TxIn.previous_output input ∈ doubleSpends_ →
      is_safe_spec cache_ doubleSpends_ txid false
  | unsafe_source txid row input :
      rows_ cache_ !! txid = Some row →
      TxRow.state row ≠ TxState.confirmed →
      input ∈ Tx.inputs (TxRow.tx row) →
      is_safe_spec cache_ doubleSpends_
        (Point.hash (TxIn.previous_output input)) false →
      is_safe_spec cache_ doubleSpends_ txid false.

(** The unconfirmed part of the transaction graph is a DAG: [rank]
    decreases from an unconfirmed row to the sources of its inputs. *)
Definition acyclic_by (rank : hash_digest → nat) (cache_ : TxDatabase)
  : Prop :=
  ∀ txid row input,
    rows_ cache_ !! txid = Some row →
    TxRow.state row ≠ TxState.confirmed →
    input ∈ Tx.inputs (TxRow.tx row) →
    (rank (Point.hash (TxIn.previous_output input)) < rank txid)%nat.

(** Every entry of the memo table is a result of the reference
    definition. *)
Definition memo_ok (cache_ : TxDatabase) (doubleSpends_ : gset Point.t)
  (visited_ : gmap hash_digest bool) : Prop :=
  ∀ txid b, visited_ !! txid = Some b →
            is_safe_spec cache_ doubleSpends_ txid b.

(** The state is one [static_cast<uint8_t>] keeps. *)
Definition state_representable (s : TxState.t) : Prop :=
  match s with
  | TxState.cast v => 2 ≤ v < 256
  | _ => True
  end.

(** The satoshi format gives the transaction back, whatever follows it,
    and [satoshi_raw_size] is the size of its encoding. *)
Definition codec_round_trip (tx : transaction_type) : Prop :=
  (∀ rest, satoshi_load (satoshi_save tx ++ rest) = Some tx)
  ∧ satoshi_raw_size tx = length (satoshi_save tx).

(** The fields of the row under [k] have the sizes and ranges of their
    C++ types. *)
Definition row_serializable (k : hash_digest) (r : TxRow.t) : Prop :=
  length k = hash_size
  ∧ length (TxRow.txid r) = hash_size
  ∧ length (TxRow.ntxid r) = hash_size
  ∧ in_i64 (TxRow.block_height r)
  ∧ in_i64 (TxRow.timestamp r)
  ∧ state_representable (TxRow.state r)
  ∧ codec_round_trip (TxRow.tx r).

Definition serializable (db : TxDatabase) : Prop :=
  in_u64 (last_height_ db)
  ∧ ∀ k r, rows_ db !! k = Some r → row_serializable k r.

(** The stale-purge policy of [serialize], with its 64-bit signed sum. *)
Definition purged (now unconfirmed_timeout : Z) (r : TxRow.t) : Prop :=
  to_i64 (TxRow.timestamp r + unconfirmed_timeout) < now
  ∧ TxState.unconfirmed = TxRow.state r.

(** The row [load] builds at time [now'] from the record of [r]. *)
Definition reloaded (now' : Z) (r : TxRow.t) : TxRow.t :=
  let height :=
    if decide (TxState.unconfirmed = TxRow.state r)
    then TxRow.timestamp r else TxRow.block_height r in
  TxRow.mk (TxRow.tx r) (TxRow.txid r) (TxRow.ntxid r) (TxRow.state r)
    height
    (if decide (TxState.unconfirmed = TxRow.state r) then height else now')
    (TxRow.bMalleated r) (TxRow.bMasterConfirm r) (TxRow.need_check r).

(** The fields a snapshot keeps of a row. *)
Definition fields_preserved (r r' : TxRow.t) : Prop :=
  TxRow.tx r' = TxRow.tx r
  ∧ TxRow.txid r' = TxRow.txid r
  ∧ TxRow.ntxid r' = TxRow.ntxid r
  ∧ TxRow.state r' = TxRow.state r
  ∧ (TxRow.state r = TxState.confirmed →
     TxRow.block_height r' = TxRow.block_height r)
  ∧ (TxRow.state r = TxState.unconfirmed →
     TxRow.timestamp r' = TxRow.timestamp r)
  ∧ TxRow.need_check r' = TxRow.need_check r
  ∧ TxRow.bMalleated r' = TxRow.bMalleated r
  ∧ TxRow.bMasterConfirm r' = TxRow.bMasterConfirm r.

(** The table [load] builds from the records of the entries [l]. *)
Definition reload_all (now' : Z) (rows : row_table)
  (l : list (hash_digest * TxRow.t)) : row_table :=
  foldl (λ rows kr, <[kr.1 := reloaded now' kr.2]> rows) rows l.

Definition Truncated : Status :=
  ABC_ERROR ABC_CC_ParseError "Truncated transaction database".

Definition OutdatedFormat : Status :=
  ABC_ERROR ABC_CC_ParseError "Outdated transaction database format".

Definition UnknownHeader : Status :=
  ABC_ERROR ABC_CC_ParseError "Unknown transaction database header".

Definition UnknownRecord : Status :=
  ABC_ERROR ABC_CC_ParseError "Unknown entry in transaction database".

(** The magic of a snapshot: its first four bytes, little-endian. *)
Definition magic_of (data : data_chunk) : Z :=
  from_little_endian (take 4 data).

(** The size of the header: the magic and the last height. *)
Definition header_size : nat := 12.

(** [records now s s']: [s] is a sequence of complete records, each a
    record kind [serial_tx] and a body that [load_row] reads to its end,
    followed by [s']. *)
Inductive records (now : Z) : list byte → list byte → Prop :=
  | records_done s : records now s s
  | records_next b s k r s' s'' :
      Z_of_byte b = serial_tx →
      load_row now s = Some (k, r, s') →
      records now s' s'' →
      records now (b :: s) s''.

(** After complete records, the input goes on with a byte that is not a
    record kind. *)
Definition unknown_record_seen (now : Z) (data : data_chunk) : Prop :=
  ∃ b s, records now (drop header_size data) (b :: s)
         ∧ Z_of_byte b ≠ serial_tx.

(** After complete records, the input goes on with a record that it ends
    in the middle of. *)
Definition truncated_mid_record (now : Z) (data : data_chunk) : Prop :=
  ∃ b s, records now (drop header_size data) (b :: s)
         ∧ Z_of_byte b = serial_tx
         ∧ load_row now s = None.

(** The input is complete records to its end. *)
Definition records_complete (now : Z) (data : data_chunk) : Prop :=
  records now (drop header_size data) [].

(** The part of the input where the parser stops is determined. *)
Definition stuck (now : Z) (s : list byte) : Prop :=
  match s with
  | [] => True
  | b :: s => Z_of_byte b ≠ serial_tx ∨ load_row now s = None
  end.

(** ** The vocabulary of the further properties *)

(** What no operation changes in a row of the table: the transaction, its
    two hashes and the fork mark. *)
Definition same_identity (r r' : TxRow.t) : Prop :=
  TxRow.tx r' = TxRow.tx r
  ∧ TxRow.txid r' = TxRow.txid r
  ∧ TxRow.ntxid r' = TxRow.ntxid r
  ∧ TxRow.need_check r' = TxRow.need_check r.

(** A call of one of the operations that change the database in place. *)
Inductive command : Type :=
  | Cmd_insert (now : Z) (tx : transaction_type)
  | Cmd_clear
  | Cmd_at_height (height : Z)
  | Cmd_confirmed (txid : hash_digest) (block_height : Z)
  | Cmd_unconfirmed (txid : hash_digest)
  | Cmd_reset_timestamp (now : Z) (txid : hash_digest).

Definition exec_command (c : command) (db : TxDatabase)
  : option TxDatabase :=
  match c with
  | Cmd_insert now tx => Some (insert now tx db).2
  | Cmd_clear => Some (clear db)
  | Cmd_at_height height => Some (at_height height db)
  | Cmd_confirmed txid block_height => confirmed txid block_height db
  | Cmd_unconfirmed txid => unconfirmed txid db
  | Cmd_reset_timestamp now txid => Some (reset_timestamp now txid db)
  end.

(** The calls of [cs] in order; [None] when an assertion fails. *)
Fixpoint exec (cs : list command) (db : TxDatabase) : option TxDatabase :=
  match cs with
  | [] => Some db
  | c :: cs =>
      match exec_command c db with
      | Some db => exec cs db
      | None => None
      end
  end.

(** The row under [k] is the row of its transaction: the key and the two
    hashes of the row are those of [tx]. *)
Definition row_consistent (k : hash_digest) (r : TxRow.t) : Prop :=
  k = hash_transaction (TxRow.tx r)
  ∧ TxRow.txid r = k
  ∧ TxRow.ntxid r = makeNtxid (TxRow.tx r).

(** What [load] at time [now] makes of every record: the key and the two
    hashes of the row have the size of a hash, the block height is a
    [long long], the state is the cast of a byte, and the timestamp is the
    stored height of an unconfirmed row and [now] for any other row. *)
Definition loaded_row (now : Z) (k : hash_digest) (r : TxRow.t) : Prop :=
  length k = hash_size
  ∧ length (TxRow.txid r) = hash_size
  ∧ length (TxRow.ntxid r) = hash_size
  ∧ in_i64 (TxRow.block_height r)
  ∧ state_representable (TxRow.state r)
  ∧ TxRow.timestamp r
    = (if decide (TxState.unconfirmed = TxRow.state r)
       then TxRow.block_height r else now).

(** [parsed now s l]: [s] is the records of the keys and rows [l], in
    order, to its end. *)
Inductive parsed (now : Z)
  : list byte → list (hash_digest * TxRow.t) → Prop :=
  | parsed_nil : parsed now [] []
  | parsed_cons b s k r s' l :
      Z_of_byte b = serial_tx →
      load_row now s = Some (k, r, s') →
      parsed now s' l →
      parsed now (b :: s) ((k, r) :: l).

(** The table after [rows[hash] = row] for the records [l], in order. *)
Definition assign_all (rows : row_table) (l : list (hash_digest * TxRow.t))
  : row_table :=
  foldl (λ (m : row_table) (kr : hash_digest * TxRow.t), <[kr.1 := kr.2]> m)
        rows l.

(** The number of inputs of transactions of the table that spend the
    outpoint [p]. *)
Definition spend_count (db : TxDatabase) (p : Point.t) : nat :=
  length (filter (λ input, TxIn.previous_output input = p)
            (flat_map (λ kr : hash_digest * TxRow.t,
                         Tx.inputs (TxRow.tx kr.2))
                      (map_to_list (rows_ db)))).

Section Addresses_vocabulary.

Context {payment_address : Type}.
Variable extract : data_chunk → option payment_address.
Variable encoded : payment_address → string.

(** An unspent output of ours that passes the safety check: the output
    of index [i] of the row under [k], which no input of the table spends,
    whose script has an address of [addresses], and whose transaction is
    safe for the double spends [doubleSpends] and, under [filter], is
    confirmed or has only inputs of ours. *)
Definition is_utxo (db : TxDatabase) (doubleSpends : gset Point.t)
  (addresses : AddressSet) (filter : bool) (info : OutputInfo.t) : Prop :=
  ∃ k r i output address,
    rows_ db !! k = Some r
    ∧ Tx.outputs (TxRow.tx r) !! i = Some output
    ∧ info = OutputInfo.mk (Point.mk k (Z.of_nat i)) (TxOut.value output)
    ∧ spend_count db (Point.mk k (Z.of_nat i)) = 0%nat
    ∧ extract (TxOut.script output) = Some address
    ∧ encoded address ∈ addresses
    ∧ (filter = true → TxRow.state r ≠ TxState.confirmed →
       check_inputs extract encoded addresses (Tx.inputs (TxRow.tx r))
       = true)
    ∧ is_safe_spec db doubleSpends k true.

End Addresses_vocabulary.


(** * Properties *)

(** ** The iteration order and clusters *)

Lemma elem_of_iterate (m : row_table) (k : hash_digest) (r : TxRow.t) :
  (k, r) ∈ iterate m ↔ m !! k = Some r.
Proof. rewrite (iterate_perm m). apply elem_of_map_to_list. Qed.

Lemma NoDup_iterate_keys (m : row_table) : NoDup (iterate m).*1.
Proof. rewrite (iterate_perm m). apply NoDup_fst_map_to_list. Qed.

Lemma NoDup_iterate (m : row_table) : NoDup (iterate m).
Proof. rewrite (iterate_perm m). apply NoDup_map_to_list. Qed.

Lemma elem_of_ntxidLookupAll (n : hash_digest) (rows : row_table)
  (k : hash_digest) :
  k ∈ ntxidLookupAll n rows ↔ ∃ r, rows !! k = Some r ∧ TxRow.ntxid r = n.
Proof.
  unfold ntxidLookupAll. rewrite list_elem_of_fmap. split.
  - intros [[k' r] [-> Hin]]. apply list_elem_of_filter in Hin as [Hn Hin].
    apply elem_of_iterate in Hin. eauto.
  - intros (r & Hr & Hn). exists (k, r). split; [done|].
    apply list_elem_of_filter. split; [done|]. by apply elem_of_iterate.
Qed.

Lemma NoDup_ntxidLookupAll (n : hash_digest) (rows : row_table) :
  NoDup (ntxidLookupAll n rows).
Proof.
  unfold ntxidLookupAll.
  assert (Hsub : sublist (filter (λ kr, TxRow.ntxid kr.2 = n) (iterate rows)).*1
                         (iterate rows).*1).
  { apply fmap_sublist, sublist_filter. }
  eapply sublist_NoDup; [apply NoDup_iterate_keys|exact Hsub].
Qed.

(** Dereferencing the pointers of a cluster gives its rows, in order. *)
Lemma deref_all_ntxidLookupAll (n : hash_digest) (rows : row_table) :
  deref_all rows (ntxidLookupAll n rows)
  = (filter (λ kr, TxRow.ntxid kr.2 = n) (iterate rows)).*2.
Proof.
  unfold deref_all, ntxidLookupAll.
  assert (H : ∀ l : list (hash_digest * TxRow.t),
             (∀ kr, kr ∈ l → rows !! kr.1 = Some kr.2) →
             omap (λ p, rows !! p) l.*1 = l.*2).
  { induction l as [|[k r] l IH]; intros Hl; [done|].
    pose proof (Hl (k, r) ltac:(left)) as Hk. cbn in Hk |- *.
    rewrite Hk. cbn. f_equal. apply IH.
    intros kr Hkr. apply Hl. by right. }
  apply H. intros [k r] Hin. apply list_elem_of_filter in Hin as [_ Hin].
  by apply elem_of_iterate.
Qed.

Lemma elem_of_cluster_rows (n : hash_digest) (rows : row_table)
  (r : TxRow.t) :
  r ∈ deref_all rows (ntxidLookupAll n rows)
  ↔ ∃ k, rows !! k = Some r ∧ TxRow.ntxid r = n.
Proof.
  rewrite deref_all_ntxidLookupAll, list_elem_of_fmap. split.
  - intros [[k r'] [-> Hin]]. apply list_elem_of_filter in Hin as [Hn Hin].
    apply elem_of_iterate in Hin. eauto.
  - intros (k & Hr & Hn). exists (k, r). split; [done|].
    apply list_elem_of_filter. split; [done|]. by apply elem_of_iterate.
Qed.

(** ** insert *)

(** The effect of the loop of [insert] over the pointers [ps]: the rows
    pointed to whose txid differs are marked malleated, and the locals are
    those of the last such row. *)
Lemma insert_fold (txid : hash_digest) (rows : row_table) (h : Z)
  (st : TxState.t) (mal : bool) (ps : list hash_digest) :
  ∀ rows' h' st' mal',
    foldl (insert_step txid) (rows, h, st, mal) ps = (rows', h', st', mal') →
    (∀ k, rows' !! k
          = (λ r, if decide (k ∈ ps ∧ txid ≠ TxRow.txid r)
                  then TxRow.set_bMalleated true r else r) <$> rows !! k)
    ∧ ((∀ p r, p ∈ ps → rows !! p = Some r → txid = TxRow.txid r) →
       (h', st', mal') = (h, st, mal))
    ∧ ((∃ p r, p ∈ ps ∧ rows !! p = Some r ∧ txid ≠ TxRow.txid r) →
       mal' = true
       ∧ ∃ p r, p ∈ ps ∧ rows !! p = Some r ∧ txid ≠ TxRow.txid r
                ∧ h' = TxRow.block_height r ∧ st' = TxRow.state r).
Proof using Type.
  clear satoshi_save satoshi_load satoshi_raw_size.
  induction ps as [|p ps IH] using rev_ind; intros rows' h' st' mal' Hf.
  - cbn in Hf. injection Hf as <- <- <- <-. split; [|split].
    + intros k. destruct (rows !! k); [cbn|done].
      case_decide as Hd; [|done]. destruct Hd as [Hd _]. by apply elem_of_nil in Hd.
    + done.
    + intros (p & r & Hp & _). by apply elem_of_nil in Hp.
  - rewrite foldl_app in Hf. cbn in Hf.
    destruct (foldl (insert_step txid) (rows, h, st, mal) ps)
      as [[[rowsm hm] stm] malm] eqn:Hm.
    destruct (IH _ _ _ _ eq_refl) as (Hlk & Hnone & Hsome). clear IH.
    cbn in Hf. rewrite Hlk in Hf.
    destruct (rows !! p) as [r0|] eqn:Hr0; cbn in Hf.
    + assert (Htx : TxRow.txid
                (if decide (p ∈ ps ∧ txid ≠ TxRow.txid r0)
                 then TxRow.set_bMalleated true r0 else r0) = TxRow.txid r0)
        by (by destruct (decide (p ∈ ps ∧ txid ≠ TxRow.txid r0))).
      assert (Hbh : TxRow.block_height
                (if decide (p ∈ ps ∧ txid ≠ TxRow.txid r0)
                 then TxRow.set_bMalleated true r0 else r0)
                    = TxRow.block_height r0)
        by (by destruct (decide (p ∈ ps ∧ txid ≠ TxRow.txid r0))).
      assert (Hst : TxRow.state
                (if decide (p ∈ ps ∧ txid ≠ TxRow.txid r0)
                 then TxRow.set_bMalleated true r0 else r0) = TxRow.state r0)
        by (by destruct (decide (p ∈ ps ∧ txid ≠ TxRow.txid r0))).
      rewrite Htx, Hbh, Hst in Hf. clear Htx Hbh Hst.
      destruct (decide (txid ≠ TxRow.txid r0)) as [Hne|Heq].
      * injection Hf as <- <- <- <-. split; [|split].
        -- intros k. rewrite lookup_alter. destruct (decide (p = k)) as [<-|Hk].
           ++ rewrite Hlk, Hr0. cbn.
              rewrite (decide_True (P := p ∈ ps ++ [p] ∧ _))
                by (split; [apply elem_of_app; right; by left|done]).
              by destruct (decide (p ∈ ps ∧ txid ≠ TxRow.txid r0)).
           ++ rewrite Hlk. destruct (rows !! k) as [r|]; [cbn|done].
              f_equal. apply decide_ext. rewrite elem_of_app, list_elem_of_singleton.
              naive_solver.
        -- intros Hall. exfalso. apply Hne.
           apply (Hall p r0); [|done]. apply elem_of_app. right. by left.
        -- intros _. split; [done|]. exists p, r0.
           split; [apply elem_of_app; right; by left|done].
      * apply dec_stable in Heq. injection Hf as <- <- <- <-. split; [|split].
        -- intros k. rewrite Hlk. destruct (rows !! k) as [r|] eqn:Hr; [cbn|done].
           f_equal. apply decide_ext. rewrite elem_of_app, list_elem_of_singleton.
           split; [naive_solver|]. intros [[Hin| ->] Hne]; [done|]. congruence.
        -- intros Hall. apply Hnone. intros p' r' Hp'. apply Hall.
           apply elem_of_app. by left.
        -- intros (p' & r' & Hp' & Hr' & Hne).
           apply elem_of_app in Hp' as [Hp'|Hp'].
           ++ destruct Hsome as (-> & p2 & r2 & Hp2 & Hrest); [by eauto|].
              split; [done|]. exists p2, r2. split; [|done].
              apply elem_of_app. by left.
           ++ apply list_elem_of_singleton in Hp'. congruence.
    + injection Hf as <- <- <- <-. split; [|split].
      * intros k. rewrite Hlk. destruct (rows !! k) as [r|] eqn:Hr; [cbn|done].
        f_equal. apply decide_ext. rewrite elem_of_app, list_elem_of_singleton.
        split; [naive_solver|]. intros [[Hin| ->] Hne]; [done|]. congruence.
      * intros Hall. apply Hnone. intros p' r' Hp'. apply Hall.
        apply elem_of_app. by left.
      * intros (p' & r' & Hp' & Hr' & Hne).
        apply elem_of_app in Hp' as [Hp'|Hp'].
        -- destruct Hsome as (-> & p2 & r2 & Hp2 & Hrest); [by eauto|].
           split; [done|]. exists p2, r2. split; [|done].
           apply elem_of_app. by left.
        -- apply list_elem_of_singleton in Hp'. congruence.
Qed.

Lemma insert_existing (now : Z) (tx : transaction_type) (db : TxDatabase) :
  is_Some (rows_ db !! hash_transaction tx) → insert now tx db = (false, db).
Proof. intros [r Hr]. unfold insert. by rewrite Hr. Qed.

Lemma insert_fresh (now : Z) (tx : transaction_type) (db : TxDatabase) :
  rows_ db !! hash_transaction tx = None →
  ∃ db' row, insert now tx db = (true, db') ∧ insert_post now tx db db' row.
Proof.
  intros Hnone. unfold insert, insert_post.
  set (txid := hash_transaction tx) in *. set (ntxid := makeNtxid tx).
  rewrite Hnone.
  destruct (foldl (insert_step txid)
              (rows_ db, 0, TxState.unconfirmed, false)
              (ntxidLookupAll ntxid (rows_ db)))
    as [[[rows' h'] st'] mal'] eqn:Hf.
  apply insert_fold in Hf as (Hlk & Hno & Hsome).
  eexists _, _. split; [reflexivity|]. cbn.
  rewrite lookup_insert_eq.
  do 9 (split; [reflexivity|]). split; [|split].
  - intros k Hk. rewrite lookup_insert_ne by done. rewrite Hlk.
    destruct (rows_ db !! k) as [r|] eqn:Hr; [cbn|done].
    f_equal. apply decide_ext. rewrite elem_of_ntxidLookupAll.
    split; [intros [(r' & Hr' & Hn) Hne]; by simplify_eq|].
    intros [Hn Hne]. eauto.
  - intros Hall.
    assert (Heq : (h', st', mal') = (0, TxState.unconfirmed, false)).
    { apply Hno. intros p r Hp Hr.
      apply elem_of_ntxidLookupAll in Hp as (r' & Hr' & Hn).
      simplify_eq. by eapply Hall. }
    by injection Heq as -> -> ->.
  - intros (k & r & Hr & Hn & Hne).
    destruct Hsome as (-> & p2 & r2 & Hp2 & Hr2 & Hne2 & -> & ->).
    { exists k, r. split; [|done]. apply elem_of_ntxidLookupAll. eauto. }
    split; [done|]. exists p2, r2.
    apply elem_of_ntxidLookupAll in Hp2 as (r' & Hr' & Hn').
    by simplify_eq.
Qed.

(** C6.  [insert tx] returns [false] and changes nothing when a row with
    the txid of [tx] exists (so a second [insert] of the same transaction
    returns [false] and adds no row).  Otherwise it returns [true] and adds
    one row under that txid, with [timestamp = now] and [need_check] and
    [bMasterConfirm] false; every row of the ntxid cluster with a different
    txid is marked malleated and nothing else changes; without such a row
    the new row is unconfirmed at height 0 and not malleated, with one it is
    malleated and has the state and the block height of one of them. *)
Theorem C6_insert_semantics (now : Z) (tx : transaction_type)
  (db : TxDatabase) :
  let txid := hash_transaction tx in
  let ntxid := makeNtxid tx in
  (is_Some (rows_ db !! txid) → insert now tx db = (false, db))
  ∧ (rows_ db !! txid = None →
     ∃ db' row,
       insert now tx db = (true, db')
       ∧ last_height_ db' = last_height_ db
       ∧ unconfirmed_timeout_ db' = unconfirmed_timeout_ db
       ∧ rows_ db' !! txid = Some row
       ∧ TxRow.tx row = tx
       ∧ TxRow.txid row = txid
       ∧ TxRow.ntxid row = ntxid
       ∧ TxRow.timestamp row = now
       ∧ TxRow.need_check row = false
       ∧ TxRow.bMasterConfirm row = false
       ∧ (∀ k, k ≠ txid →
            rows_ db' !! k
            = (λ r, if decide (TxRow.ntxid r = ntxid ∧ txid ≠ TxRow.txid r)
                    then TxRow.set_bMalleated true r else r)
                <$> rows_ db !! k)
       ∧ ((∀ k r, rows_ db !! k = Some r → TxRow.ntxid r = ntxid →
                  txid = TxRow.txid r) →
          TxRow.state row = TxState.unconfirmed
          ∧ TxRow.block_height row = 0
          ∧ TxRow.bMalleated row = false)
       ∧ ((∃ k r, rows_ db !! k = Some r ∧ TxRow.ntxid r = ntxid
                  ∧ txid ≠ TxRow.txid r) →
          TxRow.bMalleated row = true
          ∧ ∃ k r, rows_ db !! k = Some r ∧ TxRow.ntxid r = ntxid
                   ∧ txid ≠ TxRow.txid r
                   ∧ TxRow.state row = TxRow.state r
                   ∧ TxRow.block_height row = TxRow.block_height r))
  ∧ (∀ now', insert now' tx (insert now tx db).2
             = (false, (insert now tx db).2)).
Proof.
  intros txid ntxid. split; [apply insert_existing|]. split.
  - intros Hnone. destruct (insert_fresh now tx db Hnone) as (db' & row & ? & ?).
    by exists db', row.
  - intros now'. destruct (rows_ db !! txid) as [r|] eqn:Hr.
    + rewrite (insert_existing now) by (fold txid; by rewrite Hr). cbn.
      apply insert_existing. fold txid. by rewrite Hr.
    + destruct (insert_fresh now tx db Hr) as (db' & row & -> & _ & _ & Hrow & _).
      cbn. apply insert_existing. by rewrite Hrow.
Qed.

(** ** check_fork *)

(** The second loop of [check_fork] writes to copies only. *)
Lemma check_fork_unchanged (height : Z) (db : TxDatabase) :
  check_fork height db = db.
Proof.
  assert (H : ∀ (l : list (hash_digest * TxRow.t)) (d : TxDatabase),
             foldl (λ db _, db) d l = d).
  { induction l as [|row l IH]; intros d; [done|]. cbn. apply IH. }
  exact (H _ _).
Qed.

(** ** unconfirmed on a row that is not confirmed *)

(** C10.  [unconfirmed txid] on a row whose state is already unconfirmed
    changes the block height of that row to 0, whatever it was (also the
    sentinel -1), and nothing else: the state stays unconfirmed, the
    malleated and master-confirm flags of the row stay as they are, and
    every other row is left as it is. *)
Theorem C10_unconfirmed_on_unconfirmed (txid : hash_digest)
  (db : TxDatabase) (row : TxRow.t) :
  rows_ db !! txid = Some row →
  TxRow.state row = TxState.unconfirmed →
  ∃ db' row',
    unconfirmed txid db = Some db'
    ∧ last_height_ db' = last_height_ db
    ∧ rows_ db' !! txid = Some row'
    ∧ row' = TxRow.set_block_height 0 row
    ∧ TxRow.block_height row' = 0
    ∧ TxRow.state row' = TxState.unconfirmed
    ∧ TxRow.bMalleated row' = TxRow.bMalleated row
    ∧ TxRow.bMasterConfirm row' = TxRow.bMasterConfirm row
    ∧ ∀ k, k ≠ txid → rows_ db' !! k = rows_ db !! k.
Proof.
  intros Hrow Hst. unfold unconfirmed. rewrite Hrow.
  rewrite decide_False by (rewrite Hst; discriminate).
  eexists _, _. split; [reflexivity|]. cbn.
  rewrite lookup_alter, decide_True by done. rewrite Hrow. cbn.
  split; [done|]. split; [reflexivity|].
  split; [destruct row; cbn in *; by subst|].
  do 4 (split; [done|]).
  intros k Hk. rewrite lookup_alter, decide_False; done.
Qed.

(** ** confirmed *)

Lemma confirmed_fold (txid : hash_digest) (h : Z) (rows : row_table)
  (ps : list hash_digest) (k : hash_digest) :
  match rows !! k with
  | None => foldl (confirmed_step txid h) rows ps !! k = None
  | Some r =>
      ∃ r', foldl (confirmed_step txid h) rows ps !! k = Some r'
            ∧ confirmed_row txid h
                (k ∈ ps ∧ txid ≠ TxRow.txid r)
                (∃ p r0, p ∈ ps ∧ rows !! p = Some r0
                         ∧ txid ≠ TxRow.txid r0)
                k r r'
  end.
Proof.
  revert k. induction ps as [|p ps IH] using rev_ind; intros k.
  - cbn. destruct (rows !! k) as [r|]; [|done]. exists r. split; [done|].
    unfold confirmed_row. do 6 (split; [done|]). split.
    + intros [Hin _]. by apply elem_of_nil in Hin.
    + intros _. do 2 (split; [done|]). split; [by left|].
      intros [?|[_ (p & r0 & Hin & _)]]; [done|]. by apply elem_of_nil in Hin.
  - rewrite foldl_app. cbn. set (rowsm := foldl (confirmed_step txid h) rows ps) in *.
    pose proof (IH p) as IHp. pose proof (IH k) as IHk. clear IH.
    unfold confirmed_step.
    destruct (rows !! p) as [r0|] eqn:Hr0.
    2:{ rewrite IHp. destruct (rows !! k) as [r|] eqn:Hr; [|done].
        destruct IHk as (r' & Hr' & Hrow). exists r'. split; [done|].
        unfold confirmed_row in *. destruct Hrow as (?&?&?&?&?&?&Hs&Hn).
        do 6 (split; [done|]).
        assert (Hkp : k ≠ p) by congruence.
        split.
        - intros [Hin Hne]. apply Hs. split; [|done].
          apply elem_of_app in Hin as [?|Hin]; [done|].
          by apply list_elem_of_singleton in Hin.
        - intros Hns. destruct Hn as (?&?&Hm).
          { intros [Hin Hne]. apply Hns. split; [|done]. apply elem_of_app. by left. }
          do 2 (split; [done|]). rewrite Hm. split.
          + intros [?|[-> (p' & r1 & Hin & Hr1 & Hne)]]; [by left|right].
            split; [done|]. exists p', r1. split; [|done]. apply elem_of_app. by left.
          + intros [?|[-> (p' & r1 & Hin & Hr1 & Hne)]]; [by left|right].
            split; [done|]. exists p', r1. split; [|done].
            apply elem_of_app in Hin as [?|Hin]; [done|].
            apply list_elem_of_singleton in Hin. congruence. }
    destruct IHp as (rm & Hrm & Hrowp). rewrite Hrm.
    assert (Htxm : TxRow.txid rm = TxRow.txid r0) by apply Hrowp.
    rewrite Htxm.
    destruct (decide (txid ≠ TxRow.txid r0)) as [Hne0|Heq0].
    + (* the loop treats [p] as a sibling *)
      destruct (rows !! k) as [r|] eqn:Hr.
      2:{ by rewrite !lookup_alter_None. }
      destruct IHk as (r' & Hr' & Hrow).
      unfold confirmed_row in *. destruct Hrow as (?&?&?&?&?&?&Hs&Hn).
      destruct (decide (p = k)) as [->|Hpk];
        destruct (decide (txid = k)) as [->|Htk];
        rewrite ?lookup_alter_eq, ?lookup_alter_ne by done;
        rewrite ?lookup_alter_eq, ?lookup_alter_ne by done;
        rewrite Hr'; cbn; (eexists; split; [reflexivity|]); cbn;
        (do 6 (split; [done|])).
      * simplify_eq. split; [done|]. intros Hns. exfalso. apply Hns.
        split; [|done]. apply elem_of_app. right. by left.
      * simplify_eq. split; [done|]. intros Hns. exfalso. apply Hns.
        split; [|done]. apply elem_of_app. right. by left.
      * split.
        -- intros [Hin Hne]. destruct Hs as (?&?&?); [|done].
           split; [|done]. apply elem_of_app in Hin as [?|Hin]; [done|].
           apply list_elem_of_singleton in Hin. congruence.
        -- intros Hns. destruct Hn as (?&?&Hm).
           { intros [Hin Hne]. apply Hns. split; [|done]. apply elem_of_app. by left. }
           do 2 (split; [done|]). split; [|done]. intros _. right.
           split; [done|]. exists p, r0. split; [|done].
           apply elem_of_app. right. by left.
      * split.
        -- intros [Hin Hne]. apply Hs.
           split; [|done]. apply elem_of_app in Hin as [?|Hin]; [done|].
           apply list_elem_of_singleton in Hin. congruence.
        -- intros Hns. destruct Hn as (?&?&Hm).
           { intros [Hin Hne]. apply Hns. split; [|done]. apply elem_of_app. by left. }
           do 2 (split; [done|]). rewrite Hm. split.
           ++ intros [?|[? _]]; [by left|done].
           ++ intros [?|[? _]]; [by left|done].
    + apply dec_stable in Heq0.
      destruct (rows !! k) as [r|] eqn:Hr; [|done].
      destruct IHk as (r' & Hr' & Hrow). exists r'. split; [done|].
      unfold confirmed_row in *. destruct Hrow as (?&?&?&?&?&?&Hs&Hn).
      do 6 (split; [done|]).
      split.
      * intros [Hin Hne]. apply Hs. split; [|done].
        apply elem_of_app in Hin as [?|Hin]; [done|].
        apply list_elem_of_singleton in Hin. congruence.
      * intros Hns. destruct Hn as (?&?&Hm).
        { intros [Hin Hne]. apply Hns. split; [|done]. apply elem_of_app. by left. }
        do 2 (split; [done|]). rewrite Hm. split.
        -- intros [?|[-> (p' & r1 & Hin & Hr1 & Hne)]]; [by left|right].
           split; [done|]. exists p', r1. split; [|done]. apply elem_of_app. by left.
        -- intros [?|[-> (p' & r1 & Hin & Hr1 & Hne)]]; [by left|right].
           split; [done|]. exists p', r1. split; [|done].
           apply elem_of_app in Hin as [?|Hin]; [done|].
           apply list_elem_of_singleton in Hin. congruence.
Qed.

Lemma confirmed_effect (txid : hash_digest) (h : Z) (db : TxDatabase)
  (row : TxRow.t) :
  rows_ db !! txid = Some row →
  ∃ db',
    confirmed txid h db = Some db'
    ∧ last_height_ db' = last_height_ db
    ∧ unconfirmed_timeout_ db' = unconfirmed_timeout_ db
    ∧ ∀ k,
        match rows_ db !! k with
        | None => rows_ db' !! k = None
        | Some r =>
            ∃ r', rows_ db' !! k = Some r'
                  ∧ confirmed_post txid (TxRow.ntxid row) h
                      (∃ k2 r2, rows_ db !! k2 = Some r2
                                ∧ TxRow.ntxid r2 = TxRow.ntxid row
                                ∧ txid ≠ TxRow.txid r2)
                      k r r'
        end.
Proof using iterate_perm.
  clear satoshi_save satoshi_load satoshi_raw_size.
  intros Hrow. unfold confirmed. rewrite Hrow.
  assert (Hcf : (if decide (TxRow.state row = TxState.confirmed
                            ∧ TxRow.block_height row ≠ h)
                 then check_fork (to_u64 (TxRow.block_height row)) db
                 else db) = db).
  { case_decide; [apply check_fork_unchanged|done]. }
  rewrite Hcf. clear Hcf.
  eexists. split; [reflexivity|]. cbn. do 2 (split; [done|]).
  intros k.
  set (upd := λ r, TxRow.set_bMasterConfirm true
                     (TxRow.set_block_height h
                        (TxRow.set_state TxState.confirmed r))).
  set (rows1 := alter upd txid (rows_ db)).
  set (ps := ntxidLookupAll (TxRow.ntxid row) (rows_ db)).
  pose proof (confirmed_fold txid h rows1 ps k) as Hfold.
  assert (Hhas : (∃ p r0, p ∈ ps ∧ rows1 !! p = Some r0 ∧ txid ≠ TxRow.txid r0)
                 ↔ (∃ k2 r2, rows_ db !! k2 = Some r2
                             ∧ TxRow.ntxid r2 = TxRow.ntxid row
                             ∧ txid ≠ TxRow.txid r2)).
  { split.
    - intros (p & r0 & Hp & Hr0 & Hne).
      apply elem_of_ntxidLookupAll in Hp as (r & Hr & Hn).
      exists p, r. do 2 (split; [done|]).
      unfold rows1 in Hr0. rewrite lookup_alter in Hr0.
      case_decide; [subst p|congruence].
      rewrite Hr in Hr0. by injection Hr0 as <-.
    - intros (k2 & r2 & Hr2 & Hn & Hne).
      exists k2. destruct (rows1 !! k2) as [r0|] eqn:Hr0.
      + exists r0. split; [apply elem_of_ntxidLookupAll; eauto|].
        split; [done|].
        unfold rows1 in Hr0. rewrite lookup_alter in Hr0.
        case_decide; [subst k2|congruence].
        rewrite Hr2 in Hr0. by injection Hr0 as <-.
      + unfold rows1 in Hr0. apply lookup_alter_None in Hr0. congruence. }
  destruct (rows_ db !! k) as [r|] eqn:Hr.
  2:{ assert (Hr1 : rows1 !! k = None) by (by apply lookup_alter_None).
      by rewrite Hr1 in Hfold. }
  assert (Hr1 : rows1 !! k = Some (if decide (txid = k) then upd r else r)).
  { unfold rows1. rewrite lookup_alter.
    destruct (decide (txid = k)) as [Hk|Hk]; [|done].
    rewrite Hk. by rewrite Hr. }
  rewrite Hr1 in Hfold. destruct Hfold as (r' & Hr' & Hpost).
  exists r'. split; [exact Hr'|].
  unfold confirmed_row in Hpost. rewrite Hhas in Hpost. clear Hhas.
  assert (Hin : k ∈ ps ↔ TxRow.ntxid r = TxRow.ntxid row).
  { unfold ps. rewrite elem_of_ntxidLookupAll. split.
    - intros (r2 & Hr2 & Hn). congruence.
    - eauto. }
  rewrite Hin in Hpost. clear Hin Hr1 Hr'.
  unfold confirmed_post.
  destruct (decide (txid = k)) as [<-|Hk]; cbn in Hpost;
    destruct Hpost as (-> & Htx & -> & -> & -> & -> & Hs & Hn);
    cbn in *; rewrite ?Htx in *; (do 5 (split; [done|])).
  - split; [done|]. split; [done|].
    destruct (decide (TxRow.ntxid r = TxRow.ntxid row
                      ∧ txid ≠ TxRow.txid r)) as [Hsib|Hnsib].
    + destruct (Hs Hsib) as (?&?&?). naive_solver.
    + destruct (Hn Hnsib) as (?&?&?). naive_solver.
  - split; [done|]. split; [done|].
    destruct (decide (TxRow.ntxid r = TxRow.ntxid row
                      ∧ txid ≠ TxRow.txid r)) as [Hsib|Hnsib].
    + destruct (Hs Hsib) as (?&?&?). naive_solver.
    + destruct (Hn Hnsib) as (?&?&?). naive_solver.
Qed.

(** ** unconfirmed *)

Lemma table_rel_refl (R : TxRow.t → TxRow.t → Prop) (m : row_table) :
  (∀ r, R r r) → table_rel R m m.
Proof. intros HR k. destruct (m !! k) as [r|] eqn:Hr; eauto. Qed.

Lemma table_rel_trans (R : TxRow.t → TxRow.t → Prop)
  (m1 m2 m3 : row_table) :
  (∀ r1 r2 r3, R r1 r2 → R r2 r3 → R r1 r3) →
  table_rel R m1 m2 → table_rel R m2 m3 → table_rel R m1 m3.
Proof.
  intros HR H12 H23 k. specialize (H12 k). specialize (H23 k).
  destruct (m1 !! k) as [r1|].
  - destruct H12 as (r2 & Hr2 & H12). rewrite Hr2 in H23.
    destruct H23 as (r3 & Hr3 & H23). eauto.
  - by rewrite H12 in H23.
Qed.

Lemma table_rel_alter (R : TxRow.t → TxRow.t → Prop)
  (f : TxRow.t → TxRow.t) (p : hash_digest) (m : row_table) :
  (∀ r, R r r) → (∀ r, R r (f r)) → table_rel R m (alter f p m).
Proof.
  intros Hrefl Hf k. rewrite lookup_alter.
  destruct (decide (p = k)) as [->|Hk]; destruct (m !! k) as [r|]; cbn; eauto.
Qed.

Lemma table_rel_weaken (R R' : TxRow.t → TxRow.t → Prop)
  (m m' : row_table) :
  (∀ r r', R r r' → R' r r') → table_rel R m m' → table_rel R' m m'.
Proof.
  intros HR H k. specialize (H k). destruct (m !! k); [|done].
  destruct H as (r' & ? & ?). eauto.
Qed.

Lemma unconfirmed_post_refl (r : TxRow.t) : unconfirmed_post r r.
Proof. by unfold unconfirmed_post. Qed.

Lemma unconfirmed_post_trans (r1 r2 r3 : TxRow.t) :
  unconfirmed_post r1 r2 → unconfirmed_post r2 r3 → unconfirmed_post r1 r3.
Proof. unfold unconfirmed_post. naive_solver congruence. Qed.

Lemma unconfirmed_fold (txid : hash_digest) (ps : list hash_digest) :
  ∀ rows h st mal rows' h' st' mal',
    foldl (unconfirmed_step txid) (rows, h, st, mal) ps
    = (rows', h', st', mal') →
    (mal = true → mal' = true) ∧ table_rel unconfirmed_post rows rows'.
Proof using Type.
  clear satoshi_save satoshi_load satoshi_raw_size.
  induction ps as [|p ps IH]; intros rows h st mal rows' h' st' mal' Hf.
  - cbn in Hf. injection Hf as <- <- <- <-.
    split; [done|]. apply table_rel_refl, unconfirmed_post_refl.
  - cbn [foldl] in Hf.
    assert (Hstep : ∃ rows1 h1 st1 mal1,
               unconfirmed_step txid (rows, h, st, mal) p
               = (rows1, h1, st1, mal1)
               ∧ (mal = true → mal1 = true)
               ∧ table_rel unconfirmed_post rows rows1).
    { cbn. destruct (rows !! p) as [r|] eqn:Hr.
      - destruct (decide (txid ≠ TxRow.txid r)).
        + destruct (TxRow.bMasterConfirm r) eqn:Hmc.
          * eexists _, _, _, _. split; [reflexivity|]. split; [done|].
            apply table_rel_refl, unconfirmed_post_refl.
          * eexists _, _, _, _. split; [reflexivity|]. split; [done|].
            apply table_rel_alter; [apply unconfirmed_post_refl|].
            intros r0. by unfold unconfirmed_post.
        + eexists _, _, _, _. split; [reflexivity|]. split; [done|].
          apply table_rel_refl, unconfirmed_post_refl.
      - eexists _, _, _, _. split; [reflexivity|]. split; [done|].
        apply table_rel_refl, unconfirmed_post_refl. }
    destruct Hstep as (rows1 & h1 & st1 & mal1 & Heq & Hmal & Hrel).
    rewrite Heq in Hf. apply IH in Hf as [Hmal' Hrel'].
    split; [tauto|].
    eapply table_rel_trans; [apply unconfirmed_post_trans|exact Hrel|exact Hrel'].
Qed.

Lemma unconfirmed_effect (txid : hash_digest) (db : TxDatabase)
  (row : TxRow.t) :
  rows_ db !! txid = Some row →
  ∃ db',
    unconfirmed txid db = Some db'
    ∧ last_height_ db' = last_height_ db
    ∧ unconfirmed_timeout_ db' = unconfirmed_timeout_ db
    ∧ table_rel unconfirmed_post (rows_ db) (rows_ db').
Proof using Type.
  clear satoshi_save satoshi_load satoshi_raw_size.
  intros Hrow. unfold unconfirmed. rewrite Hrow.
  destruct (decide (TxRow.state row = TxState.confirmed)) as [Hst|Hst].
  - destruct (foldl (unconfirmed_step txid)
                (rows_ db, 0, TxState.unconfirmed, TxRow.bMalleated row)
                (ntxidLookupAll (TxRow.ntxid row) (rows_ db)))
      as [[[rows' h'] st'] mal'] eqn:Hf.
    apply unconfirmed_fold in Hf as [Hmal Hrel].
    assert (Hcf : (match rows' !! txid with
                   | Some row0 =>
                       if decide (TxState.unconfirmed = TxRow.state row0)
                       then check_fork (to_u64 (TxRow.block_height row0))
                              (set_rows rows' db)
                       else set_rows rows' db
                   | None => set_rows rows' db
                   end) = set_rows rows' db).
    { destruct (rows' !! txid); [|done].
      case_decide; [apply check_fork_unchanged|done]. }
    rewrite Hcf. clear Hcf.
    eexists. split; [reflexivity|]. cbn. do 2 (split; [done|]).
    intros k. specialize (Hrel k). rewrite lookup_alter.
    destruct (decide (txid = k)) as [<-|Hk].
    + rewrite Hrow in Hrel |- *. destruct Hrel as (r' & -> & Hpost). cbn.
      eexists. split; [reflexivity|].
      unfold unconfirmed_post in *. cbn. naive_solver.
    + done.
  - eexists. split; [reflexivity|]. cbn. do 2 (split; [done|]).
    intros k. rewrite lookup_alter.
    destruct (decide (txid = k)) as [<-|Hk].
    + rewrite Hrow. cbn. eexists. split; [reflexivity|].
      by unfold unconfirmed_post.
    + destruct (rows_ db !! k) as [r|] eqn:Hr; [|done].
      exists r. split; [done|]. apply unconfirmed_post_refl.
Qed.

(** ** Sequences of operations *)

Lemma table_rel_keeps_ids_invariants (db db' : TxDatabase) :
  table_rel keeps_ids (rows_ db) (rows_ db') →
  keys_consistent db ∧ malleation_invariant db →
  keys_consistent db' ∧ malleation_invariant db'.
Proof.
  intros Hrel [Hkeys Hmal].
  assert (Hback : ∀ k r', rows_ db' !! k = Some r' →
                          ∃ r, rows_ db !! k = Some r ∧ keeps_ids r r').
  { intros k r' Hr'. specialize (Hrel k).
    destruct (rows_ db !! k) as [r|]; [|congruence].
    destruct Hrel as (r'' & Hr'' & Hk). exists r. split; [done|]. congruence. }
  split.
  - intros k r' Hr'. destruct (Hback _ _ Hr') as (r & Hr & Htx & _).
    rewrite Htx. by eapply Hkeys.
  - intros k1 k2 r1' r2' Hne H1 H2 Hn.
    destruct (Hback _ _ H1) as (r1 & Hr1 & _ & Hn1 & Hm1).
    destruct (Hback _ _ H2) as (r2 & Hr2 & _ & Hn2 & Hm2).
    destruct (Hmal k1 k2 r1 r2) as [? ?]; [done..|congruence|]. auto.
Qed.

Lemma run_operation_invariants (o : operation) (db db' : TxDatabase) :
  run_operation o db = Some db' →
  keys_consistent db ∧ malleation_invariant db →
  keys_consistent db' ∧ malleation_invariant db'.
Proof using iterate_perm.
  clear satoshi_save satoshi_load satoshi_raw_size.
  intros Hrun Hinv. destruct o as [now tx|txid h|txid]; cbn in Hrun.
  - (* insert *)
    injection Hrun as <-.
    destruct (rows_ db !! hash_transaction tx) as [r|] eqn:Hr.
    { rewrite insert_existing by (by rewrite Hr). done. }
    destruct (insert_fresh now tx db Hr)
      as (db' & row & -> & _ & _ & Hrow & _ & Htxid & Hntxid & _ & _ & _
          & Hother & _ & Hsome).
    cbn. destruct Hinv as [Hkeys Hmal].
    assert (Hback : ∀ k r', k ≠ hash_transaction tx →
              rows_ db' !! k = Some r' →
              ∃ r, rows_ db !! k = Some r
                   ∧ TxRow.txid r' = TxRow.txid r
                   ∧ TxRow.ntxid r' = TxRow.ntxid r
                   ∧ (TxRow.bMalleated r = true → TxRow.bMalleated r' = true)
                   ∧ (TxRow.ntxid r = makeNtxid tx →
                      TxRow.bMalleated r' = true)).
    { intros k r' Hk Hr'. rewrite (Hother k Hk) in Hr'.
      destruct (rows_ db !! k) as [r0|] eqn:Hr0; [|done].
      cbn in Hr'. injection Hr' as <-. exists r0. split; [done|].
      destruct (decide (TxRow.ntxid r0 = makeNtxid tx
                        ∧ hash_transaction tx ≠ TxRow.txid r0)) as [Hd|Hd].
      - by cbn.
      - do 3 (split; [done|]). intros Hn. exfalso. apply Hd. split; [done|].
        rewrite (Hkeys _ _ Hr0). done. }
    split.
    + intros k r' Hr'.
      destruct (decide (k = hash_transaction tx)) as [->|Hk].
      * congruence.
      * destruct (Hback _ _ Hk Hr') as (r0 & Hr0 & Htx & _).
        rewrite Htx. by eapply Hkeys.
    + assert (Hnewold : ∀ k r', k ≠ hash_transaction tx →
                rows_ db' !! k = Some r' →
                TxRow.ntxid row = TxRow.ntxid r' →
                TxRow.bMalleated row = true ∧ TxRow.bMalleated r' = true).
      { intros k r' Hk Hr' Hn.
        destruct (Hback _ _ Hk Hr') as (r0 & Hr0 & Htx & Hn0 & _ & Hm).
        split.
        - apply Hsome. exists k, r0. split; [done|].
          split; [congruence|]. rewrite (Hkeys _ _ Hr0). done.
        - apply Hm. congruence. }
      intros k1 k2 r1' r2' Hne H1 H2 Hn.
      destruct (decide (k1 = hash_transaction tx)) as [->|Hk1];
        destruct (decide (k2 = hash_transaction tx)) as [->|Hk2].
      * done.
      * rewrite Hrow in H1. injection H1 as <-. by eapply Hnewold.
      * rewrite Hrow in H2. injection H2 as <-.
        destruct (Hnewold k1 r1' Hk1 H1) as [? ?]; [congruence|done].
      * destruct (Hback _ _ Hk1 H1) as (r1 & Hr1 & _ & Hn1 & Hm1 & _).
        destruct (Hback _ _ Hk2 H2) as (r2 & Hr2 & _ & Hn2 & Hm2 & _).
        destruct (Hmal k1 k2 r1 r2) as [? ?]; [done..|congruence|]. auto.
  - (* confirmed *)
    destruct (rows_ db !! txid) as [row|] eqn:Hrow.
    2:{ unfold confirmed in Hrun. by rewrite Hrow in Hrun. }
    destruct (confirmed_effect txid h db row Hrow) as (db1 & Hc & _ & _ & Hk).
    rewrite Hc in Hrun. injection Hrun as <-.
    eapply table_rel_keeps_ids_invariants; [|exact Hinv].
    intros k. specialize (Hk k). destruct (rows_ db !! k) as [r|]; [|done].
    destruct Hk as (r' & Hr' & Hpost). exists r'. split; [done|].
    unfold confirmed_post in Hpost. unfold keeps_ids.
    destruct Hpost as (_ & ? & ? & _ & _ & _ & _ & _ & _ & Hs & Hn).
    do 2 (split; [done|]). intros Hm.
    destruct (decide (TxRow.ntxid r = TxRow.ntxid row
                      ∧ txid ≠ TxRow.txid r)) as [Hd|Hd]; [by apply Hs|].
    apply (Hn Hd). by left.
  - (* unconfirmed *)
    destruct (rows_ db !! txid) as [row|] eqn:Hrow.
    2:{ unfold unconfirmed in Hrun. by rewrite Hrow in Hrun. }
    destruct (unconfirmed_effect txid db row Hrow) as (db1 & Hc & _ & _ & Hk).
    rewrite Hc in Hrun. injection Hrun as <-.
    eapply table_rel_keeps_ids_invariants; [|exact Hinv].
    eapply table_rel_weaken; [|exact Hk].
    unfold unconfirmed_post, keeps_ids. tauto.
Qed.

Lemma run_invariants (ops : list operation) :
  ∀ db db',
    run ops db = Some db' →
    keys_consistent db ∧ malleation_invariant db →
    keys_consistent db' ∧ malleation_invariant db'.
Proof.
  induction ops as [|o ops IH]; intros db db' Hrun Hinv; cbn in Hrun.
  - by injection Hrun as <-.
  - destruct (run_operation o db) as [db1|] eqn:Ho; [|done].
    eapply IH; [exact Hrun|]. by eapply run_operation_invariants.
Qed.

(** C8.  After any sequence of [insert], [confirmed] and [unconfirmed]
    calls on a new database, two rows that share an ntxid both have
    [bMalleated = true]. *)
Theorem C8_malleated_invariant (unconfirmed_timeout : Z)
  (ops : list operation) (db : TxDatabase) :
  run ops (TxDatabase_new unconfirmed_timeout) = Some db →
  ∀ k1 k2 r1 r2,
    k1 ≠ k2 →
    rows_ db !! k1 = Some r1 → rows_ db !! k2 = Some r2 →
    TxRow.ntxid r1 = TxRow.ntxid r2 →
    TxRow.bMalleated r1 = true ∧ TxRow.bMalleated r2 = true.
Proof.
  intros Hrun.
  apply (run_invariants ops _ _ Hrun). split.
  - intros k r Hr. cbn in Hr. by rewrite lookup_empty in Hr.
  - intros k1 k2 r1 r2 _ Hr. cbn in Hr. by rewrite lookup_empty in Hr.
Qed.

(** ** The master-confirm flag *)

Lemma run_operation_master_tracks (o : operation) (done : list operation)
  (db db' : TxDatabase) :
  run_operation o db = Some db' →
  master_tracks db done → master_tracks db' (done ++ [o]).
Proof.
  intros Hrun [Hiff Hex].
  assert (Hmem : ∀ k, (∃ h, Op_confirmed k h ∈ done ++ [o])
                      ↔ (∃ h, Op_confirmed k h ∈ done)
                        ∨ (∃ h, o = Op_confirmed k h)).
  { intros k. split.
    - intros [h Hin]. apply elem_of_app in Hin as [?|Hin]; [eauto|].
      apply list_elem_of_singleton in Hin. eauto.
    - intros [[h Hin]|[h ->]]; exists h; apply elem_of_app; [by left|].
      right. by apply list_elem_of_singleton. }
  assert (Hex' : (∀ k, is_Some (rows_ db !! k) → is_Some (rows_ db' !! k)) →
                 (∀ k h, o = Op_confirmed k h → is_Some (rows_ db !! k)) →
                 ∀ k h, Op_confirmed k h ∈ done ++ [o] →
                        is_Some (rows_ db' !! k)).
  { intros Hkeys Ho k h Hin. apply Hkeys.
    apply elem_of_app in Hin as [Hin|Hin]; [by eapply Hex|].
    apply list_elem_of_singleton in Hin. by eapply Ho. }
  assert (Hrelkeys : ∀ R, table_rel R (rows_ db) (rows_ db') →
                          ∀ k, is_Some (rows_ db !! k) →
                               is_Some (rows_ db' !! k)).
  { intros R Hrel k [r Hr]. specialize (Hrel k). rewrite Hr in Hrel.
    destruct Hrel as (r' & -> & _). eauto. }
  destruct o as [now tx|txid h|txid]; cbn in Hrun.
  - (* insert *)
    injection Hrun as <-.
    assert (Hno : ∀ k, (∃ h, Op_confirmed k h ∈ done ++ [Op_insert now tx])
                       ↔ (∃ h, Op_confirmed k h ∈ done)).
    { intros k. rewrite Hmem. split; [|by left].
      intros [?|[h ?]]; [done|discriminate]. }
    destruct (rows_ db !! hash_transaction tx) as [r|] eqn:Hr.
    { rewrite insert_existing by (by rewrite Hr). cbn. split.
      - intros k r0 Hr0. rewrite Hno. by apply Hiff.
      - intros k h Hin. destruct (Hno k) as [Hd _].
        destruct Hd as [h' Hin']; [by exists h|]. by eapply Hex. }
    destruct (insert_fresh now tx db Hr)
      as (db1 & row & -> & _ & _ & Hrow & _ & _ & _ & _ & _ & Hmc
          & Hother & _).
    cbn. split.
    + intros k r' Hr'. rewrite Hno.
      destruct (decide (k = hash_transaction tx)) as [->|Hk].
      * rewrite Hrow in Hr'. injection Hr' as <-. rewrite Hmc. split; [done|].
        intros [h Hin]. apply Hex in Hin. rewrite Hr in Hin.
        by destruct Hin.
      * rewrite (Hother k Hk) in Hr'.
        destruct (rows_ db !! k) as [r0|] eqn:Hr0; [|done].
        cbn in Hr'. injection Hr' as <-. rewrite <- (Hiff k r0 Hr0).
        by case_decide.
    + intros k h Hin. destruct (Hno k) as [Hd _].
      destruct Hd as [h' Hin']; [by exists h|]. apply Hex in Hin'.
      destruct (decide (k = hash_transaction tx)) as [->|Hk]; [by eauto|].
      rewrite (Hother k Hk). destruct Hin' as [r0 ->]. by eauto.
  - (* confirmed *)
    destruct (rows_ db !! txid) as [row|] eqn:Hrow.
    2:{ unfold confirmed in Hrun. by rewrite Hrow in Hrun. }
    destruct (confirmed_effect txid h db row Hrow) as (db1 & Hc & _ & _ & Hk).
    rewrite Hc in Hrun. injection Hrun as <-. split.
    + intros k r' Hr'. specialize (Hk k).
      destruct (rows_ db !! k) as [r|] eqn:Hr; [|congruence].
      destruct Hk as (r'' & Hr'' & Hpost). simplify_eq.
      destruct Hpost as (_ & _ & _ & _ & _ & Hyes & Hno & _).
      rewrite Hmem. destruct (decide (k = txid)) as [->|Hne].
      * rewrite Hyes by done. split; [|done]. intros _. right. by exists h.
      * rewrite Hno by done. rewrite (Hiff k r Hr). split; [by left|].
        intros [?|[h' ?]]; [done|congruence].
    + apply Hex'.
      * intros k [r Hr]. specialize (Hk k). rewrite Hr in Hk.
        destruct Hk as (r' & -> & _). eauto.
      * intros k h' Heq. injection Heq as <- <-. by eauto.
  - (* unconfirmed *)
    destruct (rows_ db !! txid) as [row|] eqn:Hrow.
    2:{ unfold unconfirmed in Hrun. by rewrite Hrow in Hrun. }
    destruct (unconfirmed_effect txid db row Hrow) as (db1 & Hc & _ & _ & Hk).
    rewrite Hc in Hrun. injection Hrun as <-. split.
    + intros k r' Hr'. specialize (Hk k).
      destruct (rows_ db !! k) as [r|] eqn:Hr; [|congruence].
      destruct Hk as (r'' & Hr'' & Hpost). simplify_eq.
      destruct Hpost as (_ & _ & _ & _ & _ & -> & _).
      rewrite Hmem. rewrite (Hiff k r Hr). split; [by left|].
      intros [?|[h' ?]]; [done|discriminate].
    + apply Hex'; [by eapply Hrelkeys|].
      intros k h' Heq. discriminate.
Qed.

Lemma run_master_tracks (ops : list operation) :
  ∀ done db db',
    run ops db = Some db' →
    master_tracks db done → master_tracks db' (done ++ ops).
Proof.
  induction ops as [|o ops IH]; intros done db db' Hrun Hinv; cbn in Hrun.
  - injection Hrun as <-. by rewrite app_nil_r.
  - destruct (run_operation o db) as [db1|] eqn:Ho; [|done].
    rewrite (cons_middle o), app_assoc. eapply IH; [exact Hrun|].
    by eapply run_operation_master_tracks.
Qed.

(** C3, as the code has it.  After a sequence of [insert], [confirmed] and
    [unconfirmed] calls on a new database, [bMasterConfirm] is set on
    exactly the rows whose txid was an argument of [confirmed]: nothing
    clears the flag.  So a cluster has at most one such row as long as
    [confirmed] was called on at most one of its txids; and when two rows
    share an ntxid and the second was never confirmed itself, then after
    [confirmed] of the first at height [h] both are confirmed at [h] and
    only the first has the flag. *)
Theorem C3_master_confirm_follows_confirmed_calls (unconfirmed_timeout : Z)
  (ops : list operation) (db : TxDatabase) :
  run ops (TxDatabase_new unconfirmed_timeout) = Some db →
  (∀ k r, rows_ db !! k = Some r →
          (TxRow.bMasterConfirm r = true ↔ ∃ h, Op_confirmed k h ∈ ops))
  ∧ ((∀ k1 k2 h1 h2 r1 r2,
        Op_confirmed k1 h1 ∈ ops → Op_confirmed k2 h2 ∈ ops →
        rows_ db !! k1 = Some r1 → rows_ db !! k2 = Some r2 →
        TxRow.ntxid r1 = TxRow.ntxid r2 → k1 = k2) →
     single_master db)
  ∧ (∀ k1 k2 r1 r2 h,
       k1 ≠ k2 →
       rows_ db !! k1 = Some r1 → rows_ db !! k2 = Some r2 →
       TxRow.ntxid r1 = TxRow.ntxid r2 →
       TxRow.bMasterConfirm r2 = false →
       ∃ db' r1' r2',
         confirmed k1 h db = Some db'
         ∧ rows_ db' !! k1 = Some r1' ∧ rows_ db' !! k2 = Some r2'
         ∧ TxRow.state r1' = TxState.confirmed ∧ TxRow.block_height r1' = h
         ∧ TxRow.state r2' = TxState.confirmed ∧ TxRow.block_height r2' = h
         ∧ TxRow.bMasterConfirm r1' = true
         ∧ TxRow.bMasterConfirm r2' = false).
Proof.
  intros Hrun.
  assert (Htr : master_tracks db ops).
  { apply (run_master_tracks ops [] _ _ Hrun). split.
    - intros k r Hr. cbn in Hr. by rewrite lookup_empty in Hr.
    - intros k h Hin. by apply elem_of_nil in Hin. }
  assert (Hkeys : keys_consistent db).
  { apply (run_invariants ops _ _ Hrun). split.
    - intros k r Hr. cbn in Hr. by rewrite lookup_empty in Hr.
    - intros k1 k2 r1 r2 _ Hr. cbn in Hr. by rewrite lookup_empty in Hr. }
  destruct Htr as [Hiff _]. split; [exact Hiff|]. split.
  - intros Hone k1 k2 r1 r2 Hr1 Hr2 Hn Hm1 Hm2.
    apply (Hiff _ _ Hr1) in Hm1 as [h1 Hin1].
    apply (Hiff _ _ Hr2) in Hm2 as [h2 Hin2].
    by eapply Hone.
  - intros k1 k2 r1 r2 h Hne Hr1 Hr2 Hn Hm2.
    destruct (confirmed_effect k1 h db r1 Hr1) as (db' & Hc & _ & _ & Hk).
    pose proof (Hk k1) as H1. pose proof (Hk k2) as H2.
    rewrite Hr1 in H1. rewrite Hr2 in H2.
    destruct H1 as (r1' & Hr1' & Hp1). destruct H2 as (r2' & Hr2' & Hp2).
    exists db', r1', r2'. do 3 (split; [done|]).
    unfold confirmed_post in Hp1, Hp2.
    destruct Hp1 as (_ & _ & _ & _ & _ & Hy1 & _ & Hc1 & _).
    destruct Hp2 as (_ & _ & _ & _ & _ & _ & Hn2 & Hc2 & _).
    destruct Hc1 as [? ?]; [by left|].
    destruct Hc2 as [? ?].
    { right. split; [done|]. rewrite (Hkeys _ _ Hr2). done. }
    do 4 (split; [done|]). split; [by apply Hy1|].
    rewrite Hn2 by done. done.
Qed.

(** ** ntxidHeight *)

Lemma max_confirmed_height_spec (txRows : list TxRow.t) :
  ∀ height,
    let m := max_confirmed_height height txRows in
    height ≤ m
    ∧ (∀ r, r ∈ txRows → TxRow.state r = TxState.confirmed →
            TxRow.block_height r ≤ m)
    ∧ (m = height
       ∨ ∃ r, r ∈ txRows ∧ TxRow.state r = TxState.confirmed
              ∧ TxRow.block_height r = m).
Proof.
  induction txRows as [|row l IH]; intros height; cbn.
  - split; [lia|]. split; [|by left]. intros r Hr. by apply elem_of_nil in Hr.
  - set (h1 := if decide (TxRow.state row = TxState.confirmed) then
                 if decide (height < TxRow.block_height row)
                 then TxRow.block_height row else height
               else height).
    destruct (IH h1) as (Hle & Hmax & Hwit). fold (max_confirmed_height h1 l).
    assert (Hh1 : height ≤ h1
                  ∧ (TxRow.state row = TxState.confirmed →
                     TxRow.block_height row ≤ h1)
                  ∧ (h1 = height
                     ∨ TxRow.state row = TxState.confirmed
                       ∧ TxRow.block_height row = h1)).
    { unfold h1. repeat case_decide; split_and?; try lia; try done; auto. }
    destruct Hh1 as (H1 & H2 & H3).
    split; [lia|]. split.
    + intros r Hr Hc. apply elem_of_cons in Hr as [->|Hr].
      * specialize (H2 Hc). lia.
      * by apply Hmax.
    + destruct Hwit as [->|(r & Hr & Hc & Hb)].
      * destruct H3 as [->|[Hc Hb]]; [by left|].
        right. exists row. split; [by left|done].
      * right. exists r. split; [by right|done].
Qed.

Lemma cluster_length_gt_1 (n : hash_digest) (rows : row_table) :
  (1 < length (deref_all rows (ntxidLookupAll n rows)))%nat
  ↔ ∃ k1 k2 r1 r2,
      k1 ≠ k2
      ∧ rows !! k1 = Some r1 ∧ TxRow.ntxid r1 = n
      ∧ rows !! k2 = Some r2 ∧ TxRow.ntxid r2 = n.
Proof.
  rewrite deref_all_ntxidLookupAll, length_fmap.
  rewrite <- (length_fmap fst). fold (ntxidLookupAll n rows).
  pose proof (NoDup_ntxidLookupAll n rows) as Hnd.
  pose proof (elem_of_ntxidLookupAll n rows) as Hin.
  destruct (ntxidLookupAll n rows) as [|k1 [|k2 ps]]; cbn.
  - split; [lia|]. intros (k1 & _ & r1 & _ & _ & Hr1 & Hn1 & _).
    destruct (Hin k1) as [_ H]. apply elem_of_nil in H; [done|eauto].
  - split; [lia|].
    intros (ka & kb & ra & rb & Hne & Hra & Hna & Hrb & Hnb).
    assert (Ha : ka ∈ [k1]) by (apply Hin; eauto).
    assert (Hb : kb ∈ [k1]) by (apply Hin; eauto).
    apply list_elem_of_singleton in Ha, Hb. congruence.
  - split; [|lia]. intros _.
    destruct (Hin k1) as [(r1 & Hr1 & Hn1) _]; [by left|].
    destruct (Hin k2) as [(r2 & Hr2 & Hn2) _]; [right; by left|].
    exists k1, k2, r1, r2. split; [|done].
    apply NoDup_cons in Hnd as [Hnotin _]. intros ->. apply Hnotin. by left.
Qed.

(** C4, as the code has it.  [ntxidHeight] fails (and leaves [result]
    alone) exactly when no row has the ntxid.  Otherwise it succeeds: when
    some confirmed row of the cluster has a positive block height, with the
    maximum block height over the confirmed rows; when none has, with -1
    for a cluster of more than one row and with 0 for a cluster of one. *)
Theorem C4_ntxidHeight_result (result : Z) (n : hash_digest)
  (db : TxDatabase) :
  let cluster k r := rows_ db !! k = Some r ∧ TxRow.ntxid r = n in
  ((ntxidHeight result n db).1 ≠ Status_ok ↔ ¬ ∃ k r, cluster k r)
  ∧ ((¬ ∃ k r, cluster k r) →
     ntxidHeight result n db
     = (ABC_ERROR ABC_CC_Synchronizing "tx isn't in the database", result))
  ∧ ((∃ k r, cluster k r) →
     ∃ height,
       ntxidHeight result n db = (Status_ok, height)
       ∧ ((∃ k r, cluster k r ∧ TxRow.state r = TxState.confirmed
                  ∧ 0 < TxRow.block_height r) →
          (∃ k r, cluster k r ∧ TxRow.state r = TxState.confirmed
                  ∧ TxRow.block_height r = height)
          ∧ (∀ k r, cluster k r → TxRow.state r = TxState.confirmed →
                    TxRow.block_height r ≤ height))
       ∧ ((∀ k r, cluster k r → TxRow.state r = TxState.confirmed →
                  TxRow.block_height r ≤ 0) →
          ((∃ k1 k2 r1 r2, k1 ≠ k2 ∧ cluster k1 r1 ∧ cluster k2 r2) →
           height = -1)
          ∧ ((∀ k1 k2 r1 r2, cluster k1 r1 → cluster k2 r2 → k1 = k2) →
             height = 0))).
Proof.
  intros cluster.
  pose proof (elem_of_cluster_rows n (rows_ db)) as Hin.
  pose proof (cluster_length_gt_1 n (rows_ db)) as Hlen.
  unfold ntxidHeight.
  fold (max_confirmed_height 0
          (deref_all (rows_ db) (ntxidLookupAll n (rows_ db)))).
  pose proof (max_confirmed_height_spec
                (deref_all (rows_ db) (ntxidLookupAll n (rows_ db))) 0)
    as (Hge & Hmax & Hwit).
  set (m := max_confirmed_height 0
              (deref_all (rows_ db) (ntxidLookupAll n (rows_ db)))) in *.
  destruct (deref_all (rows_ db) (ntxidLookupAll n (rows_ db)))
    as [|r0 l] eqn:Hl.
  - assert (Hempty : ¬ ∃ k r, cluster k r).
    { intros (k & r & Hr & Hn).
      destruct (Hin r) as [_ H]. apply elem_of_nil in H; [done|eauto]. }
    cbn. split; [split; [done|discriminate]|]. split; [done|].
    intros H. by destruct Hempty.
  - assert (Hne : ∃ k r, cluster k r).
    { destruct (Hin r0) as [(k & Hk) _]; [by left|]. by exists k, r0. }
    cbn [fst]. split; [split; [done|by intros []]|].
    split; [intros H; by destruct H|]. intros _.
    eexists. split; [reflexivity|]. split.
    + intros (k & r & [Hr Hn] & Hc & Hpos).
      assert (Hrm : TxRow.block_height r ≤ m).
      { apply Hmax; [|done]. apply Hin. eauto. }
      rewrite decide_False by lia.
      split.
      * destruct Hwit as [Hm|(r1 & Hr1 & Hc1 & Hb1)]; [lia|].
        apply Hin in Hr1 as (k1 & Hk1). by exists k1, r1.
      * intros k2 r2 [Hr2 Hn2] Hc2. apply Hmax; [|done]. apply Hin. eauto.
    + intros Hnonpos.
      assert (Hm0 : m = 0).
      { destruct Hwit as [Hm|(r1 & Hr1 & Hc1 & Hb1)]; [done|].
        apply Hin in Hr1 as (k1 & Hk1). specialize (Hnonpos k1 r1 Hk1 Hc1).
        lia. }
      split.
      * intros (k1 & k2 & r1 & r2 & Hk & [? ?] & [? ?]).
        assert (Hgt : (1 < length (r0 :: l))%nat)
          by (apply Hlen; by exists k1, k2, r1, r2).
        rewrite decide_True; [done|]. split; [lia|done].
      * intros Hone. rewrite decide_False; [done|].
        intros [Hgt' _].
        assert (Hgt : (1 < length (r0 :: l))%nat) by lia.
        apply Hlen in Hgt as (k1 & k2 & r1 & r2 & Hk & ? & ? & ? & ?).
        apply Hk. by eapply Hone.
Qed.

(** ** ntxidLookup *)

(** Entered with [foundTx = true], over rows without master: the result
    is the transaction of a confirmed row, or the one the loop was entered
    with when no row is confirmed. *)
Lemma ntxidLookup_loop_no_master (txRows : list TxRow.t) :
  ∀ tx,
    (∀ r, r ∈ txRows → TxRow.bMasterConfirm r = false) →
    (ntxidLookup_loop txRows tx true = tx
     ∧ ∀ r, r ∈ txRows → TxRow.state r ≠ TxState.confirmed)
    ∨ ∃ r, r ∈ txRows ∧ TxRow.state r = TxState.confirmed
           ∧ ntxidLookup_loop txRows tx true = TxRow.tx r.
Proof.
  induction txRows as [|r l IH]; intros tx Hnm; cbn.
  - left. split; [done|]. intros r Hr. by apply elem_of_nil in Hr.
  - rewrite (Hnm r) by left.
    assert (Hl : ∀ r0, r0 ∈ l → TxRow.bMasterConfirm r0 = false)
      by (intros r0 Hr0; apply Hnm; by right).
    destruct (decide (TxRow.state r = TxState.confirmed)) as [Hc|Hc].
    + right. destruct (IH (TxRow.tx r) Hl) as [[Heq _]|(r' & Hr' & Hc' & Heq)].
      * exists r. split; [by left|done].
      * exists r'. split; [by right|done].
    + destruct (IH tx Hl) as [[Heq Hno]|(r' & Hr' & Hc' & Heq)].
      * left. split; [done|]. intros r0 Hr0.
        apply elem_of_cons in Hr0 as [->|Hr0]; [done|by apply Hno].
      * right. exists r'. split; [by right|done].
Qed.

(** Entered with [foundTx = true], over rows whose masters are all
    confirmed, one of them at least: the result is the transaction of a
    master row. *)
Lemma ntxidLookup_loop_master (txRows : list TxRow.t) :
  ∀ tx,
    (∀ r, r ∈ txRows → TxRow.bMasterConfirm r = true →
          TxRow.state r = TxState.confirmed) →
    (∃ r, r ∈ txRows ∧ TxRow.bMasterConfirm r = true) →
    ∃ r, r ∈ txRows ∧ TxRow.bMasterConfirm r = true
         ∧ ntxidLookup_loop txRows tx true = TxRow.tx r.
Proof.
  induction txRows as [|r l IH]; intros tx Hmc Hex; cbn.
  - destruct Hex as (r & Hr & _). by apply elem_of_nil in Hr.
  - destruct (TxRow.bMasterConfirm r) eqn:Hm.
    + exists r. split; [by left|]. split; [done|].
      rewrite decide_True; [done|]. apply Hmc; [by left|done].
    + destruct (IH (if decide (TxRow.state r = TxState.confirmed)
                    then TxRow.tx r else tx)) as (r' & Hr' & Hm' & Heq).
      * intros r0 Hr0. apply Hmc. by right.
      * destruct Hex as (r0 & Hr0 & Hm0).
        apply elem_of_cons in Hr0 as [->|Hr0]; [congruence|]. eauto.
      * exists r'. split; [by right|done].
Qed.

(** Entered with [foundTx = true]: the result is the transaction the loop
    was entered with or that of one of the rows. *)
Lemma ntxidLookup_loop_any (txRows : list TxRow.t) :
  ∀ tx,
    ntxidLookup_loop txRows tx true = tx
    ∨ ∃ r, r ∈ txRows ∧ ntxidLookup_loop txRows tx true = TxRow.tx r.
Proof.
  induction txRows as [|r l IH]; intros tx; cbn.
  - by left.
  - destruct (decide (TxRow.state r = TxState.confirmed)) as [Hc|Hc].
    + right. destruct (TxRow.bMasterConfirm r).
      * exists r. split; [by left|done].
      * destruct (IH (TxRow.tx r)) as [Heq|(r' & Hr' & Heq)].
        -- exists r. split; [by left|done].
        -- exists r'. split; [by right|done].
    + destruct (TxRow.bMasterConfirm r); [by left|].
      destruct (IH tx) as [Heq|(r' & Hr' & Heq)]; [by left|].
      right. exists r'. split; [by right|done].
Qed.

(** On a cluster that is not empty the first iteration assigns the local
    [tx]: the result does not depend on what it held. *)
Lemma ntxidLookup_loop_first (r0 : TxRow.t) (l : list TxRow.t)
  (tx tx' : transaction_type) :
  ntxidLookup_loop (r0 :: l) tx false = ntxidLookup_loop (r0 :: l) tx' false.
Proof. reflexivity. Qed.

(** The selection of [ntxidLookup] on the rows of a cluster, in
    iteration order. *)
Lemma ntxidLookup_loop_selection (r0 : TxRow.t) (l : list TxRow.t) :
  ∃ r, r ∈ r0 :: l
       ∧ ntxidLookup_loop (r0 :: l) Tx.default false = TxRow.tx r
       ∧ ((∃ r', r' ∈ r0 :: l ∧ TxRow.bMasterConfirm r' = true) →
          (∀ r', r' ∈ r0 :: l → TxRow.bMasterConfirm r' = true →
                 TxRow.state r' = TxState.confirmed) →
          TxRow.bMasterConfirm r = true)
       ∧ ((∀ r', r' ∈ r0 :: l → TxRow.bMasterConfirm r' = false) →
          (∃ r', r' ∈ r0 :: l ∧ TxRow.state r' = TxState.confirmed) →
          TxRow.state r = TxState.confirmed).
Proof.
  cbn. destruct (TxRow.bMasterConfirm r0) eqn:Hm0.
  { exists r0. split; [by left|]. split; [done|]. split; [done|].
    intros Hno. specialize (Hno r0 ltac:(left)). congruence. }
  destruct (decide (Forall (λ r, TxRow.bMasterConfirm r = false) l))
    as [Hnm|Hhas].
  - (* no master at all *)
    rewrite Forall_forall in Hnm.
    destruct (ntxidLookup_loop_no_master l (TxRow.tx r0) Hnm)
      as [[Heq Hno]|(r & Hr & Hc & Heq)].
    + exists r0. split; [by left|]. split; [done|]. split.
      * intros (r' & Hr' & Hm') _.
        apply elem_of_cons in Hr' as [->|Hr']; [congruence|].
        rewrite (Hnm r' Hr') in Hm'. discriminate.
      * intros _ (r' & Hr' & Hc').
        apply elem_of_cons in Hr' as [->|Hr']; [done|].
        by destruct (Hno r' Hr').
    + exists r. split; [by right|]. split; [done|]. split; [|done].
      intros (r' & Hr' & Hm') _.
      apply elem_of_cons in Hr' as [->|Hr']; [congruence|].
      rewrite (Hnm r' Hr') in Hm'. discriminate.
  - (* some master in [l] *)
    apply not_Forall_Exists in Hhas; [|apply _].
    apply Exists_exists in Hhas as (rm & Hrm & Hmm).
    assert (Hmt : TxRow.bMasterConfirm rm = true).
    { cbn in Hmm. destruct (TxRow.bMasterConfirm rm); [done|by destruct Hmm]. }
    assert (Hnotall : ¬ ∀ r', r' ∈ r0 :: l →
                             TxRow.bMasterConfirm r' = false).
    { intros Hall. rewrite (Hall rm) in Hmt; [done|by right]. }
    destruct (decide (Forall (λ r, TxRow.bMasterConfirm r = true →
                                   TxRow.state r = TxState.confirmed) l))
      as [Hconf|Hnconf].
    + rewrite Forall_forall in Hconf.
      destruct (ntxidLookup_loop_master l (TxRow.tx r0) Hconf)
        as (r & Hr & Hm & Heq); [by eauto|].
      exists r. split; [by right|]. split; [done|]. split; [done|].
      intros Hall. by destruct Hnotall.
    + destruct (ntxidLookup_loop_any l (TxRow.tx r0))
        as [Heq|(r & Hr & Heq)].
      * exists r0. split; [by left|]. split; [done|]. split.
        -- intros _ Hall. exfalso. apply Hnconf. apply Forall_forall.
           intros r' Hr'. apply Hall. by right.
        -- intros Hall. by destruct Hnotall.
      * exists r. split; [by right|]. split; [done|]. split.
        -- intros _ Hall. exfalso. apply Hnconf. apply Forall_forall.
           intros r' Hr'. apply Hall. by right.
        -- intros Hall. by destruct Hnotall.
Qed.

(** C5, as the code has it.  For an ntxid without a row [ntxidLookup]
    returns its default-initialised local: a transaction without inputs
    and outputs, whose version and locktime are whatever the two fields
    held, and not the value-initialised transaction of [txidLookup].
    Otherwise it returns the transaction of a row of the cluster, whatever
    the two fields held; when rows of the cluster have [bMasterConfirm] and
    all of those are confirmed, of a row that has it; when no row of the
    cluster has [bMasterConfirm] and some row is confirmed, of a confirmed
    row. *)
Theorem C5_ntxidLookup_selection (version locktime : Z) (n : hash_digest)
  (db : TxDatabase) :
  let cluster k r := rows_ db !! k = Some r ∧ TxRow.ntxid r = n in
  ((¬ ∃ k r, cluster k r) →
   ntxidLookup version locktime n db = Tx.mk version locktime [] [])
  ∧ ((∃ k r, cluster k r) →
     ∃ k r,
       cluster k r
       ∧ (∀ version' locktime',
            ntxidLookup version' locktime' n db = TxRow.tx r)
       ∧ ((∃ k' r', cluster k' r' ∧ TxRow.bMasterConfirm r' = true) →
          (∀ k' r', cluster k' r' → TxRow.bMasterConfirm r' = true →
                    TxRow.state r' = TxState.confirmed) →
          TxRow.bMasterConfirm r = true)
       ∧ ((∀ k' r', cluster k' r' → TxRow.bMasterConfirm r' = false) →
          (∃ k' r', cluster k' r' ∧ TxRow.state r' = TxState.confirmed) →
          TxRow.state r = TxState.confirmed)).
Proof.
  intros cluster.
  pose proof (elem_of_cluster_rows n (rows_ db)) as Hin.
  unfold ntxidLookup.
  destruct (deref_all (rows_ db) (ntxidLookupAll n (rows_ db)))
    as [|r0 l] eqn:Hl.
  - split; [done|]. intros (k & r & Hr & Hn).
    destruct (Hin r) as [_ H]. apply elem_of_nil in H; [done|eauto].
  - split.
    { intros Hempty. exfalso. apply Hempty.
      destruct (Hin r0) as [(k & Hk) _]; [by left|]. by exists k, r0. }
    intros _.
    destruct (ntxidLookup_loop_selection r0 l) as (r & Hr & Heq & Hm & Hc).
    destruct (Hin r) as [(k & Hk) _]; [done|].
    exists k, r. split; [done|]. split.
    { intros version' locktime'.
      by rewrite (ntxidLookup_loop_first r0 l _ Tx.default). }
    split.
    + intros (k' & r' & Hk' & Hm') Hall. apply Hm.
      * exists r'. split; [|done]. apply Hin. by exists k'.
      * intros r2 Hr2 Hm2. apply Hin in Hr2 as (k2 & Hk2). by eapply Hall.
    + intros Hall (k' & r' & Hk' & Hc'). apply Hc.
      * intros r2 Hr2. apply Hin in Hr2 as (k2 & Hk2). by eapply Hall.
      * exists r'. split; [|done]. apply Hin. by exists k'.
Qed.

(** ** The safety predicate *)

Lemma is_safe_spec_not_both (cache_ : TxDatabase)
  (doubleSpends_ : gset Point.t) (txid : hash_digest) (b : bool) :
  is_safe_spec cache_ doubleSpends_ txid b →
  b = true → ¬ is_safe_spec cache_ doubleSpends_ txid false.
Proof.
  induction 1 as [txid Hnone|txid row Hrow Hc|txid row Hrow Hnc Hds Hsrc IH
                  |txid row input Hrow Hnc Hin Hds
                  |txid row input Hrow Hnc Hin Hsrc IH];
    intros Hb Hfalse; try discriminate.
  - inversion Hfalse; congruence.
  - inversion Hfalse; congruence.
  - inversion Hfalse as [| | |txid' row' input' Hrow' Hnc' Hin' Hds'
                         |txid' row' input' Hrow' Hnc' Hin' Hsrc'];
      subst; rewrite Hrow in Hrow'; injection Hrow' as <-.
    + by apply (Hds input').
    + by apply (IH input' Hin').
Qed.

Lemma is_safe_spec_functional (cache_ : TxDatabase)
  (doubleSpends_ : gset Point.t) (txid : hash_digest) (b b' : bool) :
  is_safe_spec cache_ doubleSpends_ txid b →
  is_safe_spec cache_ doubleSpends_ txid b' → b = b'.
Proof.
  intros H H'. destruct b, b'; try done; exfalso.
  - exact (is_safe_spec_not_both _ _ _ _ H eq_refl H').
  - exact (is_safe_spec_not_both _ _ _ _ H' eq_refl H).
Qed.

Lemma memo_ok_insert (cache_ : TxDatabase) (doubleSpends_ : gset Point.t)
  (visited_ : gmap hash_digest bool) (txid : hash_digest) (b : bool) :
  memo_ok cache_ doubleSpends_ visited_ →
  is_safe_spec cache_ doubleSpends_ txid b →
  memo_ok cache_ doubleSpends_ (<[txid := b]> visited_).
Proof.
  intros Hok Hb k b' Hk. rewrite lookup_insert in Hk.
  case_decide; [by simplify_eq|by apply Hok].
Qed.

(** The loop over the inputs, given that the recursive calls on the
    sources of [inputs] are right. *)
Lemma isSafe_inputs_spec (cache_ : TxDatabase) (doubleSpends_ : gset Point.t)
  (recurse : hash_digest → gmap hash_digest bool
             → option (bool * gmap hash_digest bool))
  (txid : hash_digest) (visited0 : gmap hash_digest bool)
  (inputs : list TxIn.t) :
  visited0 !! txid = None →
  (∀ input v,
     input ∈ inputs → memo_ok cache_ doubleSpends_ v →
     ∃ b v', recurse (Point.hash (TxIn.previous_output input)) v
             = Some (b, v')
             ∧ is_safe_spec cache_ doubleSpends_
                 (Point.hash (TxIn.previous_output input)) b
             ∧ memo_ok cache_ doubleSpends_ v' ∧ v ⊆ v') →
  ((∀ input, input ∈ inputs →
             (TxIn.previous_output input ∉ doubleSpends_)
             ∧ is_safe_spec cache_ doubleSpends_
                 (Point.hash (TxIn.previous_output input)) true) →
   is_safe_spec cache_ doubleSpends_ txid true) →
  (∀ input, input ∈ inputs →
            TxIn.previous_output input ∈ doubleSpends_
            ∨ is_safe_spec cache_ doubleSpends_
                (Point.hash (TxIn.previous_output input)) false →
            is_safe_spec cache_ doubleSpends_ txid false) →
  ∀ visited_,
    memo_ok cache_ doubleSpends_ visited_ → visited0 ⊆ visited_ →
    ∃ b visited',
      isSafe_inputs recurse doubleSpends_ txid inputs visited_
      = Some (b, visited')
      ∧ is_safe_spec cache_ doubleSpends_ txid b
      ∧ memo_ok cache_ doubleSpends_ visited'
      ∧ visited0 ⊆ visited'.
Proof.
  intros Hnone. induction inputs as [|input inputs IH];
    intros Hrec Hsafe Hunsafe visited_ Hok Hsub; cbn.
  - assert (Hs : is_safe_spec cache_ doubleSpends_ txid true).
    { apply Hsafe. intros input Hin. by apply elem_of_nil in Hin. }
    eexists _, _. split; [reflexivity|]. split; [done|].
    split; [by apply memo_ok_insert|]. by apply insert_subseteq_r.
  - destruct (decide (TxIn.previous_output input ∈ doubleSpends_)) as [Hds|Hds].
    { assert (Hs : is_safe_spec cache_ doubleSpends_ txid false).
      { apply (Hunsafe input); [by left|by left]. }
      eexists _, _. split; [reflexivity|]. split; [done|].
      split; [by apply memo_ok_insert|]. by apply insert_subseteq_r. }
    destruct (Hrec input visited_) as (b1 & v1 & -> & Hb1 & Hok1 & Hsub1);
      [by left|done|].
    destruct b1.
    + apply IH.
      * intros input' v Hin'. apply Hrec. by right.
      * intros Hall. apply Hsafe. intros input' Hin'.
        apply elem_of_cons in Hin' as [->|Hin']; [done|by apply Hall].
      * intros input' Hin'. apply Hunsafe. by right.
      * done.
      * by etrans.
    + assert (Hs : is_safe_spec cache_ doubleSpends_ txid false).
      { apply (Hunsafe input); [by left|by right]. }
      eexists _, _. split; [reflexivity|]. split; [done|].
      split; [by apply memo_ok_insert|].
      apply insert_subseteq_r; [done|by etrans].
Qed.

(** With fuel above the rank of [txid] and a memo table of reference
    results, [isSafe] returns the reference result and leaves such a
    table. *)
Lemma isSafe_spec (cache_ : TxDatabase) (doubleSpends_ : gset Point.t)
  (rank : hash_digest → nat) :
  acyclic_by rank cache_ →
  ∀ fuel txid visited_,
    (rank txid < fuel)%nat →
    memo_ok cache_ doubleSpends_ visited_ →
    ∃ b visited',
      isSafe cache_ doubleSpends_ fuel txid visited_ = Some (b, visited')
      ∧ is_safe_spec cache_ doubleSpends_ txid b
      ∧ memo_ok cache_ doubleSpends_ visited'
      ∧ visited_ ⊆ visited'.
Proof.
  intros Hdag. induction fuel as [|fuel IH]; intros txid visited_ Hrank Hok.
  { lia. }
  cbn. destruct (visited_ !! txid) as [b|] eqn:Hv.
  { exists b, visited_. split; [done|]. split; [by apply Hok|]. done. }
  destruct (rows_ cache_ !! txid) as [row|] eqn:Hrow.
  2:{ eexists _, _. split; [reflexivity|].
      assert (Hs : is_safe_spec cache_ doubleSpends_ txid true)
        by (by apply safe_missing).
      split; [done|]. split; [by apply memo_ok_insert|].
      by apply insert_subseteq. }
  destruct (decide (TxState.confirmed = TxRow.state row)) as [Hc|Hc].
  { eexists _, _. split; [reflexivity|].
    assert (Hs : is_safe_spec cache_ doubleSpends_ txid true)
      by (by eapply safe_confirmed).
    split; [done|]. split; [by apply memo_ok_insert|].
    by apply insert_subseteq. }
  assert (Hnc : TxRow.state row ≠ TxState.confirmed) by congruence.
  apply (isSafe_inputs_spec cache_ doubleSpends_ _ txid visited_).
  - done.
  - intros input v Hin Hv'. apply IH; [|done].
    specialize (Hdag txid row input Hrow Hnc Hin). lia.
  - intros Hall. eapply safe_inputs; [done..| |].
    + intros input Hin. by apply Hall.
    + intros input Hin. by apply Hall.
  - intros input Hin [Hds|Hsrc].
    + by eapply unsafe_double_spend.
    + by eapply unsafe_source.
  - done.
  - done.
Qed.

Lemma isSafe_calls_spec (cache_ : TxDatabase) (doubleSpends_ : gset Point.t)
  (rank : hash_digest → nat) (fuel : nat) :
  acyclic_by rank cache_ →
  ∀ txids visited_,
    (∀ txid, txid ∈ txids → (rank txid < fuel)%nat) →
    memo_ok cache_ doubleSpends_ visited_ →
    ∃ visited',
      isSafe_calls cache_ doubleSpends_ fuel txids visited_ = Some visited'
      ∧ memo_ok cache_ doubleSpends_ visited'.
Proof.
  intros Hdag. induction txids as [|txid txids IH];
    intros visited_ Hrank Hok; cbn.
  - by exists visited_.
  - destruct (isSafe_spec cache_ doubleSpends_ rank Hdag fuel txid visited_)
      as (b & v' & -> & _ & Hok' & _); [apply Hrank; by left|done|].
    apply IH; [|done]. intros t Ht. apply Hrank. by right.
Qed.

(** C9.  On a table whose unconfirmed part is a DAG, [isSafe txid]
    returns the value [b] of the reference definition, which is unique:
    with enough fuel for the depth of the graph it does so from every memo
    table that holds reference results, and leaves such a table; and the
    table left by any sequence [prior] of earlier calls, in any order, is
    such a table, so the value returned after them is [b] too. *)
Theorem C9_isSafe_reference (cache_ : TxDatabase)
  (doubleSpends_ : gset Point.t) (rank : hash_digest → nat)
  (txid : hash_digest) :
  acyclic_by rank cache_ →
  ∃ b,
    is_safe_spec cache_ doubleSpends_ txid b
    ∧ (∀ b', is_safe_spec cache_ doubleSpends_ txid b' → b' = b)
    ∧ (∀ fuel visited_,
         (rank txid < fuel)%nat →
         memo_ok cache_ doubleSpends_ visited_ →
         ∃ visited',
           isSafe cache_ doubleSpends_ fuel txid visited_
           = Some (b, visited')
           ∧ memo_ok cache_ doubleSpends_ visited'
           ∧ visited_ ⊆ visited')
    ∧ (∀ fuel prior,
         (rank txid < fuel)%nat →
         (∀ t, t ∈ prior → (rank t < fuel)%nat) →
         ∃ visited_ visited',
           isSafe_calls cache_ doubleSpends_ fuel prior ∅ = Some visited_
           ∧ isSafe cache_ doubleSpends_ fuel txid visited_
             = Some (b, visited')).
Proof.
  intros Hdag.
  assert (Hempty : memo_ok cache_ doubleSpends_ ∅).
  { intros k b Hk. by rewrite lookup_empty in Hk. }
  destruct (isSafe_spec cache_ doubleSpends_ rank Hdag (S (rank txid)) txid ∅)
    as (b & v & _ & Hb & _); [lia|done|].
  exists b. split; [done|]. split.
  { intros b' Hb'. by eapply is_safe_spec_functional. }
  split.
  - intros fuel visited_ Hfuel Hok.
    destruct (isSafe_spec cache_ doubleSpends_ rank Hdag fuel txid visited_)
      as (b2 & v2 & Heq & Hb2 & Hok2 & Hsub2); [done..|].
    exists v2. rewrite Heq.
    by rewrite (is_safe_spec_functional _ _ _ _ _ Hb2 Hb).
  - intros fuel prior Hfuel Hprior.
    destruct (isSafe_calls_spec cache_ doubleSpends_ rank fuel Hdag prior ∅)
      as (v1 & Hcalls & Hok1); [done..|].
    destruct (isSafe_spec cache_ doubleSpends_ rank Hdag fuel txid v1)
      as (b2 & v2 & Heq & Hb2 & _); [done..|].
    exists v1, v2. split; [done|]. rewrite Heq.
    by rewrite (is_safe_spec_functional _ _ _ _ _ Hb2 Hb).
Qed.

(** ** Bytes and little-endian integers *)

Lemma Z_of_byte_range (b : byte) : 0 ≤ Z_of_byte b < 256.
Proof.
  unfold Z_of_byte. pose proof (Byte.to_N_bounded b) as H.
  split; [apply N2Z.is_nonneg|]. lia.
Qed.

Lemma Z_of_byte_of_Z (z : Z) : Z_of_byte (byte_of_Z z) = z mod 256.
Proof.
  unfold Z_of_byte, byte_of_Z.
  assert (Hr : 0 ≤ z mod 256 < 256) by (apply Z.mod_pos_bound; lia).
  destruct (Byte.of_N (Z.to_N (z mod 256))) as [b|] eqn:Hb; cbn.
  - apply Byte.to_of_N in Hb. rewrite Hb. apply Z2N.id. lia.
  - apply Byte.of_N_None_iff in Hb. lia.
Qed.

Lemma byte_of_Z_of_byte (b : byte) : byte_of_Z (Z_of_byte b) = b.
Proof.
  unfold byte_of_Z. pose proof (Z_of_byte_range b) as Hr.
  rewrite Z.mod_small by done. unfold Z_of_byte.
  rewrite N2Z.id, Byte.of_to_N. done.
Qed.

Lemma length_to_little_endian (n : nat) (z : Z) :
  length (to_little_endian n z) = n.
Proof. revert z. induction n as [|n IH]; intros z; cbn; [done|]. by rewrite IH. Qed.

Lemma from_to_little_endian (n : nat) (z : Z) :
  from_little_endian (to_little_endian n z) = z mod 2 ^ (8 * Z.of_nat n).
Proof.
  revert z. induction n as [|n IH]; intros z.
  - cbn. by rewrite Z.mod_1_r.
  - cbn [to_little_endian from_little_endian].
    rewrite Z_of_byte_of_Z, IH.
    replace (8 * Z.of_nat (S n)) with (8 + 8 * Z.of_nat n) by lia.
    rewrite Z.pow_add_r by lia. change (2 ^ 8) with 256.
    rewrite Z.rem_mul_r by lia. done.
Qed.

Lemma from_little_endian_range (l : list byte) :
  0 ≤ from_little_endian l < 2 ^ (8 * Z.of_nat (length l)).
Proof.
  induction l as [|b l IH].
  - cbn. lia.
  - cbn [from_little_endian length]. pose proof (Z_of_byte_range b).
    replace (8 * Z.of_nat (S (length l))) with (8 + 8 * Z.of_nat (length l))
      by lia.
    rewrite Z.pow_add_r by lia. change (2 ^ 8) with 256. nia.
Qed.

Lemma read_data_app (l rest : list byte) :
  read_data (length l) (l ++ rest) = Some (l, rest).
Proof. induction l as [|b l IH]; cbn; [done|]. by rewrite IH. Qed.

Lemma read_data_Some (n : nat) (s l s' : list byte) :
  read_data n s = Some (l, s') → s = l ++ s' ∧ length l = n.
Proof.
  revert s l s'. induction n as [|n IH]; intros s l s' H; cbn in H.
  - by injection H as <- <-.
  - destruct s as [|b s]; [done|].
    destruct (read_data n s) as [[l0 s0]|] eqn:Hr; [|done].
    cbn in H. injection H as <- <-. apply IH in Hr as [-> <-]. done.
Qed.

Lemma read_data_None (n : nat) (s : list byte) :
  read_data n s = None ↔ (length s < n)%nat.
Proof.
  revert s. induction n as [|n IH]; intros s; cbn.
  - split; [done|lia].
  - destruct s as [|b s]; cbn; [split; [lia|done]|].
    specialize (IH s). destruct (read_data n s) as [[l0 s0]|]; cbn.
    + split; [done|]. intros H. assert (H' : (length s < n)%nat) by lia.
      by apply IH in H'.
    + split; [|done]. intros _. destruct IH as [IH _]. specialize (IH eq_refl).
      lia.
Qed.

Lemma read_byte_write_byte (z : Z) (rest : list byte) :
  read_byte (write_byte z ++ rest) = Some (z mod 256, rest).
Proof. cbn. by rewrite Z_of_byte_of_Z. Qed.

Lemma read_4_bytes_write_4_bytes (z : Z) (rest : list byte) :
  read_4_bytes (write_4_bytes z ++ rest) = Some (z mod 2 ^ 32, rest).
Proof.
  unfold read_4_bytes, write_4_bytes.
  pose proof (read_data_app (to_little_endian 4 z) rest) as H.
  rewrite length_to_little_endian in H. rewrite H. cbn [fmap option_fmap option_map prod_map fst snd id].
  by rewrite (from_to_little_endian 4).
Qed.

Lemma read_8_bytes_write_8_bytes (z : Z) (rest : list byte) :
  read_8_bytes (write_8_bytes z ++ rest) = Some (z mod 2 ^ 64, rest).
Proof.
  unfold read_8_bytes, write_8_bytes.
  pose proof (read_data_app (to_little_endian 8 z) rest) as H.
  rewrite length_to_little_endian in H. rewrite H. cbn [fmap option_fmap option_map prod_map fst snd id].
  by rewrite (from_to_little_endian 8).
Qed.

Lemma read_hash_write_hash (h : hash_digest) (rest : list byte) :
  length h = hash_size →
  read_hash (write_hash h ++ rest) = Some (h, rest).
Proof. intros Hl. unfold read_hash, write_hash. rewrite <- Hl. apply read_data_app. Qed.

Lemma to_i64_to_u64 (z : Z) : in_i64 z → to_i64 (to_u64 z) = z.
Proof.
  unfold in_i64, to_i64, to_u64. intros Hz.
  rewrite Zplus_mod_idemp_l.
  rewrite Z.mod_small by lia. lia.
Qed.

Lemma to_i64_small (z : Z) : in_i64 z → to_i64 z = z.
Proof.
  unfold in_i64, to_i64. intros Hz. rewrite Z.mod_small by lia. lia.
Qed.

Lemma bool_of_Z_b2z (b : bool) : bool_of_Z (Z.b2z b mod 256) = b.
Proof. by destruct b. Qed.

(** ** serialize, then load *)

Lemma fields_preserved_reloaded (now' : Z) (r : TxRow.t) :
  fields_preserved r (reloaded now' r).
Proof.
  unfold fields_preserved, reloaded. cbn. do 4 (split; [done|]).
  split; [intros ->; by rewrite decide_False|].
  split; [intros ->; by rewrite decide_True|]. done.
Qed.

Lemma TxState_of_Z_to_Z (s : TxState.t) :
  state_representable s → TxState.of_Z (TxState.to_Z s mod 256) = s.
Proof.
  destruct s as [| |v]; cbn; [done..|]. intros Hv.
  rewrite Z.mod_small by lia. unfold TxState.of_Z.
  rewrite !decide_False by lia. done.
Qed.

(** One record, read back. *)
Lemma load_row_serialize_row (now now' unconfirmed_timeout : Z)
  (k : hash_digest) (r : TxRow.t) (rest : list byte) :
  row_serializable k r →
  ¬ purged now unconfirmed_timeout r →
  ∃ body,
    serialize_row now unconfirmed_timeout (k, r) ++ rest
    = byte_of_Z serial_tx :: body
    ∧ load_row now' body = Some (k, reloaded now' r, rest).
Proof.
  intros (Hk & Htxid & Hntxid & Hbh & Hts & Hst & Hload & Hsize) Hkeep.
  unfold serialize_row. cbn [fst snd].
  rewrite decide_False by exact Hkeep.
  unfold write_byte at 1. cbn [app].
  eexists. split; [reflexivity|].
  rewrite <- !app_assoc. unfold load_row.
  rewrite read_hash_write_hash by done. cbn [mbind option_bind].
  rewrite Hload. cbn [mbind option_bind].
  rewrite Hsize, drop_app_length.
  rewrite read_byte_write_byte. cbn [mbind option_bind].
  rewrite TxState_of_Z_to_Z by done.
  rewrite read_8_bytes_write_8_bytes. cbn [mbind option_bind].
  rewrite read_byte_write_byte. cbn [mbind option_bind].
  rewrite read_hash_write_hash by done. cbn [mbind option_bind].
  rewrite read_hash_write_hash by done. cbn [mbind option_bind].
  rewrite read_byte_write_byte. cbn [mbind option_bind].
  rewrite (read_byte_write_byte _ rest). cbn [mbind option_bind].
  rewrite !bool_of_Z_b2z. unfold reloaded.
  fold (to_u64 (if decide (TxState.unconfirmed = TxRow.state r)
                then TxRow.timestamp r else TxRow.block_height r)).
  rewrite to_i64_to_u64 by (by case_decide).
  done.
Qed.

(** A read never moves the iterator back. *)
Lemma read_data_length (n : nat) (s l s' : list byte) :
  read_data n s = Some (l, s') → (length s' ≤ length s)%nat.
Proof.
  intros H. apply read_data_Some in H as [-> _]. rewrite length_app. lia.
Qed.

Lemma read_byte_length (s s' : list byte) (z : Z) :
  read_byte s = Some (z, s') → (length s' < length s)%nat.
Proof. destruct s; cbn; [done|]. intros H. injection H as _ <-. lia. Qed.

Lemma read_8_bytes_length (s s' : list byte) (z : Z) :
  read_8_bytes s = Some (z, s') → (length s' ≤ length s)%nat.
Proof.
  unfold read_8_bytes. destruct (read_data 8 s) as [[l s0]|] eqn:H; [|done].
  cbn. intros Heq. injection Heq as _ <-. by eapply read_data_length.
Qed.

Lemma load_row_length (now' : Z) (s s' : list byte) (k : hash_digest)
  (r : TxRow.t) :
  load_row now' s = Some (k, r, s') → (length s' ≤ length s)%nat.
Proof.
  unfold load_row. intros H.
  destruct (read_hash s) as [[h s1]|] eqn:H1; [|done].
  cbn [mbind option_bind] in H.
  destruct (satoshi_load s1) as [tx|] eqn:H2; [|done].
  cbn [mbind option_bind] in H.
  pose proof (length_drop s1 (satoshi_raw_size tx)) as H3.
  destruct (read_byte (drop (satoshi_raw_size tx) s1)) as [[st s2]|] eqn:H4;
    [|done].
  cbn [mbind option_bind] in H.
  destruct (read_8_bytes s2) as [[bh s3]|] eqn:H5; [|done].
  cbn [mbind option_bind] in H.
  destruct (read_byte s3) as [[nc s4]|] eqn:H6; [|done].
  cbn [mbind option_bind] in H.
  destruct (read_hash s4) as [[txid s5]|] eqn:H7; [|done].
  cbn [mbind option_bind] in H.
  destruct (read_hash s5) as [[ntxid s6]|] eqn:H8; [|done].
  cbn [mbind option_bind] in H.
  destruct (read_byte s6) as [[mal s7]|] eqn:H9; [|done].
  cbn [mbind option_bind] in H.
  destruct (read_byte s7) as [[mc s8]|] eqn:H10; [|done].
  cbn [mbind option_bind] in H. injection H as _ _ <-.
  apply read_data_length in H1, H7, H8.
  apply read_byte_length in H4, H6, H9, H10.
  apply read_8_bytes_length in H5. lia.
Qed.

Lemma load_rows_serialize_rows (now now' unconfirmed_timeout : Z)
  (l : list (hash_digest * TxRow.t)) :
  (∀ kr, kr ∈ l → row_serializable kr.1 kr.2) →
  ∀ fuel rows,
    (length (flat_map (serialize_row now unconfirmed_timeout) l) ≤ fuel)%nat →
    load_rows fuel now' (flat_map (serialize_row now unconfirmed_timeout) l)
              rows
    = Some (Loaded
              (reload_all now' rows
                 (filter (λ kr, ¬ purged now unconfirmed_timeout kr.2) l))).
Proof.
  induction l as [|[k r] l IH]; intros Hwf fuel rows Hfuel.
  - by destruct fuel.
  - cbn [flat_map] in *.
    destruct (decide (purged now unconfirmed_timeout r)) as [Hp|Hp].
    + assert (Hnil : serialize_row now unconfirmed_timeout (k, r) = []).
      { unfold serialize_row. cbn [snd]. by rewrite decide_True. }
      rewrite Hnil in *. cbn [app] in *.
      rewrite filter_cons_False by (cbn; tauto).
      apply IH; [|done]. intros kr Hkr. apply Hwf. by right.
    + rewrite filter_cons_True by done.
      destruct (load_row_serialize_row now now' unconfirmed_timeout k r
                  (flat_map (serialize_row now unconfirmed_timeout) l))
        as (body & Hser & Hload); [apply (Hwf (k, r)); by left|done|].
      rewrite Hser in *. cbn [length] in Hfuel.
      destruct fuel as [|fuel]; [lia|].
      cbn [load_rows]. rewrite Z_of_byte_of_Z.
      rewrite decide_False by (intros H; by apply H).
      rewrite Hload. cbn [reload_all foldl fst snd].
      apply IH.
      * intros kr Hkr. apply Hwf. by right.
      * apply load_row_length in Hload. lia.
Qed.

Lemma reload_all_cons (now' : Z) (rows : row_table)
  (kr : hash_digest * TxRow.t) (l : list (hash_digest * TxRow.t)) :
  reload_all now' rows (kr :: l)
  = reload_all now' (<[kr.1 := reloaded now' kr.2]> rows) l.
Proof. done. Qed.

Lemma reload_all_lookup_notin (now' : Z) (l : list (hash_digest * TxRow.t)) :
  ∀ rows k, k ∉ l.*1 → reload_all now' rows l !! k = rows !! k.
Proof.
  induction l as [|[k0 r0] l IH]; intros rows k Hk; [done|].
  rewrite reload_all_cons, IH.
  - apply lookup_insert_ne. intros Heq. apply Hk. cbn in *. subst. by left.
  - intros Hin. apply Hk. by right.
Qed.

Lemma reload_all_lookup_in (now' : Z) (l : list (hash_digest * TxRow.t)) :
  ∀ rows k r,
    NoDup l.*1 → (k, r) ∈ l →
    reload_all now' rows l !! k = Some (reloaded now' r).
Proof.
  induction l as [|[k0 r0] l IH]; intros rows k r Hnd Hin.
  - by apply elem_of_nil in Hin.
  - rewrite reload_all_cons. cbn in Hnd. apply NoDup_cons in Hnd as [Hk0 Hnd].
    apply elem_of_cons in Hin as [Heq|Hin].
    + injection Heq as -> ->.
      rewrite reload_all_lookup_notin by done. apply lookup_insert_eq.
    + by apply IH.
Qed.

(** C1, as the code has it.  For a database whose fields have the sizes
    and ranges of their C++ types and whose transactions the codec gives
    back, [load] of the bytes of [serialize] succeeds; the loaded table has
    exactly the rows that are not purged, each with its tx, txid, ntxid,
    state, need_check, malleated and master-confirm fields, its block
    height if it is confirmed and its timestamp if it is unconfirmed; and
    the last height is the same.  A row is purged when it is unconfirmed
    and the 64-bit signed sum of its timestamp and the timeout is less
    than [now]; this is [timestamp + unconfirmed_timeout < now] whenever
    the sum is a 64-bit signed value. *)
Theorem C1_load_serialize_round_trip (now now' : Z) (db db0 : TxDatabase) :
  serializable db →
  (∃ db',
     load now' (serialize now db) db0 = Some (Status_ok, db')
     ∧ last_height_ db' = last_height_ db
     ∧ last_height db' = last_height db
     ∧ ∀ k,
         match rows_ db !! k with
         | None => rows_ db' !! k = None
         | Some r =>
             if decide (purged now (unconfirmed_timeout_ db) r)
             then rows_ db' !! k = None
             else ∃ r', rows_ db' !! k = Some r' ∧ fields_preserved r r'
         end)
  ∧ ∀ r, in_i64 (TxRow.timestamp r + unconfirmed_timeout_ db) →
         (purged now (unconfirmed_timeout_ db) r
          ↔ TxRow.timestamp r + unconfirmed_timeout_ db < now
            ∧ TxState.unconfirmed = TxRow.state r).
Proof.
  intros [Hlast Hrows].
  split.
  2:{ intros r Hsum. unfold purged. by rewrite to_i64_small. }
  unfold load, serialize.
  rewrite read_4_bytes_write_4_bytes.
  rewrite decide_False by (intros H; by apply H).
  rewrite read_8_bytes_write_8_bytes.
  rewrite load_rows_serialize_rows.
  2:{ intros [k r] Hkr. apply elem_of_iterate in Hkr. by apply Hrows. }
  2:{ done. }
  eexists. split; [reflexivity|]. cbn.
  split; [apply Z.mod_small, Hlast|].
  split; [unfold last_height; cbn; f_equal; apply Z.mod_small, Hlast|].
  intros k.
  set (kept := filter (λ kr, ¬ purged now (unconfirmed_timeout_ db) kr.2)
                      (iterate (rows_ db))).
  assert (Hnd : NoDup kept.*1).
  { eapply sublist_NoDup; [apply NoDup_iterate_keys|].
    apply fmap_sublist, sublist_filter. }
  assert (Hin : ∀ k r, (k, r) ∈ kept
                       ↔ rows_ db !! k = Some r
                         ∧ ¬ purged now (unconfirmed_timeout_ db) r).
  { intros k1 r1. unfold kept. rewrite list_elem_of_filter, elem_of_iterate.
    cbn. tauto. }
  assert (Hnotin : ∀ k, (∀ r, rows_ db !! k = Some r →
                              purged now (unconfirmed_timeout_ db) r) →
                        k ∉ kept.*1).
  { intros k1 Hk1 Hin1. apply list_elem_of_fmap in Hin1 as ([k2 r2] & -> & Hin2).
    apply Hin in Hin2 as [Hr2 Hp2]. apply Hp2. by apply Hk1. }
  destruct (rows_ db !! k) as [r|] eqn:Hr.
  - destruct (decide (purged now (unconfirmed_timeout_ db) r)) as [Hp|Hp].
    + rewrite reload_all_lookup_notin; [apply lookup_empty|].
      apply Hnotin. intros r1 Hr1. congruence.
    + exists (reloaded now' r). split; [|apply fields_preserved_reloaded].
      apply reload_all_lookup_in; [done|]. apply Hin. done.
  - rewrite reload_all_lookup_notin; [apply lookup_empty|].
    apply Hnotin. intros r1 Hr1. congruence.
Qed.

(** ** load on arbitrary bytes *)

Lemma read_data_take_drop (n : nat) (s : list byte) :
  read_data n s
  = if decide (length s < n)%nat then None else Some (take n s, drop n s).
Proof.
  case_decide as Hlen.
  - by apply read_data_None.
  - destruct (read_data n s) as [[l s']|] eqn:H.
    + apply read_data_Some in H as [-> <-].
      by rewrite take_app_length, drop_app_length.
    + apply read_data_None in H. lia.
Qed.

Lemma records_stuck_unique (now : Z) (s t1 t2 : list byte) :
  records now s t1 → stuck now t1 →
  records now s t2 → stuck now t2 → t1 = t2.
Proof.
  intros H1. revert t2.
  induction H1 as [s|b s k r s' s'' Hb Hrow Hrec IH]; intros t2 Hst1 H2 Hst2.
  - destruct H2 as [|b s0 k r s' s'' Hb Hrow Hrec]; [done|].
    destruct Hst1 as [Hne|Hnone]; [by destruct Hne|congruence].
  - inversion H2 as [|b' s0 k' r' s2 s2' Hb' Hrow' Hrec']; subst.
    + destruct Hst2 as [Hne|Hnone]; [by destruct Hne|congruence].
    + rewrite Hrow in Hrow'. injection Hrow' as <- <- <-. by apply IH.
Qed.

(** How the loop of [load] ends. *)
Lemma load_rows_outcome (now : Z) (fuel : nat) :
  ∀ s rows,
    (length s ≤ fuel)%nat →
    ∃ o,
      load_rows fuel now s rows = Some o
      ∧ match o with
        | Loaded _ => records now s []
        | Returned status =>
            status = UnknownRecord
            ∧ ∃ b s', records now s (b :: s') ∧ Z_of_byte b ≠ serial_tx
        | Thrown_end_of_stream =>
            ∃ b s', records now s (b :: s') ∧ Z_of_byte b = serial_tx
                    ∧ load_row now s' = None
        end.
Proof.
  induction fuel as [|fuel IH]; intros s rows Hlen.
  - destruct s; [|cbn in Hlen; lia]. eexists. split; [reflexivity|].
    apply records_done.
  - destruct s as [|b s].
    { eexists. split; [reflexivity|]. apply records_done. }
    cbn [load_rows].
    destruct (decide (Z_of_byte b ≠ serial_tx)) as [Hb|Hb].
    { eexists. split; [reflexivity|]. split; [done|].
      exists b, s. split; [apply records_done|done]. }
    apply dec_stable in Hb.
    destruct (load_row now s) as [[[k r] s']|] eqn:Hrow.
    2:{ eexists. split; [reflexivity|]. exists b, s.
        split; [apply records_done|done]. }
    destruct (IH s' (<[k := r]> rows)) as (o & Heq & Ho).
    { apply load_row_length in Hrow. cbn in Hlen. lia. }
    exists o. split; [done|].
    destruct o as [rows'|status|].
    + by eapply records_next.
    + destruct Ho as (-> & b' & s2 & Hrec & Hb'). split; [done|].
      exists b', s2. split; [by eapply records_next|done].
    + destruct Ho as (b' & s2 & Hrec & Hb' & Hnone).
      exists b', s2. split; [by eapply records_next|done].
Qed.

Lemma load_returns (now : Z) (data : data_chunk) (db : TxDatabase) :
  (length data < 4)%nat ∧ load now data db = Some (Truncated, db)
  ∨ (4 ≤ length data)%nat ∧ magic_of data = old_serial_magic
    ∧ load now data db = Some (OutdatedFormat, db)
  ∨ (4 ≤ length data)%nat ∧ magic_of data ≠ serial_magic
    ∧ magic_of data ≠ old_serial_magic
    ∧ load now data db = Some (UnknownHeader, db)
  ∨ (4 ≤ length data < header_size)%nat ∧ magic_of data = serial_magic
    ∧ load now data db = Some (Truncated, db)
  ∨ (header_size ≤ length data)%nat ∧ magic_of data = serial_magic
    ∧ unknown_record_seen now data
    ∧ load now data db = Some (UnknownRecord, db)
  ∨ (header_size ≤ length data)%nat ∧ magic_of data = serial_magic
    ∧ truncated_mid_record now data
    ∧ load now data db = Some (Truncated, db)
  ∨ (header_size ≤ length data)%nat ∧ magic_of data = serial_magic
    ∧ records_complete now data
    ∧ ∃ db', load now data db = Some (Status_ok, db').
Proof.
  unfold load, read_4_bytes. rewrite read_data_take_drop.
  destruct (decide (length data < 4)%nat) as [H4|H4]; [by left|].
  right. cbn [fmap option_fmap option_map prod_map fst snd id].
  fold (magic_of data).
  destruct (decide (serial_magic ≠ magic_of data)) as [Hm|Hm].
  { destruct (decide (old_serial_magic = magic_of data)) as [Ho|Ho].
    - left. split; [lia|]. by split.
    - right. left. split; [lia|]. split; [congruence|]. split; [congruence|done]. }
  apply dec_stable in Hm. do 2 right.
  unfold read_8_bytes. rewrite read_data_take_drop, length_drop.
  destruct (decide (length data - 4 < 8)%nat) as [H8|H8].
  { left. unfold header_size. split; [lia|]. by split. }
  right. cbn [fmap option_fmap option_map prod_map fst snd id].
  rewrite drop_drop. change (4 + 8)%nat with header_size.
  assert (H12 : (header_size ≤ length data)%nat) by (unfold header_size; lia).
  destruct (load_rows_outcome now (length (drop header_size data))
              (drop header_size data) ∅) as (o & -> & Ho); [done|].
  destruct o as [rows|status|].
  - do 2 right. do 2 (split; [done|]). split; [exact Ho|]. by eexists.
  - destruct Ho as (-> & Hseen). left. do 2 (split; [done|]). by split.
  - right. left. do 2 (split; [done|]). by split.
Qed.

Lemma records_outcomes_exclusive (now : Z) (data : data_chunk) :
  (unknown_record_seen now data → ¬ truncated_mid_record now data)
  ∧ (unknown_record_seen now data → ¬ records_complete now data)
  ∧ (truncated_mid_record now data → ¬ records_complete now data).
Proof.
  unfold unknown_record_seen, truncated_mid_record, records_complete.
  split; [|split].
  - intros (b & s & Hrec & Hb) (b' & s' & Hrec' & Hb' & Hnone).
    assert (Heq : b :: s = b' :: s').
    { eapply records_stuck_unique; [exact Hrec| |exact Hrec'|].
      - by left.
      - by right. }
    congruence.
  - intros (b & s & Hrec & Hb) Hrec'.
    assert (Heq : b :: s = []); [|done].
    eapply records_stuck_unique; [exact Hrec| |exact Hrec'|done]. by left.
  - intros (b & s & Hrec & Hb & Hnone) Hrec'.
    assert (Heq : b :: s = []); [|done].
    eapply records_stuck_unique; [exact Hrec| |exact Hrec'|done]. by right.
Qed.

(** C7, as the code has it.  [load] returns on every input, and the
    database is unchanged unless it succeeds.  It reports an outdated
    format exactly when the magic is the legacy one, an unknown header
    exactly when the magic is neither that nor the current one, an unknown
    record exactly when, after the header and complete records, a byte other
    than [serial_tx] is seen, and a truncated database exactly when the
    input ends in the header (in the magic, or after the current magic in
    the last height) or in the middle of a record.  All four are
    [ABC_CC_ParseError] with different messages. *)
Theorem C7_load_errors (now : Z) (data : data_chunk) (db : TxDatabase) :
  ∃ status db',
    load now data db = Some (status, db')
    ∧ (status ≠ Status_ok → db' = db)
    ∧ (status = OutdatedFormat
       ↔ (4 ≤ length data)%nat ∧ magic_of data = old_serial_magic)
    ∧ (status = UnknownHeader
       ↔ (4 ≤ length data)%nat ∧ magic_of data ≠ serial_magic
         ∧ magic_of data ≠ old_serial_magic)
    ∧ (status = UnknownRecord
       ↔ (header_size ≤ length data)%nat ∧ magic_of data = serial_magic
         ∧ unknown_record_seen now data)
    ∧ (status = Truncated
       ↔ (length data < 4)%nat
         ∨ (length data < header_size)%nat ∧ magic_of data = serial_magic
         ∨ (header_size ≤ length data)%nat ∧ magic_of data = serial_magic
           ∧ truncated_mid_record now data).
Proof.
  pose proof (records_outcomes_exclusive now data) as (Hx1 & Hx2 & Hx3).
  assert (Hmagic : old_serial_magic ≠ serial_magic) by done.
  unfold header_size in *.
  destruct (load_returns now data db)
    as [(H4 & ->)|[(H4 & Hm & ->)|[(H4 & Hm & Hm' & ->)|[(H4 & Hm & ->)
       |[(H12 & Hm & Hrec & ->)|[(H12 & Hm & Hrec & ->)
       |(H12 & Hm & Hrec & db' & ->)]]]]]];
    eexists _, _; (split; [reflexivity|]);
    (split; [try done; intros H; by destruct H|]);
    unfold header_size in *;
    repeat split; try discriminate; try (intros; exfalso; lia);
    try (intros; exfalso; intuition congruence); try (intros; exfalso; intuition lia);
    try (intros; by auto).
  intros _. right. left. split; [lia|done].
Qed.

(** * Further properties *)

(** ** Lookups by txid and by ntxid *)

Lemma txidExists_is_Some (txid : hash_digest) (db : TxDatabase) :
  txidExists txid db = true ↔ is_Some (rows_ db !! txid).
Proof. apply bool_decide_eq_true. Qed.

Lemma txidExists_None (txid : hash_digest) (db : TxDatabase) :
  txidExists txid db = false ↔ rows_ db !! txid = None.
Proof.
  unfold txidExists. rewrite bool_decide_eq_false. symmetry.
  apply eq_None_not_Some.
Qed.

Lemma ntxidExists_true (n : hash_digest) (db : TxDatabase) :
  ntxidExists n db = true
  ↔ ∃ k r, rows_ db !! k = Some r ∧ TxRow.ntxid r = n.
Proof.
  unfold ntxidExists.
  pose proof (elem_of_ntxidLookupAll n (rows_ db)) as Hin.
  destruct (ntxidLookupAll n (rows_ db)) as [|p l].
  - split; [done|]. intros (k & r & Hr). destruct (Hin k) as [_ H].
    apply elem_of_nil in H; [done|eauto].
  - split; [|done]. intros _.
    destruct (Hin p) as [(r & Hr) _]; [by left|]. eauto.
Qed.

(** X1.  [ntxidLookupAll] returns the key of every row with the given
    ntxid once, and nothing else, whatever the iteration order of the
    table; [ntxidExists] is true exactly when there is such a row. *)
Theorem ntxidExists_iff_cluster (n : hash_digest) (db : TxDatabase) :
  NoDup (ntxidLookupAll n (rows_ db))
  ∧ (∀ k, k ∈ ntxidLookupAll n (rows_ db)
          ↔ ∃ r, rows_ db !! k = Some r ∧ TxRow.ntxid r = n)
  ∧ (ntxidExists n db = true
     ↔ ∃ k r, rows_ db !! k = Some r ∧ TxRow.ntxid r = n).
Proof.
  split; [apply NoDup_ntxidLookupAll|].
  split; [apply elem_of_ntxidLookupAll|apply ntxidExists_true].
Qed.

(** X2.  [insert] answers whether the txid was missing; afterwards the
    txid exists, and when the row is new [txidLookup] gives the inserted
    transaction back and its ntxid exists.  For every other txid,
    [txidExists], [txidLookup] and [txidHeight] answer as before. *)
Theorem insert_then_lookup (now : Z) (tx : transaction_type)
  (db : TxDatabase) :
  (insert now tx db).1 = negb (txidExists (hash_transaction tx) db)
  ∧ txidExists (hash_transaction tx) (insert now tx db).2 = true
  ∧ ((insert now tx db).1 = true →
     txidLookup (hash_transaction tx) (insert now tx db).2 = tx
     ∧ ntxidExists (makeNtxid tx) (insert now tx db).2 = true)
  ∧ (∀ k, k ≠ hash_transaction tx →
          txidExists k (insert now tx db).2 = txidExists k db
          ∧ txidLookup k (insert now tx db).2 = txidLookup k db
          ∧ txidHeight k (insert now tx db).2 = txidHeight k db).
Proof.
  destruct (rows_ db !! hash_transaction tx) as [r|] eqn:Hr.
  - rewrite (insert_existing now tx db) by (by rewrite Hr). cbn.
    assert (He : txidExists (hash_transaction tx) db = true)
      by (apply txidExists_is_Some; by rewrite Hr).
    rewrite He. cbn. split; [done|]. split; [done|]. split; [discriminate|done].
  - destruct (insert_fresh now tx db Hr)
      as (db' & row & -> & _ & _ & Hrow & Htx & _ & Hn & _ & _ & _ & Hother & _).
    cbn.
    assert (He : txidExists (hash_transaction tx) db = false)
      by (by apply txidExists_None).
    rewrite He. cbn. split; [done|].
    split; [apply txidExists_is_Some; by rewrite Hrow|].
    split.
    + intros _. split; [unfold txidLookup; by rewrite Hrow|].
      apply ntxidExists_true. by exists (hash_transaction tx), row.
    + intros k Hk. specialize (Hother k Hk).
      unfold txidExists, txidLookup, txidHeight. rewrite Hother.
      destruct (rows_ db !! k) as [r|]; cbn; [|done].
      split; [done|].
      by destruct (decide (TxRow.ntxid r = makeNtxid tx
                           ∧ hash_transaction tx ≠ TxRow.txid r)).
Qed.

(** ** confirmed and unconfirmed, seen through the queries *)

Lemma elem_of_foreach_unconfirmed (k : hash_digest) (db : TxDatabase) :
  k ∈ foreach_unconfirmed db
  ↔ ∃ r, rows_ db !! k = Some r ∧ TxRow.state r ≠ TxState.confirmed.
Proof.
  unfold foreach_unconfirmed. rewrite list_elem_of_fmap. split.
  - intros [[k' r] [-> Hin]]. apply list_elem_of_filter in Hin as [Hs Hin].
    apply elem_of_iterate in Hin. eauto.
  - intros (r & Hr & Hs). exists (k, r). split; [done|].
    apply list_elem_of_filter. split; [done|]. by apply elem_of_iterate.
Qed.

Lemma ntxidHeight_value (result : Z) (n : hash_digest) (db : TxDatabase) :
  (∃ k r, rows_ db !! k = Some r ∧ TxRow.ntxid r = n) →
  ntxidHeight result n db
  = (Status_ok,
     if decide (1 < Z.of_nat (length (deref_all (rows_ db)
                                        (ntxidLookupAll n (rows_ db))))
                ∧ max_confirmed_height 0
                    (deref_all (rows_ db) (ntxidLookupAll n (rows_ db))) = 0)
     then -1
     else max_confirmed_height 0
            (deref_all (rows_ db) (ntxidLookupAll n (rows_ db)))).
Proof.
  intros (k & r & Hr & Hn). unfold ntxidHeight.
  fold (max_confirmed_height 0
          (deref_all (rows_ db) (ntxidLookupAll n (rows_ db)))).
  pose proof (elem_of_cluster_rows n (rows_ db) r) as Hin.
  destruct (deref_all (rows_ db) (ntxidLookupAll n (rows_ db)))
    as [|r0 l] eqn:Hl; [|reflexivity].
  destruct Hin as [_ H]. apply elem_of_nil in H; [done|eauto].
Qed.

Lemma max_confirmed_height_uniform (h : Z) (txRows : list TxRow.t) :
  0 < h → txRows ≠ [] →
  (∀ r, r ∈ txRows →
        TxRow.state r = TxState.confirmed ∧ TxRow.block_height r = h) →
  max_confirmed_height 0 txRows = h.
Proof.
  intros Hh Hne Hall.
  destruct (max_confirmed_height_spec txRows 0) as (Hge & Hmax & Hwit).
  destruct txRows as [|r0 l]; [done|].
  destruct (Hall r0 ltac:(left)) as [Hc0 Hb0].
  pose proof (Hmax r0 ltac:(left) Hc0) as Hle.
  destruct Hwit as [Hm|(r & Hr & Hc & Hb)]; [lia|].
  destruct (Hall r Hr) as [_ Hbr]. congruence.
Qed.

Lemma max_confirmed_height_none (txRows : list TxRow.t) :
  (∀ r, r ∈ txRows → TxRow.state r ≠ TxState.confirmed) →
  max_confirmed_height 0 txRows = 0.
Proof.
  intros Hall.
  destruct (max_confirmed_height_spec txRows 0) as (_ & _ & Hwit).
  destruct Hwit as [Hm|(r & Hr & Hc & Hb)]; [done|].
  by destruct (Hall r Hr).
Qed.

(** X3.  After [confirmed txid h] on a txid of the table, [txidHeight]
    answers [h] for [txid] and for every row of its ntxid cluster with
    another txid, [foreach_unconfirmed] does not report [txid] any more,
    and rows of other clusters keep their height.  When every row is
    stored under its txid and [h] is positive, [ntxidHeight] of the cluster
    answers [h] as well. *)
Theorem confirmed_then_heights (txid : hash_digest) (h : Z)
  (db : TxDatabase) (row : TxRow.t) :
  rows_ db !! txid = Some row →
  ∃ db',
    confirmed txid h db = Some db'
    ∧ txidHeight txid db' = h
    ∧ (txid ∉ foreach_unconfirmed db')
    ∧ (∀ k r, rows_ db !! k = Some r →
              TxRow.ntxid r = TxRow.ntxid row → txid ≠ TxRow.txid r →
              txidHeight k db' = h)
    ∧ (∀ k r, rows_ db !! k = Some r →
              k ≠ txid → TxRow.ntxid r ≠ TxRow.ntxid row →
              txidHeight k db' = txidHeight k db)
    ∧ (keys_consistent db → 0 < h →
       ∀ result,
         ntxidHeight result (TxRow.ntxid row) db' = (Status_ok, h)).
Proof.
  intros Hrow.
  destruct (confirmed_effect txid h db row Hrow) as (db' & Hc & _ & _ & Hk).
  exists db'. split; [exact Hc|].
  assert (Hown : ∃ r', rows_ db' !! txid = Some r'
                       ∧ TxRow.state r' = TxState.confirmed
                       ∧ TxRow.block_height r' = h
                       ∧ TxRow.ntxid r' = TxRow.ntxid row).
  { specialize (Hk txid). rewrite Hrow in Hk.
    destruct Hk as (r' & Hr' & _ & _ & Hn & _ & _ & _ & _ & Hst & _).
    exists r'. destruct Hst as [? ?]; [by left|]. done. }
  destruct Hown as (r0 & Hr0 & Hs0 & Hb0 & Hn0).
  split; [|split; [|split; [|split]]].
  - unfold txidHeight. rewrite Hr0. by rewrite decide_False by (by intros []).
  - rewrite elem_of_foreach_unconfirmed. intros (r & Hr & Hs). congruence.
  - intros k r Hr Hn Hne. specialize (Hk k). rewrite Hr in Hk.
    destruct Hk as (r' & Hr' & _ & _ & _ & _ & _ & _ & _ & Hst & _).
    destruct Hst as [Hs Hb]; [by right|].
    unfold txidHeight. rewrite Hr'. by rewrite decide_False by (by intros []).
  - intros k r Hr Hkne Hn. specialize (Hk k). rewrite Hr in Hk.
    destruct Hk as (r' & Hr' & _ & _ & _ & _ & _ & _ & _ & _ & Hst & _).
    destruct Hst as [Hs Hb]; [done|by intros [? ?]|].
    unfold txidHeight. rewrite Hr', Hr, Hs, Hb. done.
  - intros Hkeys Hh result.
    rewrite ntxidHeight_value by (by exists txid, r0).
    assert (Hall : ∀ r, r ∈ deref_all (rows_ db')
                              (ntxidLookupAll (TxRow.ntxid row) (rows_ db')) →
                        TxRow.state r = TxState.confirmed
                        ∧ TxRow.block_height r = h).
    { intros r' Hin. apply elem_of_cluster_rows in Hin as (k & Hr' & Hn').
      specialize (Hk k). destruct (rows_ db !! k) as [r|] eqn:Hr; [|congruence].
      destruct Hk as (r2 & Hr2 & _ & _ & Hn & _ & _ & _ & _ & Hst & _).
      assert (r2 = r') by congruence. subst r2.
      apply Hst. destruct (decide (k = txid)) as [|Hne]; [by left|right].
      split; [congruence|]. rewrite (Hkeys k r Hr). congruence. }
    assert (Hne : deref_all (rows_ db')
                    (ntxidLookupAll (TxRow.ntxid row) (rows_ db')) ≠ []).
    { intros He.
      assert (Hin : r0 ∈ deref_all (rows_ db')
                      (ntxidLookupAll (TxRow.ntxid row) (rows_ db')))
        by (apply elem_of_cluster_rows; eauto).
      rewrite He in Hin. by apply elem_of_nil in Hin. }
    rewrite (max_confirmed_height_uniform h) by done.
    rewrite decide_False by lia. done.
Qed.

Lemma TxRow_eq (r r' : TxRow.t) :
  TxRow.tx r' = TxRow.tx r →
  TxRow.txid r' = TxRow.txid r →
  TxRow.ntxid r' = TxRow.ntxid r →
  TxRow.state r' = TxRow.state r →
  TxRow.block_height r' = TxRow.block_height r →
  TxRow.timestamp r' = TxRow.timestamp r →
  (TxRow.bMalleated r' = true ↔ TxRow.bMalleated r = true) →
  TxRow.bMasterConfirm r' = TxRow.bMasterConfirm r →
  TxRow.need_check r' = TxRow.need_check r →
  r' = r.
Proof.
  destruct r as [t1 i1 n1 s1 b1 ts1 m1 c1 k1], r' as [t2 i2 n2 s2 b2 ts2 m2 c2 k2].
  cbn. intros -> -> -> -> -> -> Hm -> ->. f_equal.
  destruct m1, m2; try done; [by apply Hm|symmetry; by apply Hm].
Qed.

(** X4.  [confirmed] is idempotent: a second report of the same
    confirmation, at the same height, leaves the database as the first one
    left it. *)
Theorem confirmed_idempotent (txid : hash_digest) (h : Z)
  (db db' : TxDatabase) :
  confirmed txid h db = Some db' → confirmed txid h db' = Some db'.
Proof using iterate_perm.
  clear satoshi_save satoshi_load satoshi_raw_size.
  intros Hc.
  destruct (rows_ db !! txid) as [row|] eqn:Hrow;
    [|unfold confirmed in Hc; by rewrite Hrow in Hc].
  destruct (confirmed_effect txid h db row Hrow) as (db1 & Hc1 & _ & _ & Hk1).
  assert (db1 = db') by congruence. subst db1. clear Hc1.
  assert (Hrow' : ∃ row', rows_ db' !! txid = Some row'
                          ∧ TxRow.ntxid row' = TxRow.ntxid row).
  { specialize (Hk1 txid). rewrite Hrow in Hk1.
    destruct Hk1 as (r' & Hr' & _ & _ & Hn & _). eauto. }
  destruct Hrow' as (row' & Hrow' & Hn').
  destruct (confirmed_effect txid h db' row' Hrow')
    as (db2 & Hc2 & Hl2 & Ht2 & Hk2).
  rewrite Hc2. f_equal. rewrite Hn' in Hk2.
  assert (Hhas : (∃ k2 r2, rows_ db' !! k2 = Some r2
                           ∧ TxRow.ntxid r2 = TxRow.ntxid row
                           ∧ txid ≠ TxRow.txid r2)
                 ↔ (∃ k2 r2, rows_ db !! k2 = Some r2
                             ∧ TxRow.ntxid r2 = TxRow.ntxid row
                             ∧ txid ≠ TxRow.txid r2)).
  { split; intros (k2 & r2 & Hr2 & Hn2 & Hne2); specialize (Hk1 k2).
    - destruct (rows_ db !! k2) as [r|] eqn:Hr; [|congruence].
      destruct Hk1 as (r' & Hr' & _ & Hi & Hn & _).
      exists k2, r. split; [done|]. split; congruence.
    - rewrite Hr2 in Hk1. destruct Hk1 as (r' & Hr' & _ & Hi & Hn & _).
      exists k2, r'. split; [done|]. split; congruence. }
  assert (Hrows : rows_ db2 = rows_ db').
  { apply map_eq. intros k. specialize (Hk1 k). specialize (Hk2 k).
    destruct (rows_ db !! k) as [r|] eqn:Hr.
    2:{ rewrite Hk1 in Hk2 |- *. exact Hk2. }
    destruct Hk1 as (r' & Hr' & Hp1). rewrite Hr' in Hk2 |- *.
    destruct Hk2 as (r'' & Hr'' & Hp2). rewrite Hr''. f_equal.
    unfold confirmed_post in Hp1, Hp2. rewrite Hhas in Hp2. clear Hhas.
    destruct Hp1 as (Ht1 & Hi1 & Hn1 & Hts1 & Hnc1 & Hma1 & Hmb1 & Hsa1
                     & Hsb1 & Hmal1 & Hmal1').
    destruct Hp2 as (Ht2' & Hi2 & Hn2 & Hts2 & Hnc2 & Hma2 & Hmb2 & Hsa2
                     & Hsb2 & Hmal2 & Hmal2').
    rewrite Hi1, Hn1 in Hsa2, Hsb2, Hmal2, Hmal2'.
    apply TxRow_eq; try done.
    - destruct (decide (k = txid
                        ∨ (TxRow.ntxid r = TxRow.ntxid row
                           ∧ txid ≠ TxRow.txid r))) as [Hd|Hd].
      + destruct (Hsa1 Hd) as [-> _]. by destruct (Hsa2 Hd) as [-> _].
      + apply Hsb2; intros ?; apply Hd; [by left|by right].
    - destruct (decide (k = txid
                        ∨ (TxRow.ntxid r = TxRow.ntxid row
                           ∧ txid ≠ TxRow.txid r))) as [Hd|Hd].
      + destruct (Hsa1 Hd) as [_ ->]. by destruct (Hsa2 Hd) as [_ ->].
      + apply Hsb2; intros ?; apply Hd; [by left|by right].
    - destruct (decide (TxRow.ntxid r = TxRow.ntxid row
                        ∧ txid ≠ TxRow.txid r)) as [Hd|Hd].
      + rewrite (Hmal1 Hd), (Hmal2 Hd). done.
      + rewrite (Hmal2' Hd), (Hmal1' Hd).
        split; [intros [H|H]; [exact H|by right]|intros H; by left].
    - destruct (decide (k = txid)) as [Hd|Hd].
      + by rewrite (Hma1 Hd), (Hma2 Hd).
      + by apply Hmb2. }
  destruct db2, db'. cbn in *. congruence.
Qed.

(** X5.  [confirmed] and [unconfirmed] return exactly on the txids that
    [txidExists] accepts; on any other txid their assertion fails.  When
    they return, the last height is kept and every txid exists and looks
    up as before. *)
Theorem confirmed_unconfirmed_defined (txid : hash_digest) (h : Z)
  (db : TxDatabase) :
  (is_Some (confirmed txid h db) ↔ txidExists txid db = true)
  ∧ (is_Some (unconfirmed txid db) ↔ txidExists txid db = true)
  ∧ (∀ db',
       confirmed txid h db = Some db' ∨ unconfirmed txid db = Some db' →
       last_height db' = last_height db
       ∧ ∀ k, txidExists k db' = txidExists k db
              ∧ txidLookup k db' = txidLookup k db).
Proof.
  rewrite txidExists_is_Some.
  destruct (rows_ db !! txid) as [row|] eqn:Hrow.
  2:{ unfold confirmed, unconfirmed. rewrite Hrow.
      split; [split; intros [? ?]; done|].
      split; [split; intros [? ?]; done|].
      intros db' [?|?]; done. }
  destruct (confirmed_effect txid h db row Hrow) as (dbc & Hc & Hlc & _ & Hkc).
  destruct (unconfirmed_effect txid db row Hrow) as (dbu & Hu & Hlu & _ & Hku).
  rewrite Hc, Hu. split; [split; eauto|]. split; [split; eauto|].
  intros db' [Heq|Heq]; injection Heq as <-;
    (split; [unfold last_height; congruence|]); intros k.
  - specialize (Hkc k). unfold txidExists, txidLookup.
    destruct (rows_ db !! k) as [r|].
    + destruct Hkc as (r' & -> & Htx & _). split; [|done].
      apply bool_decide_ext. split; eauto.
    + by rewrite Hkc.
  - specialize (Hku k). unfold txidExists, txidLookup.
    destruct (rows_ db !! k) as [r|].
    + destruct Hku as (r' & -> & Htx & _). split; [|done].
      apply bool_decide_ext. split; eauto.
    + by rewrite Hku.
Qed.

(** ** The callbacks *)

(** X6.  [foreach_unconfirmed] calls [f] once on the txid of every row
    that is not confirmed, and on nothing else, whatever the iteration
    order; [txidHeight] is 0 for each of them, and [foreach_forked] reports
    none of them. *)
Theorem foreach_unconfirmed_exact (db : TxDatabase) :
  NoDup (foreach_unconfirmed db)
  ∧ (∀ k, k ∈ foreach_unconfirmed db
          ↔ ∃ r, rows_ db !! k = Some r
                 ∧ TxRow.state r ≠ TxState.confirmed)
  ∧ (∀ k, k ∈ foreach_unconfirmed db →
          txidHeight k db = 0 ∧ k ∉ foreach_forked db).
Proof.
  split; [|split].
  - unfold foreach_unconfirmed.
    eapply sublist_NoDup; [apply NoDup_iterate_keys|].
    apply fmap_sublist, sublist_filter.
  - intros k. apply elem_of_foreach_unconfirmed.
  - intros k Hk. apply elem_of_foreach_unconfirmed in Hk as (r & Hr & Hs).
    split.
    + unfold txidHeight. rewrite Hr. by rewrite decide_True.
    + unfold foreach_forked. rewrite list_elem_of_fmap.
      intros [[k' r'] [Hk' Hin]]. cbn in Hk'. subst k'.
      apply list_elem_of_filter in Hin as [[Hs' _] Hin].
      apply elem_of_iterate in Hin. cbn in Hs'. congruence.
Qed.

(** ** Sequences of calls of all the operations *)

Lemma same_identity_refl (r : TxRow.t) : same_identity r r.
Proof. by repeat split. Qed.

(** What one call does to the rows: a row of the table afterwards is a
    row of the table before with the same transaction, hashes and fork
    mark, or the row that [insert] made; and only [clear] removes rows. *)
Lemma exec_command_rows (c : command) (db db' : TxDatabase) :
  exec_command c db = Some db' →
  unconfirmed_timeout_ db' = unconfirmed_timeout_ db
  ∧ (∀ k r', rows_ db' !! k = Some r' →
       (∃ r, rows_ db !! k = Some r ∧ same_identity r r')
       ∨ (rows_ db !! k = None
          ∧ ∃ now tx,
              c = Cmd_insert now tx
              ∧ k = hash_transaction tx
              ∧ TxRow.tx r' = tx
              ∧ TxRow.txid r' = hash_transaction tx
              ∧ TxRow.ntxid r' = makeNtxid tx
              ∧ TxRow.timestamp r' = now
              ∧ TxRow.need_check r' = false
              ∧ TxRow.bMasterConfirm r' = false))
  ∧ (c ≠ Cmd_clear →
     ∀ k r, rows_ db !! k = Some r →
            ∃ r', rows_ db' !! k = Some r' ∧ same_identity r r').
Proof using iterate_perm.
  clear satoshi_save satoshi_load satoshi_raw_size.
  destruct c as [now tx| |height|txid h|txid|now txid]; cbn; intros Hc.
  - injection Hc as <-.
    destruct (rows_ db !! hash_transaction tx) as [r0|] eqn:Hr0.
    + rewrite (insert_existing now tx db) by (by rewrite Hr0). cbn.
      split; [done|]. split.
      * intros k r' Hr'. left. exists r'. split; [done|apply same_identity_refl].
      * intros _ k r Hr. exists r. split; [done|apply same_identity_refl].
    + destruct (insert_fresh now tx db Hr0)
        as (db' & row & -> & _ & Ht & Hrow & Htx & Hi & Hn & Hts & Hnc & Hm
            & Hother & _).
      cbn. split; [done|]. split.
      * intros k r' Hr'. destruct (decide (k = hash_transaction tx)) as [->|Hk].
        -- right. split; [done|]. exists now, tx.
           assert (r' = row) by congruence. subst r'. done.
        -- left. rewrite (Hother k Hk) in Hr'.
           destruct (rows_ db !! k) as [r|]; [|done].
           cbn in Hr'. injection Hr' as <-. exists r. split; [done|].
           case_decide; by repeat split.
      * intros _ k r Hr.
        assert (Hk : k ≠ hash_transaction tx) by congruence.
        rewrite (Hother k Hk), Hr. cbn. eexists. split; [done|].
        case_decide; by repeat split.
  - injection Hc as <-. cbn. split; [done|]. split; [|done].
    intros k r' Hr'. by rewrite lookup_empty in Hr'.
  - injection Hc as <-. unfold at_height. rewrite check_fork_unchanged. cbn.
    split; [done|]. split.
    + intros k r' Hr'. left. exists r'. split; [done|apply same_identity_refl].
    + intros _ k r Hr. exists r. split; [done|apply same_identity_refl].
  - destruct (rows_ db !! txid) as [row|] eqn:Hrow;
      [|unfold confirmed in Hc; by rewrite Hrow in Hc].
    destruct (confirmed_effect txid h db row Hrow) as (db1 & Hc1 & _ & Ht & Hk).
    assert (db1 = db') by congruence. subst db1.
    split; [done|]. split.
    + intros k r' Hr'. left. specialize (Hk k).
      destruct (rows_ db !! k) as [r|]; [|congruence].
      destruct Hk as (r2 & Hr2 & ? & ? & ? & ? & ? & _).
      assert (r2 = r') by congruence. subst r2. exists r. by repeat split.
    + intros _ k r Hr. specialize (Hk k). rewrite Hr in Hk.
      destruct Hk as (r2 & Hr2 & ? & ? & ? & ? & ? & _).
      exists r2. by repeat split.
  - destruct (rows_ db !! txid) as [row|] eqn:Hrow;
      [|unfold unconfirmed in Hc; by rewrite Hrow in Hc].
    destruct (unconfirmed_effect txid db row Hrow) as (db1 & Hc1 & _ & Ht & Hk).
    assert (db1 = db') by congruence. subst db1.
    split; [done|]. split.
    + intros k r' Hr'. left. specialize (Hk k).
      destruct (rows_ db !! k) as [r|]; [|congruence].
      destruct Hk as (r2 & Hr2 & ? & ? & ? & ? & ? & _).
      assert (r2 = r') by congruence. subst r2. exists r. by repeat split.
    + intros _ k r Hr. specialize (Hk k). rewrite Hr in Hk.
      destruct Hk as (r2 & Hr2 & ? & ? & ? & ? & ? & _).
      exists r2. by repeat split.
  - injection Hc as <-. unfold reset_timestamp. cbn. split; [done|]. split.
    + intros k r' Hr'. left. rewrite lookup_alter in Hr'.
      destruct (decide (txid = k)) as [->|Hk].
      * destruct (rows_ db !! k) as [r|]; [|done].
        cbn in Hr'. injection Hr' as <-. exists r. by repeat split.
      * exists r'. split; [done|apply same_identity_refl].
    + intros _ k r Hr. rewrite lookup_alter.
      destruct (decide (txid = k)) as [->|Hk].
      * rewrite Hr. cbn. eexists. split; [done|]. by repeat split.
      * exists r. split; [done|apply same_identity_refl].
Qed.

Lemma exec_preserves (P : hash_digest → TxRow.t → Prop) :
  (∀ k r r', P k r → same_identity r r' → P k r') →
  (∀ tx r', TxRow.tx r' = tx → TxRow.txid r' = hash_transaction tx →
            TxRow.ntxid r' = makeNtxid tx → TxRow.need_check r' = false →
            P (hash_transaction tx) r') →
  ∀ cs db db',
    (∀ k r, rows_ db !! k = Some r → P k r) →
    exec cs db = Some db' →
    ∀ k r, rows_ db' !! k = Some r → P k r.
Proof using iterate_perm.
  clear satoshi_save satoshi_load satoshi_raw_size.
  intros Hkeep Hnew. induction cs as [|c cs IH]; intros db db' HP He.
  - cbn in He. by injection He as <-.
  - cbn in He. destruct (exec_command c db) as [db1|] eqn:Hc; [|done].
    apply (IH db1 db'); [|done].
    intros k r' Hr'.
    destruct (exec_command_rows c db db1 Hc) as (_ & Hrows & _).
    destruct (Hrows k r' Hr')
      as [(r & Hr & Hid)|(_ & now & tx & _ & -> & ? & ? & ? & _ & ? & _)].
    + by apply (Hkeep k r r'); [apply (HP k r)|].
    + by apply Hnew.
Qed.

(** X7.  No call of [insert], [clear], [at_height], [confirmed],
    [unconfirmed] or [reset_timestamp] sets [need_check]: after any
    sequence of them on a database without a marked row (a new one, for
    instance) no row is marked and [foreach_forked] calls [f] on
    nothing. *)
Theorem exec_never_sets_need_check (cs : list command)
  (db db' : TxDatabase) :
  (∀ k r, rows_ db !! k = Some r → TxRow.need_check r = false) →
  exec cs db = Some db' →
  (∀ k r, rows_ db' !! k = Some r → TxRow.need_check r = false)
  ∧ foreach_forked db' = [].
Proof.
  intros Hdb He.
  assert (Hall : ∀ k r, rows_ db' !! k = Some r → TxRow.need_check r = false).
  { apply (exec_preserves (λ _ r, TxRow.need_check r = false)) with cs db;
      [|done|done|done].
    intros k r r' Hr (_ & _ & _ & Hnc). congruence. }
  split; [exact Hall|].
  unfold foreach_forked.
  assert (Hnil : filter (λ row : hash_digest * TxRow.t,
                           TxRow.state row.2 = TxState.confirmed
                           ∧ TxRow.need_check row.2 = true)
                        (iterate (rows_ db')) = []).
  { apply elem_of_nil_inv. intros [k r] Hin.
    apply list_elem_of_filter in Hin as [[_ Hnc] Hin].
    apply elem_of_iterate in Hin. cbn in Hnc.
    rewrite (Hall k r Hin) in Hnc. discriminate. }
  by rewrite Hnil.
Qed.

(** X8.  After any sequence of calls on a database whose rows are the rows
    of their transactions (a new one, for instance), every row is stored
    under the hash of its transaction and carries that hash and the
    normalized hash of the transaction; so [txidLookup] of a txid that
    exists returns a transaction with that hash, and [ntxidLookup] of an
    ntxid that exists a transaction with that normalized hash. *)
Theorem exec_rows_consistent (cs : list command) (db db' : TxDatabase) :
  (∀ k r, rows_ db !! k = Some r → row_consistent k r) →
  exec cs db = Some db' →
  (∀ k r, rows_ db' !! k = Some r → row_consistent k r)
  ∧ (∀ k, txidExists k db' = true →
          hash_transaction (txidLookup k db') = k)
  ∧ (∀ n version locktime,
       ntxidExists n db' = true →
       makeNtxid (ntxidLookup version locktime n db') = n).
Proof.
  intros Hdb He.
  assert (Hall : ∀ k r, rows_ db' !! k = Some r → row_consistent k r).
  { apply (exec_preserves row_consistent) with cs db; [| |done|done].
    - intros k r r' (Hk & Hi & Hn) (Ht & Hi' & Hn' & _).
      unfold row_consistent. rewrite Ht, Hi', Hn'. done.
    - intros tx r' Ht Hi Hn _. unfold row_consistent. rewrite Ht, Hi, Hn. done. }
  split; [exact Hall|]. split.
  - intros k Hk. apply txidExists_is_Some in Hk as [r Hr].
    unfold txidLookup. rewrite Hr. by destruct (Hall k r Hr) as (<- & _).
  - intros n version locktime Hn.
    apply ntxidExists_true in Hn as (k & r & Hr & Hn).
    unfold ntxidLookup.
    pose proof (elem_of_cluster_rows n (rows_ db')) as Hin.
    destruct (deref_all (rows_ db') (ntxidLookupAll n (rows_ db')))
      as [|r0 l] eqn:Hl.
    { destruct (Hin r) as [_ H]. apply elem_of_nil in H; [done|eauto]. }
    rewrite (ntxidLookup_loop_first r0 l _ Tx.default).
    destruct (ntxidLookup_loop_selection r0 l) as (r1 & Hr1 & -> & _).
    apply Hin in Hr1 as (k1 & Hk1 & Hn1).
    destruct (Hall k1 r1 Hk1) as (_ & _ & Hn1'). congruence.
Qed.

(** ** Timestamps and the purge of stale rows *)

(** X9.  [reset_timestamp] does nothing for a txid that is not in the
    table; otherwise it changes the timestamp of that row and nothing
    else.  A row whose timestamp was set at time [now], by
    [reset_timestamp] or by the [insert] that made it, is not purged by a
    [serialize] that runs no later than [unconfirmed_timeout] after
    [now]: its record is written.  This is so when the sum of [now] and
    the timeout is a 64-bit signed value, as [serialize] adds them. *)
Theorem reset_timestamp_defers_purge (now now' : Z) (txid : hash_digest)
  (db : TxDatabase) :
  in_i64 (now + unconfirmed_timeout_ db) →
  now' ≤ now + unconfirmed_timeout_ db →
  (rows_ db !! txid = None → reset_timestamp now txid db = db)
  ∧ (∀ r, rows_ db !! txid = Some r →
          rows_ (reset_timestamp now txid db) !! txid
          = Some (TxRow.set_timestamp now r)
          ∧ ∃ body,
              serialize_row now' (unconfirmed_timeout_ db)
                (txid, TxRow.set_timestamp now r)
              = byte_of_Z serial_tx :: body)
  ∧ (∀ k, k ≠ txid →
          rows_ (reset_timestamp now txid db) !! k = rows_ db !! k)
  ∧ (∀ tx, (insert now tx db).1 = true →
           ∃ row body,
             rows_ (insert now tx db).2 !! hash_transaction tx = Some row
             ∧ serialize_row now' (unconfirmed_timeout_ db)
                 (hash_transaction tx, row)
               = byte_of_Z serial_tx :: body).
Proof.
  intros Hsum Hnow.
  assert (Hser : ∀ k r, TxRow.timestamp r = now →
                        ∃ body, serialize_row now' (unconfirmed_timeout_ db)
                                  (k, r) = byte_of_Z serial_tx :: body).
  { intros k r Hts. unfold serialize_row. cbn [fst snd].
    rewrite Hts, (to_i64_small _ Hsum).
    rewrite decide_False by (intros [? _]; lia).
    eexists. reflexivity. }
  split; [|split; [|split]].
  - intros Hnone. destruct db as [lh to rows]. unfold reset_timestamp, set_rows.
    cbn in *. f_equal. apply map_eq. intros k. rewrite lookup_alter.
    destruct (decide (txid = k)) as [->|Hk]; [|done]. by rewrite Hnone.
  - intros r Hr. unfold reset_timestamp. cbn.
    rewrite lookup_alter_eq, Hr. split; [done|]. by apply Hser.
  - intros k Hk. unfold reset_timestamp. cbn. by rewrite lookup_alter_ne.
  - intros tx Hins.
    destruct (rows_ db !! hash_transaction tx) as [r0|] eqn:Hr0.
    { rewrite (insert_existing now tx db) in Hins by (by rewrite Hr0). done. }
    destruct (insert_fresh now tx db Hr0)
      as (db' & row & -> & _ & _ & Hrow & _ & _ & _ & Hts & _).
    cbn. exists row. destruct (Hser (hash_transaction tx) row Hts) as [body Hb].
    by exists body.
Qed.

(** ** unconfirmed on a confirmed row *)

(** The effect of the sibling loop of [unconfirmed] over the pointers
    [ps] when no sibling has [bMasterConfirm] set: every sibling becomes
    unconfirmed at the height -1 and is marked malleated. *)
Lemma unconfirmed_fold_no_master (txid : hash_digest) (rows : row_table)
  (h : Z) (st : TxState.t) (mal : bool) (ps : list hash_digest) :
  (∀ p r, p ∈ ps → rows !! p = Some r → txid ≠ TxRow.txid r →
          TxRow.bMasterConfirm r = false) →
  ∀ rows' h' st' mal',
    foldl (unconfirmed_step txid) (rows, h, st, mal) ps
    = (rows', h', st', mal') →
    (∀ k, rows' !! k
          = (λ r, if decide (k ∈ ps ∧ txid ≠ TxRow.txid r)
                  then TxRow.set_bMalleated true
                         (TxRow.set_state TxState.unconfirmed
                            (TxRow.set_block_height (-1) r))
                  else r) <$> rows !! k)
    ∧ st' = st
    ∧ ((∀ p r, p ∈ ps → rows !! p = Some r → txid = TxRow.txid r) →
       h' = h ∧ mal' = mal)
    ∧ ((∃ p r, p ∈ ps ∧ rows !! p = Some r ∧ txid ≠ TxRow.txid r) →
       h' = -1 ∧ mal' = true).
Proof using Type.
  clear satoshi_save satoshi_load satoshi_raw_size.
  induction ps as [|p ps IH] using rev_ind; intros Hnm rows' h' st' mal' Hf.
  - cbn in Hf. injection Hf as <- <- <- <-. split; [|split; [|split]].
    + intros k. destruct (rows !! k); [cbn|done].
      case_decide as Hd; [|done]. destruct Hd as [Hd _].
      by apply elem_of_nil in Hd.
    + done.
    + done.
    + intros (p & r & Hp & _). by apply elem_of_nil in Hp.
  - rewrite foldl_app in Hf. cbn [foldl] in Hf.
    destruct (foldl (unconfirmed_step txid) (rows, h, st, mal) ps)
      as [[[rowsm hm] stm] malm] eqn:Hm.
    destruct (IH ltac:(intros p' r' Hp'; apply Hnm, elem_of_app; by left)
                _ _ _ _ eq_refl) as (Hlk & -> & Hnone & Hsome).
    clear IH. unfold unconfirmed_step in Hf. rewrite Hlk in Hf.
    destruct (rows !! p) as [r0|] eqn:Hr0; cbn in Hf.
    + assert (Htx : TxRow.txid
                (if decide (p ∈ ps ∧ txid ≠ TxRow.txid r0)
                 then TxRow.set_bMalleated true
                        (TxRow.set_state TxState.unconfirmed
                           (TxRow.set_block_height (-1) r0))
                 else r0) = TxRow.txid r0)
        by (by destruct (decide (p ∈ ps ∧ txid ≠ TxRow.txid r0))).
      assert (Hmc : TxRow.bMasterConfirm
                (if decide (p ∈ ps ∧ txid ≠ TxRow.txid r0)
                 then TxRow.set_bMalleated true
                        (TxRow.set_state TxState.unconfirmed
                           (TxRow.set_block_height (-1) r0))
                 else r0) = TxRow.bMasterConfirm r0)
        by (by destruct (decide (p ∈ ps ∧ txid ≠ TxRow.txid r0))).
      rewrite Htx, Hmc in Hf. clear Htx Hmc.
      destruct (decide (txid ≠ TxRow.txid r0)) as [Hne|Heq].
      * rewrite (Hnm p r0) in Hf
          by (done || apply elem_of_app; right; by left).
        injection Hf as <- <- <- <-. split; [|split; [|split]].
        -- intros k. rewrite lookup_alter.
           destruct (decide (p = k)) as [<-|Hk].
           ++ rewrite Hlk, Hr0. cbn.
              rewrite (decide_True (P := p ∈ ps ++ [p] ∧ _))
                by (split; [apply elem_of_app; right; by left|done]).
              destruct (decide (p ∈ ps ∧ txid ≠ TxRow.txid r0)); [|done].
              by destruct r0.
           ++ rewrite Hlk. destruct (rows !! k) as [r|]; [cbn|done].
              f_equal. apply decide_ext.
              rewrite elem_of_app, list_elem_of_singleton. naive_solver.
        -- done.
        -- intros Hall. exfalso. apply Hne.
           apply (Hall p r0); [|done]. apply elem_of_app. right. by left.
        -- done.
      * apply dec_stable in Heq. injection Hf as <- <- <- <-.
        split; [|split; [|split]].
        -- intros k. rewrite Hlk.
           destruct (rows !! k) as [r|] eqn:Hr; [cbn|done].
           f_equal. apply decide_ext.
           rewrite elem_of_app, list_elem_of_singleton.
           split; [naive_solver|]. intros [[Hin| ->] Hne]; [done|]. congruence.
        -- done.
        -- intros Hall. apply Hnone. intros p' r' Hp'. apply Hall.
           apply elem_of_app. by left.
        -- intros (p' & r' & Hp' & Hr' & Hne).
           apply elem_of_app in Hp' as [Hp'|Hp'].
           ++ apply Hsome. by eauto.
           ++ apply list_elem_of_singleton in Hp'. congruence.
    + injection Hf as <- <- <- <-. split; [|split; [|split]].
      * intros k. rewrite Hlk. destruct (rows !! k) as [r|] eqn:Hr; [cbn|done].
        f_equal. apply decide_ext. rewrite elem_of_app, list_elem_of_singleton.
        split; [naive_solver|]. intros [[Hin| ->] Hne]; [done|]. congruence.
      * done.
      * intros Hall. apply Hnone. intros p' r' Hp'. apply Hall.
        apply elem_of_app. by left.
      * intros (p' & r' & Hp' & Hr' & Hne).
        apply elem_of_app in Hp' as [Hp'|Hp'].
        -- apply Hsome. by eauto.
        -- apply list_elem_of_singleton in Hp'. congruence.
Qed.
(** [unconfirmed] on a confirmed row of a table that stores every row
    under its txid, when no other row of the cluster has [bMasterConfirm]
    set: the rows afterwards, with the values [h'] and [mal'] of the locals
    [height] and [bMalleated] after the loop. *)
Lemma unconfirmed_no_master_rows (txid : hash_digest) (db : TxDatabase)
  (row : TxRow.t) :
  keys_consistent db →
  rows_ db !! txid = Some row →
  TxRow.state row = TxState.confirmed →
  (∀ k r, rows_ db !! k = Some r → TxRow.ntxid r = TxRow.ntxid row →
          k ≠ txid → TxRow.bMasterConfirm r = false) →
  ∃ db' h' mal',
    unconfirmed txid db = Some db'
    ∧ (∀ k, rows_ db' !! k
            = (λ r, if decide (k = txid)
                    then TxRow.set_bMalleated mal'
                           (TxRow.set_state TxState.unconfirmed
                              (TxRow.set_block_height h' r))
                    else if decide (TxRow.ntxid r = TxRow.ntxid row)
                         then TxRow.set_bMalleated true
                                (TxRow.set_state TxState.unconfirmed
                                   (TxRow.set_block_height (-1) r))
                         else r) <$> rows_ db !! k)
    ∧ ((∃ k r, rows_ db !! k = Some r ∧ TxRow.ntxid r = TxRow.ntxid row
               ∧ k ≠ txid) →
       h' = -1 ∧ mal' = true)
    ∧ ((∀ k r, rows_ db !! k = Some r → TxRow.ntxid r = TxRow.ntxid row →
               k = txid) →
       h' = 0 ∧ mal' = TxRow.bMalleated row).
Proof using iterate_perm.
  clear satoshi_save satoshi_load satoshi_raw_size.
  intros Hkeys Hrow Hst Hnm. unfold unconfirmed. rewrite Hrow.
  rewrite decide_True by done.
  destruct (foldl (unconfirmed_step txid)
              (rows_ db, 0, TxState.unconfirmed, TxRow.bMalleated row)
              (ntxidLookupAll (TxRow.ntxid row) (rows_ db)))
    as [[[rows' h'] st'] mal'] eqn:Hf.
  apply unconfirmed_fold_no_master in Hf as (Hlk & -> & Hnone & Hsome).
  2:{ intros p r Hp Hr Hne.
      apply elem_of_ntxidLookupAll in Hp as (r2 & Hr2 & Hn2).
      assert (r2 = r) by congruence. subst r2.
      apply (Hnm p r Hr Hn2). rewrite <- (Hkeys p r Hr). congruence. }
  assert (Hown : rows' !! txid = Some row).
  { rewrite Hlk, Hrow. cbn. rewrite decide_False; [done|].
    intros [_ Hne]. apply Hne. symmetry. by apply Hkeys. }
  rewrite Hown. rewrite decide_False by (rewrite Hst; discriminate).
  eexists _, h', mal'. split; [reflexivity|]. cbn. split; [|split].
  - intros k. rewrite lookup_alter.
    destruct (decide (txid = k)) as [<-|Hk].
    + rewrite Hown, Hrow. cbn. by rewrite decide_True.
    + rewrite Hlk. destruct (rows_ db !! k) as [r|] eqn:Hr; [cbn|done].
      rewrite (decide_False (P := k = txid)) by congruence.
      f_equal. apply decide_ext. rewrite elem_of_ntxidLookupAll. split.
      * intros [(r2 & Hr2 & Hn2) _]. congruence.
      * intros Hn. split; [eauto|]. rewrite (Hkeys k r Hr). congruence.
  - intros (k & r & Hr & Hn & Hk). apply Hsome. exists k, r.
    split; [apply elem_of_ntxidLookupAll; eauto|]. split; [done|].
    rewrite (Hkeys k r Hr). congruence.
  - intros Hall. apply Hnone. intros p r Hp Hr.
    apply elem_of_ntxidLookupAll in Hp as (r2 & Hr2 & Hn2).
    assert (r2 = r) by congruence. subst r2.
    rewrite (Hkeys p r Hr). symmetry. by apply (Hall p r).
Qed.

(** X10.  In a table that stores every row under its txid, [unconfirmed]
    on a confirmed row whose cluster has no other row with
    [bMasterConfirm] makes every row of the cluster unconfirmed, so that
    [foreach_unconfirmed] reports them all, and leaves the other rows as
    they are.  The siblings are marked malleated at the height -1; with a
    sibling the row itself gets the height -1 and is marked malleated, and
    [ntxidHeight] of the cluster answers -1; without one the row gets the
    height 0 and [ntxidHeight] answers 0. *)
Theorem unconfirmed_reverts_cluster (txid : hash_digest) (db : TxDatabase)
  (row : TxRow.t) :
  keys_consistent db →
  rows_ db !! txid = Some row →
  TxRow.state row = TxState.confirmed →
  (∀ k r, rows_ db !! k = Some r → TxRow.ntxid r = TxRow.ntxid row →
          k ≠ txid → TxRow.bMasterConfirm r = false) →
  ∃ db' row',
    unconfirmed txid db = Some db'
    ∧ rows_ db' !! txid = Some row'
    ∧ (∀ k r, rows_ db !! k = Some r → TxRow.ntxid r = TxRow.ntxid row →
              ∃ r', rows_ db' !! k = Some r'
                    ∧ TxRow.state r' = TxState.unconfirmed
                    ∧ k ∈ foreach_unconfirmed db'
                    ∧ (k ≠ txid → TxRow.block_height r' = -1
                                  ∧ TxRow.bMalleated r' = true))
    ∧ (∀ k r, rows_ db !! k = Some r → TxRow.ntxid r ≠ TxRow.ntxid row →
              rows_ db' !! k = Some r)
    ∧ ((∃ k r, rows_ db !! k = Some r ∧ TxRow.ntxid r = TxRow.ntxid row
               ∧ k ≠ txid) →
       TxRow.block_height row' = -1
       ∧ TxRow.bMalleated row' = true
       ∧ ∀ result,
           ntxidHeight result (TxRow.ntxid row) db' = (Status_ok, -1))
    ∧ ((∀ k r, rows_ db !! k = Some r → TxRow.ntxid r = TxRow.ntxid row →
               k = txid) →
       TxRow.block_height row' = 0
       ∧ TxRow.bMalleated row' = TxRow.bMalleated row
       ∧ ∀ result,
           ntxidHeight result (TxRow.ntxid row) db' = (Status_ok, 0)).
Proof.
  intros Hkeys Hrow Hst Hnm.
  destruct (unconfirmed_no_master_rows txid db row Hkeys Hrow Hst Hnm)
    as (db' & h' & mal' & Hu & Hlk & Hsome & Hnone).
  assert (Hown : rows_ db' !! txid
                 = Some (TxRow.set_bMalleated mal'
                           (TxRow.set_state TxState.unconfirmed
                              (TxRow.set_block_height h' row)))).
  { rewrite Hlk, Hrow. cbn. by rewrite decide_True. }
  assert (Hcl : ∀ k r, rows_ db !! k = Some r →
                       TxRow.ntxid r = TxRow.ntxid row →
                       ∃ r', rows_ db' !! k = Some r'
                             ∧ TxRow.ntxid r' = TxRow.ntxid row
                             ∧ TxRow.state r' = TxState.unconfirmed
                             ∧ (k ≠ txid → TxRow.block_height r' = -1
                                           ∧ TxRow.bMalleated r' = true)).
  { intros k r Hr Hn. rewrite Hlk, Hr. cbn. eexists. split; [reflexivity|].
    destruct (decide (k = txid)); [done|]. by rewrite decide_True. }
  assert (Hunc : ∀ r', r' ∈ deref_all (rows_ db')
                              (ntxidLookupAll (TxRow.ntxid row) (rows_ db')) →
                       TxRow.state r' ≠ TxState.confirmed).
  { intros r' Hin. apply elem_of_cluster_rows in Hin as (k & Hr' & Hn').
    rewrite Hlk in Hr'. destruct (rows_ db !! k) as [r|] eqn:Hr; [|done].
    cbn in Hr'. injection Hr' as <-.
    destruct (decide (k = txid)); [done|].
    destruct (decide (TxRow.ntxid r = TxRow.ntxid row)); [done|].
    by destruct Hn'. }
  assert (Hex : ∃ k r, rows_ db' !! k = Some r
                       ∧ TxRow.ntxid r = TxRow.ntxid row).
  { destruct (Hcl txid row Hrow eq_refl) as (r' & Hr' & Hn' & _). eauto. }
  assert (Hlen : (1 < length (deref_all (rows_ db')
                             (ntxidLookupAll (TxRow.ntxid row) (rows_ db'))))%nat
                 ↔ ∃ k r, rows_ db !! k = Some r
                          ∧ TxRow.ntxid r = TxRow.ntxid row ∧ k ≠ txid).
  { rewrite cluster_length_gt_1. split.
    - intros (k1 & k2 & r1 & r2 & Hne & Hr1 & Hn1 & Hr2 & Hn2).
      assert (Hback : ∀ k r', rows_ db' !! k = Some r' →
                              TxRow.ntxid r' = TxRow.ntxid row →
                              ∃ r, rows_ db !! k = Some r
                                   ∧ TxRow.ntxid r = TxRow.ntxid row).
      { intros k r' Hr' Hn'. rewrite Hlk in Hr'.
        destruct (rows_ db !! k) as [r|] eqn:Hr; [|done].
        cbn in Hr'. injection Hr' as <-. exists r. split; [done|].
        destruct (decide (k = txid)); [done|].
        by destruct (decide (TxRow.ntxid r = TxRow.ntxid row)). }
      destruct (decide (k1 = txid)) as [->|Hk1].
      + destruct (Hback k2 r2 Hr2 Hn2) as (r & Hr & Hn).
        exists k2, r. by repeat split.
      + destruct (Hback k1 r1 Hr1 Hn1) as (r & Hr & Hn).
        exists k1, r. by repeat split.
    - intros (k & r & Hr & Hn & Hk).
      destruct (Hcl k r Hr Hn) as (r' & Hr' & Hn' & _).
      destruct (Hcl txid row Hrow eq_refl) as (r0 & Hr0 & Hn0 & _).
      exists k, txid, r', r0. by repeat split. }
  eexists db', _. split; [exact Hu|]. split; [exact Hown|].
  split; [|split; [|split]].
  - intros k r Hr Hn. destruct (Hcl k r Hr Hn) as (r' & Hr' & _ & Hs' & Hsib).
    exists r'. split; [done|]. split; [done|]. split; [|done].
    apply elem_of_foreach_unconfirmed. exists r'. split; [done|].
    rewrite Hs'. discriminate.
  - intros k r Hr Hn. rewrite Hlk, Hr. cbn.
    rewrite decide_False by (intros ->; congruence).
    by rewrite decide_False.
  - intros Hsib. destruct (Hsome Hsib) as [-> ->]. cbn.
    split; [done|]. split; [done|]. intros result.
    rewrite ntxidHeight_value by done.
    rewrite (max_confirmed_height_none _ Hunc).
    rewrite decide_True; [done|]. split; [|done].
    apply Hlen in Hsib. lia.
  - intros Hall. destruct (Hnone Hall) as [-> ->]. cbn.
    split; [done|]. split; [done|]. intros result.
    rewrite ntxidHeight_value by done.
    rewrite (max_confirmed_height_none _ Hunc).
    rewrite decide_False; [done|]. intros [Hgt _].
    assert (Hgt' : (1 < length (deref_all (rows_ db')
                            (ntxidLookupAll (TxRow.ntxid row) (rows_ db'))))%nat)
      by lia.
    apply Hlen in Hgt' as (k & r & Hr & Hn & Hk). by apply Hk, (Hall k r).
Qed.

(** ** load on any input *)

Lemma to_i64_range (z : Z) : in_i64 (to_i64 z).
Proof.
  unfold in_i64, to_i64.
  pose proof (Z.mod_pos_bound (z + 2 ^ 63) (2 ^ 64)). lia.
Qed.

Lemma read_byte_range (s s' : list byte) (z : Z) :
  read_byte s = Some (z, s') → 0 ≤ z < 256.
Proof.
  destruct s as [|b s]; cbn; [done|]. intros H. injection H as <- _.
  apply Z_of_byte_range.
Qed.

Lemma TxState_of_Z_representable (z : Z) :
  0 ≤ z < 256 → state_representable (TxState.of_Z z).
Proof.
  intros Hz. unfold TxState.of_Z.
  destruct (decide (z = 0)); [done|]. destruct (decide (z = 1)); [done|].
  cbn. lia.
Qed.

Lemma load_row_loaded_row (now : Z) (s s' : list byte) (k : hash_digest)
  (r : TxRow.t) :
  load_row now s = Some (k, r, s') → loaded_row now k r.
Proof.
  unfold load_row. intros H.
  destruct (read_hash s) as [[h s1]|] eqn:H1; [|done].
  cbn [mbind option_bind] in H.
  destruct (satoshi_load s1) as [tx|] eqn:H2; [|done].
  cbn [mbind option_bind] in H.
  destruct (read_byte (drop (satoshi_raw_size tx) s1)) as [[st s2]|] eqn:H4;
    [|done].
  cbn [mbind option_bind] in H.
  destruct (read_8_bytes s2) as [[bh s3]|] eqn:H5; [|done].
  cbn [mbind option_bind] in H.
  destruct (read_byte s3) as [[nc s4]|] eqn:H6; [|done].
  cbn [mbind option_bind] in H.
  destruct (read_hash s4) as [[txid s5]|] eqn:H7; [|done].
  cbn [mbind option_bind] in H.
  destruct (read_hash s5) as [[ntxid s6]|] eqn:H8; [|done].
  cbn [mbind option_bind] in H.
  destruct (read_byte s6) as [[mal s7]|] eqn:H9; [|done].
  cbn [mbind option_bind] in H.
  destruct (read_byte s7) as [[mc s8]|] eqn:H10; [|done].
  cbn [mbind option_bind] in H. injection H as <- <- <-.
  apply read_data_Some in H1 as [_ H1], H7 as [_ H7], H8 as [_ H8].
  apply read_byte_range in H4.
  unfold loaded_row. cbn.
  do 3 (split; [done|]). split; [apply to_i64_range|].
  split; [by apply TxState_of_Z_representable|done].
Qed.

Lemma load_rows_Forall (now : Z) (P : hash_digest → TxRow.t → Prop) :
  (∀ s k r s', load_row now s = Some (k, r, s') → P k r) →
  ∀ fuel s rows rows',
    map_Forall P rows →
    load_rows fuel now s rows = Some (Loaded rows') →
    map_Forall P rows'.
Proof.
  intros HP. induction fuel as [|fuel IH]; intros s rows rows' Hrows Hl.
  - destruct s; cbn in Hl; [|done]. by injection Hl as <-.
  - destruct s as [|b s]; cbn [load_rows] in Hl; [by injection Hl as <-|].
    destruct (decide (Z_of_byte b ≠ serial_tx)); [done|].
    destruct (load_row now s) as [[[k r] s']|] eqn:Hrow; [|done].
    apply (IH s' (<[k := r]> rows)); [|done].
    apply map_Forall_insert_2; [by eapply HP|done].
Qed.

Lemma load_Status_ok (now : Z) (data : data_chunk) (db db' : TxDatabase) :
  load now data db = Some (Status_ok, db') →
  ∃ last_height s rows,
    read_8_bytes (drop 4 data) = Some (last_height, s)
    ∧ s = drop header_size data
    ∧ load_rows (length s) now s ∅ = Some (Loaded rows)
    ∧ db' = mkTxDatabase last_height (unconfirmed_timeout_ db) rows.
Proof.
  unfold load, read_4_bytes. rewrite read_data_take_drop.
  destruct (decide (length data < 4)%nat); [done|].
  cbn [fmap option_fmap option_map prod_map fst snd id].
  destruct (decide (serial_magic ≠ from_little_endian (take 4 data))).
  { by destruct (decide (old_serial_magic = from_little_endian (take 4 data))). }
  destruct (read_8_bytes (drop 4 data)) as [[lh s]|] eqn:H8; [|done].
  assert (Hs : s = drop header_size data).
  { unfold read_8_bytes in H8. rewrite read_data_take_drop in H8.
    destruct (decide (length (drop 4 data) < 8)%nat); [done|].
    cbn in H8. injection H8 as _ <-. by rewrite drop_drop. }
  destruct (load_rows (length s) now s ∅) as [[rows|status|]|] eqn:Hl;
    try done.
  - intros H. injection H as <-. by exists lh, s, rows.
  - intros H. injection H as -> _.
    destruct (load_rows_outcome now (length s) s ∅ ltac:(done))
      as (o & Ho & Hout).
    rewrite Hl in Ho. injection Ho as <-. by destruct Hout as [Hout _].
Qed.

(** X11.  When [load] succeeds, the database keeps its unconfirmed
    timeout and nothing else: the last height and the table are the same
    whatever the database held before.  Every row of the table has hashes
    of the size of a hash under a key of that size and a state that is the
    cast of a byte; the timestamp of a row that is not unconfirmed is the
    time of the call, and an unconfirmed row has its stored timestamp both
    as timestamp and as block height. *)
Theorem load_replaces_table (now : Z) (data : data_chunk)
  (db db' : TxDatabase) :
  load now data db = Some (Status_ok, db') →
  unconfirmed_timeout_ db' = unconfirmed_timeout_ db
  ∧ in_u64 (last_height_ db')
  ∧ (∀ k r, rows_ db' !! k = Some r → loaded_row now k r)
  ∧ (∀ db0, ∃ db0',
       load now data db0 = Some (Status_ok, db0')
       ∧ last_height_ db0' = last_height_ db'
       ∧ rows_ db0' = rows_ db').
Proof.
  intros Hload.
  destruct (load_Status_ok now data db db' Hload)
    as (lh & s & rows & H8 & Hs & Hl & ->).
  cbn. split; [done|]. split; [|split].
  - unfold read_8_bytes in H8.
    destruct (read_data 8 (drop 4 data)) as [[l s0]|] eqn:Hr; [|done].
    cbn in H8. injection H8 as <- _. apply read_data_Some in Hr as [_ Hlen].
    pose proof (from_little_endian_range l) as Hrange. rewrite Hlen in Hrange.
    exact Hrange.
  - intros k r Hr.
    apply (load_rows_Forall now (loaded_row now)) in Hl.
    + by apply Hl.
    + intros s0 k0 r0 s0'. apply load_row_loaded_row.
    + apply map_Forall_empty.
  - intros db0. exists (mkTxDatabase lh (unconfirmed_timeout_ db0) rows).
    split; [|done].
    revert Hload. unfold load, read_4_bytes. rewrite read_data_take_drop.
    destruct (decide (length data < 4)%nat); [done|].
    cbn [fmap option_fmap option_map prod_map fst snd id].
    destruct (decide (serial_magic ≠ from_little_endian (take 4 data))).
    { by destruct (decide (old_serial_magic
                           = from_little_endian (take 4 data))). }
    rewrite H8. rewrite Hl. done.
Qed.

Lemma load_rows_parsed (now : Z) :
  ∀ fuel s rows rows',
    load_rows fuel now s rows = Some (Loaded rows') →
    ∃ l, parsed now s l
         ∧ rows' = assign_all rows l.
Proof.
  induction fuel as [|fuel IH]; intros s rows rows' Hl.
  - destruct s; cbn in Hl; [|done]. injection Hl as <-.
    exists []. split; [constructor|done].
  - destruct s as [|b s]; cbn [load_rows] in Hl.
    { injection Hl as <-. exists []. split; [constructor|done]. }
    destruct (decide (Z_of_byte b ≠ serial_tx)) as [|Hb]; [done|].
    apply dec_stable in Hb.
    destruct (load_row now s) as [[[k r] s']|] eqn:Hrow; [|done].
    destruct (IH s' _ _ Hl) as (l & Hp & ->).
    exists ((k, r) :: l). split; [by econstructor|done].
Qed.

Lemma parsed_functional (now : Z) (s : list byte)
  (l1 l2 : list (hash_digest * TxRow.t)) :
  parsed now s l1 → parsed now s l2 → l1 = l2.
Proof.
  intros H1. revert l2.
  induction H1 as [|b s k r s' l Hb Hrow Hp IH]; intros l2 H2.
  - by inversion H2.
  - inversion H2 as [|b' s0 k' r' s2 l' Hb' Hrow' Hp']; subst.
    rewrite Hrow in Hrow'. injection Hrow' as <- <- <-.
    f_equal. by apply IH.
Qed.

Lemma assign_all_lookup (l : list (hash_digest * TxRow.t)) :
  ∀ (rows : row_table) k,
    (k ∉ l.*1 → assign_all rows l !! k = rows !! k)
    ∧ (∀ r, assign_all rows l !! k = Some r →
            (k, r) ∈ l ∨ rows !! k = Some r).
Proof.
  unfold assign_all.
  induction l as [|[k0 r0] l IH]; intros rows k; cbn [foldl fst snd].
  - split; [done|]. intros r Hr. by right.
  - destruct (IH (<[k0 := r0]> rows) k) as [IH1 IH2]. split.
    + intros Hk. rewrite IH1.
      * apply lookup_insert_ne. intros ->. apply Hk. cbn. by left.
      * intros Hin. apply Hk. cbn. by right.
    + intros r Hr. destruct (IH2 r Hr) as [Hin|Hlk].
      * left. by right.
      * cbn in Hlk. rewrite lookup_insert in Hlk.
        destruct (decide (k0 = k)) as [->|Hne].
        -- injection Hlk as <-. left. by left.
        -- by right.
Qed.

(** X12.  When [load] succeeds, the input after the header is a sequence of
    complete records, which is unique.  The table has a row for exactly the
    keys of the records, the key of a record being the hash it begins with
    and not the txid it carries; where several records have the same key,
    the last of them is the row of the table. *)
Theorem load_last_record_wins (now : Z) (data : data_chunk)
  (db db' : TxDatabase) :
  load now data db = Some (Status_ok, db') →
  ∃ l,
    parsed now (drop header_size data) l
    ∧ (∀ l', parsed now (drop header_size data) l' → l' = l)
    ∧ (∀ k r, rows_ db' !! k = Some r → (k, r) ∈ l)
    ∧ (∀ k, k ∈ l.*1 → is_Some (rows_ db' !! k))
    ∧ (∀ l1 k r l2, l = l1 ++ (k, r) :: l2 → k ∉ l2.*1 →
                    rows_ db' !! k = Some r).
Proof.
  intros Hload.
  destruct (load_Status_ok now data db db' Hload)
    as (lh & s & rows & H8 & -> & Hl & ->).
  destruct (load_rows_parsed now _ _ _ _ Hl) as (l & Hp & ->).
  exists l. cbn. split; [exact Hp|].
  split; [intros l' Hp'; by eapply parsed_functional|].
  assert (Hlast : ∀ l1 k r l2, l = l1 ++ (k, r) :: l2 → k ∉ l2.*1 →
                    assign_all ∅ l !! k = Some r).
  { intros l1 k r l2 -> Hk. unfold assign_all. rewrite foldl_app.
    cbn [foldl fst snd].
    destruct (assign_all_lookup l2 (<[k := r]> (assign_all ∅ l1)) k)
      as [H1 _].
    unfold assign_all in H1. rewrite H1 by done. apply lookup_insert_eq. }
  split; [|split; [|exact Hlast]].
  - intros k r Hr. destruct (assign_all_lookup l ∅ k) as [_ H2].
    destruct (H2 r Hr) as [Hin|He]; [done|]. by rewrite lookup_empty in He.
  - intros k Hk.
    assert (Hsplit : ∃ l1 r l2, l = l1 ++ (k, r) :: l2 ∧ k ∉ l2.*1).
    { clear -Hk. induction l as [|[k0 r0] l IH]; [by apply elem_of_nil in Hk|].
      destruct (decide (k ∈ l.*1)) as [Hin|Hnin].
      - destruct (IH Hin) as (l1 & r & l2 & -> & Hl2).
        by exists ((k0, r0) :: l1), r, l2.
      - cbn in Hk. apply elem_of_cons in Hk as [->|Hk]; [|done].
        by exists [], r0, l. }
    destruct Hsplit as (l1 & r & l2 & Heq & Hl2).
    rewrite (Hlast l1 k r l2 Heq Hl2). by eexists.
Qed.

(** ** serialize, then load: what becomes of each row *)

(** X13.  For a database whose fields have the sizes and ranges of their
    C++ types and whose transactions the codec gives back, [load] of the
    bytes of [serialize] gives, in a database that keeps its own
    unconfirmed timeout, the last height and exactly the rows that are not
    purged, whatever the iteration order of the table.  Each row comes
    back with the fields that the record holds; an unconfirmed row comes
    back with its timestamp as block height, and any other row with the
    time of the [load] as timestamp. *)
Theorem serialize_load_exact (now now' : Z) (db db0 : TxDatabase) :
  serializable db →
  load now' (serialize now db) db0
  = Some (Status_ok,
          mkTxDatabase (last_height_ db) (unconfirmed_timeout_ db0)
            (reloaded now'
               <$> filter (λ kr : hash_digest * TxRow.t,
                             ¬ purged now (unconfirmed_timeout_ db) kr.2)
                          (rows_ db))).
Proof.
  intros [Hlast Hrows].
  unfold load, serialize.
  rewrite read_4_bytes_write_4_bytes.
  rewrite decide_False by (intros H; by apply H).
  rewrite read_8_bytes_write_8_bytes.
  rewrite load_rows_serialize_rows.
  2:{ intros [k r] Hkr. apply elem_of_iterate in Hkr. by apply Hrows. }
  2:{ done. }
  f_equal. f_equal. f_equal; [apply Z.mod_small, Hlast|].
  apply map_eq. intros k.
  set (kept := filter (λ kr, ¬ purged now (unconfirmed_timeout_ db) kr.2)
                      (iterate (rows_ db))).
  assert (Hnd : NoDup kept.*1).
  { eapply sublist_NoDup; [apply NoDup_iterate_keys|].
    apply fmap_sublist, sublist_filter. }
  assert (Hin : ∀ k r, (k, r) ∈ kept
                       ↔ rows_ db !! k = Some r
                         ∧ ¬ purged now (unconfirmed_timeout_ db) r).
  { intros k1 r1. unfold kept. rewrite list_elem_of_filter, elem_of_iterate.
    cbn. tauto. }
  rewrite lookup_fmap, map_lookup_filter.
  destruct (rows_ db !! k) as [r|] eqn:Hr; cbn.
  - destruct (decide (purged now (unconfirmed_timeout_ db) r)) as [Hp|Hp].
    + rewrite option_guard_False by (cbn; tauto). cbn.
      rewrite reload_all_lookup_notin; [apply lookup_empty|].
      intros Hin1. apply list_elem_of_fmap in Hin1 as ([k2 r2] & -> & Hin2).
      apply Hin in Hin2 as [Hr2 Hp2]. apply Hp2. cbn in Hr. congruence.
    + rewrite option_guard_True by done. cbn.
      apply reload_all_lookup_in; [done|]. by apply Hin.
  - rewrite reload_all_lookup_notin; [apply lookup_empty|].
    intros Hin1. apply list_elem_of_fmap in Hin1 as ([k2 r2] & -> & Hin2).
    apply Hin in Hin2 as [Hr2 Hp2]. cbn in Hr. congruence.
Qed.

(** ** confirmed and insert, seen through the lookups by ntxid *)

(** X19.  In a table that stores every row under its txid, after
    [confirmed txid h] on a row whose cluster has no other row with
    [bMasterConfirm], [ntxidLookup] of the cluster returns the transaction
    of [txid], whatever the iteration order. *)
Theorem confirmed_then_ntxidLookup (txid : hash_digest) (h : Z)
  (db : TxDatabase) (row : TxRow.t) :
  keys_consistent db →
  rows_ db !! txid = Some row →
  (∀ k r, rows_ db !! k = Some r → TxRow.ntxid r = TxRow.ntxid row →
          k ≠ txid → TxRow.bMasterConfirm r = false) →
  ∃ db',
    confirmed txid h db = Some db'
    ∧ ∀ version locktime,
        ntxidLookup version locktime (TxRow.ntxid row) db' = TxRow.tx row
        ∧ ntxidLookup version locktime (TxRow.ntxid row) db'
          = txidLookup txid db'.
Proof.
  intros Hkeys Hrow Hnm.
  destruct (confirmed_effect txid h db row Hrow) as (db' & Hc & _ & _ & Hk).
  exists db'. split; [exact Hc|].
  assert (Hown : ∃ r', rows_ db' !! txid = Some r'
                       ∧ TxRow.tx r' = TxRow.tx row
                       ∧ TxRow.ntxid r' = TxRow.ntxid row
                       ∧ TxRow.state r' = TxState.confirmed
                       ∧ TxRow.bMasterConfirm r' = true).
  { specialize (Hk txid). rewrite Hrow in Hk.
    destruct Hk as (r' & Hr' & Ht & _ & Hn & _ & _ & Hm & _ & Hst & _).
    exists r'. destruct Hst as [? ?]; [by left|]. by rewrite Hm. }
  destruct Hown as (r0 & Hr0 & Ht0 & Hn0 & Hs0 & Hm0).
  assert (Hmaster : ∀ k r', rows_ db' !! k = Some r' →
                            TxRow.ntxid r' = TxRow.ntxid row →
                            TxRow.bMasterConfirm r' = true → k = txid).
  { intros k r' Hr' Hn' Hm'. destruct (decide (k = txid)) as [|Hne]; [done|].
    specialize (Hk k). destruct (rows_ db !! k) as [r|] eqn:Hr; [|congruence].
    destruct Hk as (r2 & Hr2 & _ & _ & Hn & _ & _ & _ & Hm & _).
    assert (r2 = r') by congruence. subst r2.
    rewrite (Hm Hne), (Hnm k r Hr) in Hm'; [done|congruence|done]. }
  intros version locktime.
  assert (Hlook : ntxidLookup version locktime (TxRow.ntxid row) db'
                  = TxRow.tx row).
  { unfold ntxidLookup.
    pose proof (elem_of_cluster_rows (TxRow.ntxid row) (rows_ db')) as Hin.
    destruct (deref_all (rows_ db')
                (ntxidLookupAll (TxRow.ntxid row) (rows_ db')))
      as [|r1 l] eqn:Hl.
    { destruct (Hin r0) as [_ H]. apply elem_of_nil in H; [done|eauto]. }
    rewrite (ntxidLookup_loop_first r1 l _ Tx.default).
    destruct (ntxidLookup_loop_selection r1 l) as (r & Hr & -> & Hm & _).
    apply Hin in Hr as (k & Hkr & Hn).
    assert (Hmr : TxRow.bMasterConfirm r = true).
    { apply Hm.
      - exists r0. split; [apply Hin; eauto|done].
      - intros r' Hr' Hm'. apply Hin in Hr' as (k' & Hk' & Hn').
        assert (k' = txid) by (by eapply Hmaster). subst k'. congruence. }
    assert (k = txid) by (by eapply Hmaster). subst k. congruence. }
  split; [exact Hlook|]. rewrite Hlook. unfold txidLookup. by rewrite Hr0.
Qed.

(** X20.  A transaction inserted into a cluster whose rows are all
    confirmed at the height [h] is confirmed at [h] from the start:
    [txidHeight] of the new txid answers [h], [foreach_unconfirmed] does
    not report it, and for a positive [h] [ntxidHeight] of the cluster
    still answers [h]. *)
Theorem insert_into_confirmed_cluster (now : Z) (tx : transaction_type)
  (h : Z) (db : TxDatabase) :
  rows_ db !! hash_transaction tx = None →
  (∃ k r, rows_ db !! k = Some r ∧ TxRow.ntxid r = makeNtxid tx
          ∧ hash_transaction tx ≠ TxRow.txid r) →
  (∀ k r, rows_ db !! k = Some r → TxRow.ntxid r = makeNtxid tx →
          TxRow.state r = TxState.confirmed ∧ TxRow.block_height r = h) →
  (insert now tx db).1 = true
  ∧ txidHeight (hash_transaction tx) (insert now tx db).2 = h
  ∧ (hash_transaction tx ∉ foreach_unconfirmed (insert now tx db).2)
  ∧ (0 < h →
     ∀ result,
       ntxidHeight result (makeNtxid tx) (insert now tx db).2
       = (Status_ok, h)).
Proof.
  intros Hnone Hsib Hall.
  destruct (insert_fresh now tx db Hnone)
    as (db' & row & -> & _ & _ & Hrow & _ & _ & Hn & _ & _ & _ & Hother & _
        & Hinh).
  destruct (Hinh Hsib) as (_ & k & r & Hr & Hnr & _ & Hst & Hbh).
  destruct (Hall k r Hr Hnr) as [Hcr Hhr].
  rewrite Hcr in Hst. rewrite Hhr in Hbh. cbn.
  split; [done|]. split; [|split].
  - unfold txidHeight. rewrite Hrow. by rewrite decide_False by (by intros []).
  - rewrite elem_of_foreach_unconfirmed. intros (r' & Hr' & Hs').
    congruence.
  - intros Hh result.
    rewrite ntxidHeight_value by (by exists (hash_transaction tx), row).
    assert (Hcl : ∀ r', r' ∈ deref_all (rows_ db')
                               (ntxidLookupAll (makeNtxid tx) (rows_ db')) →
                        TxRow.state r' = TxState.confirmed
                        ∧ TxRow.block_height r' = h).
    { intros r' Hin. apply elem_of_cluster_rows in Hin as (k' & Hr' & Hn').
      destruct (decide (k' = hash_transaction tx)) as [->|Hne].
      { assert (r' = row) by congruence. by subst r'. }
      rewrite (Hother k' Hne) in Hr'.
      destruct (rows_ db !! k') as [r1|] eqn:Hr1; [|done].
      cbn in Hr'. injection Hr' as <-.
      destruct (decide (TxRow.ntxid r1 = makeNtxid tx
                        ∧ hash_transaction tx ≠ TxRow.txid r1)) as [[? ?]|];
        cbn in *; by apply (Hall k' r1). }
    assert (Hne : deref_all (rows_ db')
                    (ntxidLookupAll (makeNtxid tx) (rows_ db')) ≠ []).
    { intros He.
      assert (Hin : row ∈ deref_all (rows_ db')
                      (ntxidLookupAll (makeNtxid tx) (rows_ db')))
        by (apply elem_of_cluster_rows; eauto).
      rewrite He in Hin. by apply elem_of_nil in Hin. }
    rewrite (max_confirmed_height_uniform h) by done.
    by rewrite decide_False by lia.
Qed.

(** ** The last height and the empty database *)


Lemma iterate_empty : iterate ∅ = [].
Proof.
  apply Permutation_nil_r. rewrite (iterate_perm ∅). by rewrite map_to_list_empty.
Qed.

(** X22.  After [clear] the database is as [TxDatabase] constructed it,
    with the unconfirmed timeout it had: the last height is 0, no txid and
    no ntxid exists, [txidLookup] returns the default transaction and
    [ntxidLookup] its default-initialised local, a transaction without
    inputs and outputs whose version and locktime are whatever they held,
    the heights are 0 or the error, the callbacks are called on nothing,
    [confirmed] and [unconfirmed] fail their assertion on every txid, and
    [serialize] writes the header alone, with the height 0. *)
Theorem clear_empties (db : TxDatabase) :
  clear db = TxDatabase_new (unconfirmed_timeout_ db)
  ∧ last_height (clear db) = 0
  ∧ (∀ k h,
       txidExists k (clear db) = false
       ∧ txidLookup k (clear db) = Tx.default
       ∧ txidHeight k (clear db) = 0
       ∧ confirmed k h (clear db) = None
       ∧ unconfirmed k (clear db) = None)
  ∧ (∀ n result version locktime,
       ntxidExists n (clear db) = false
       ∧ ntxidLookup version locktime n (clear db)
         = Tx.mk version locktime [] []
       ∧ ntxidHeight result n (clear db)
         = (ABC_ERROR ABC_CC_Synchronizing "tx isn't in the database",
            result))
  ∧ foreach_unconfirmed (clear db) = []
  ∧ foreach_forked (clear db) = []
  ∧ (∀ now, serialize now (clear db)
            = write_4_bytes serial_magic ++ write_8_bytes 0).
Proof.
  split; [done|]. split; [done|]. split; [|split; [|split; [|split]]].
  - intros k h.
    unfold txidExists, txidLookup, txidHeight, confirmed, unconfirmed, clear.
    cbn. rewrite lookup_empty. done.
  - intros n result version locktime.
    unfold ntxidExists, ntxidLookup, ntxidHeight, ntxidLookupAll, clear.
    cbn. rewrite iterate_empty. done.
  - unfold foreach_unconfirmed, clear. cbn. by rewrite iterate_empty.
  - unfold foreach_forked, clear. cbn. by rewrite iterate_empty.
  - intros now. unfold serialize, clear. cbn [rows_ last_height_].
    rewrite iterate_empty. cbn [flat_map]. by rewrite app_nil_r.
Qed.

(** ** The hash of an outpoint *)

(** X14.  [std::hash<bc::point_type>] tells the outputs of one transaction
    apart: two outpoints with the same transaction hash have the same hash
    value only if they have the same index. *)
Theorem point_type_hash_index (p q : Point.t) :
  Point.hash p = Point.hash q →
  (point_type_hash p = point_type_hash q ↔ Point.index p = Point.index q).
Proof.
  intros Hh. unfold point_type_hash. rewrite Hh. split; [|by intros ->].
  intros Hx.
  assert (Hc : ∀ a x, Z.lxor a (Z.lxor a x) = x).
  { intros a x. by rewrite <- Z.lxor_assoc, Z.lxor_nilpotent, Z.lxor_0_l. }
  rewrite <- (Hc (from_little_endian (take 8 (Point.hash q))) (Point.index p)).
  rewrite Hx. apply Hc.
Qed.

(** ** Addresses and unspent outputs *)


Section Addresses_properties.

Context {payment_address : Type}.
Context {payment_address_eq_dec : EqDecision payment_address}.
Variable extract : data_chunk → option payment_address.
Variable encoded : payment_address → string.



Lemma check_inputs_true (addresses_ : AddressSet) (inputs : list TxIn.t) :
  check_inputs extract encoded addresses_ inputs = true
  ↔ ∀ input, input ∈ inputs →
             ∃ address, extract (TxIn.script input) = Some address
                        ∧ encoded address ∈ addresses_.
Proof.
  unfold check_inputs. rewrite forallb_forall. split.
  - intros H input Hin. apply list_elem_of_In in Hin. specialize (H input Hin).
    destruct (extract (TxIn.script input)) as [a|]; [|done].
    apply bool_decide_eq_true in H. by exists a.
  - intros H input Hin. apply list_elem_of_In in Hin.
    destruct (H input Hin) as (a & -> & Ha). by apply bool_decide_eq_true.
Qed.

Lemma check_spec (cache_ : TxDatabase) (doubleSpends_ : gset Point.t)
  (addresses_ : AddressSet) (rank : hash_digest → nat) :
  acyclic_by rank cache_ →
  ∀ fuel txid row filter visited_,
    (rank txid < fuel)%nat →
    memo_ok cache_ doubleSpends_ visited_ →
    ∃ b visited',
      check extract encoded cache_ doubleSpends_ addresses_ fuel txid row
            filter visited_ = Some (b, visited')
      ∧ memo_ok cache_ doubleSpends_ visited'
      ∧ visited_ ⊆ visited'
      ∧ (b = true
         ↔ (filter = true → TxRow.state row ≠ TxState.confirmed →
            check_inputs extract encoded addresses_
              (Tx.inputs (TxRow.tx row)) = true)
           ∧ is_safe_spec cache_ doubleSpends_ txid true).
Proof using Type.
  clear satoshi_save satoshi_load satoshi_raw_size.
  intros Hac fuel txid row filter visited_ Hrank Hmemo.
  destruct (isSafe_spec cache_ doubleSpends_ rank Hac fuel txid visited_
              Hrank Hmemo) as (b & visited' & Hs & Hspec & Hmemo' & Hsub).
  assert (Hb : b = true ↔ is_safe_spec cache_ doubleSpends_ txid true).
  { split; [by intros <-|]. intros Ht.
    by apply (is_safe_spec_functional _ _ _ _ _ Hspec Ht). }
  unfold check.
  destruct filter; cbn [andb].
  - destruct (bool_decide (TxState.confirmed ≠ TxRow.state row)) eqn:Hst.
    + apply bool_decide_eq_true in Hst.
      destruct (check_inputs extract encoded addresses_
                  (Tx.inputs (TxRow.tx row))) eqn:Hci.
      * exists b, visited'. do 3 (split; [done|]). rewrite Hb. tauto.
      * exists false, visited_. do 3 (split; [done|]).
        split; [done|]. intros [Hf _].
        apply Hf; [done|congruence].
    + apply bool_decide_eq_false in Hst. apply dec_stable in Hst.
      exists b, visited'. do 3 (split; [done|]). rewrite Hb.
      split; [|tauto]. intros Ht. split; [|done]. intros _ Hne. congruence.
  - exists b, visited'. do 3 (split; [done|]). rewrite Hb.
    split; [|tauto]. intros Ht. split; [done|done].
Qed.

(** X16.  On an acyclic graph [TxFilter::check] returns, and it accepts a
    transaction exactly when the transaction is safe by the reference
    definition and, under [filter], the row is confirmed or every input
    script has an address of ours.  Without [filter], and for a confirmed
    row, it is [isSafe]; for an unconfirmed row with an input that is not
    ours it answers [false] under [filter] without a look at the graph,
    and the memo table stays as it is. *)
Theorem check_filters_spends (cache_ : TxDatabase)
  (doubleSpends_ : gset Point.t) (addresses_ : AddressSet)
  (rank : hash_digest → nat) (fuel : nat) (txid : hash_digest)
  (row : TxRow.t) (filter : bool) (visited_ : gmap hash_digest bool) :
  acyclic_by rank cache_ →
  (rank txid < fuel)%nat →
  memo_ok cache_ doubleSpends_ visited_ →
  (∃ b visited',
     check extract encoded cache_ doubleSpends_ addresses_ fuel txid row
           filter visited_ = Some (b, visited')
     ∧ memo_ok cache_ doubleSpends_ visited'
     ∧ (b = true
        ↔ (filter = true → TxRow.state row ≠ TxState.confirmed →
           check_inputs extract encoded addresses_
             (Tx.inputs (TxRow.tx row)) = true)
          ∧ is_safe_spec cache_ doubleSpends_ txid true))
  ∧ (filter = false ∨ TxRow.state row = TxState.confirmed →
     check extract encoded cache_ doubleSpends_ addresses_ fuel txid row
           filter visited_
     = isSafe cache_ doubleSpends_ fuel txid visited_)
  ∧ (filter = true → TxRow.state row ≠ TxState.confirmed →
     check_inputs extract encoded addresses_ (Tx.inputs (TxRow.tx row))
     = false →
     check extract encoded cache_ doubleSpends_ addresses_ fuel txid row
           filter visited_
     = Some (false, visited_)).
Proof using Type.
  clear satoshi_save satoshi_load satoshi_raw_size.
  intros Hac Hrank Hmemo. split; [|split].
  - destruct (check_spec cache_ doubleSpends_ addresses_ rank Hac fuel txid
                row filter visited_ Hrank Hmemo)
      as (b & visited' & Hc & Hm & _ & Hb).
    by exists b, visited'.
  - intros [->|Hst]; unfold check; [done|].
    rewrite (bool_decide_eq_false_2 (TxState.confirmed ≠ TxRow.state row))
      by (intros Hne; congruence).
    by rewrite andb_false_r.
  - intros -> Hst Hci. unfold check.
    rewrite (bool_decide_eq_true_2 (TxState.confirmed ≠ TxRow.state row))
      by congruence.
    cbn. by rewrite Hci.
Qed.

Lemma get_utxos_spends_flat (db : TxDatabase) :
  get_utxos_spends db
  = foldl get_utxos_spend (∅, ∅)
      (flat_map (λ kr : hash_digest * TxRow.t, Tx.inputs (TxRow.tx kr.2))
                (iterate (rows_ db))).
Proof.
  unfold get_utxos_spends. generalize (∅ : gset Point.t, ∅ : gset Point.t).
  induction (iterate (rows_ db)) as [|row l IH]; intros acc; [done|].
  cbn [foldl flat_map]. rewrite foldl_app. apply IH.
Qed.

Lemma get_utxos_spend_fold (p : Point.t) (l : list TxIn.t) :
  ∀ spends doubleSpends spends' doubleSpends',
    foldl get_utxos_spend (spends, doubleSpends) l = (spends', doubleSpends') →
    let n := length (filter (λ input, TxIn.previous_output input = p) l) in
    (p ∈ spends' ↔ p ∈ spends ∨ (1 ≤ n)%nat)
    ∧ (p ∈ doubleSpends'
       ↔ p ∈ doubleSpends ∨ (p ∈ spends ∧ (1 ≤ n)%nat) ∨ (2 ≤ n)%nat).
Proof using Type.
  clear satoshi_save satoshi_load satoshi_raw_size iterate_perm.
  induction l as [|input l IH]; intros s d s' d' Hf.
  - cbn in Hf. injection Hf as <- <-. cbn. split; [|split].
    + split; [by left|]. intros [?|?]; [done|lia].
    + by left.
    + intros [?|[[_ ?]|?]]; [done|lia|lia].
  - cbn [foldl] in Hf. unfold get_utxos_spend at 2 in Hf.
    rewrite filter_cons.
    destruct (decide (TxIn.previous_output input ∈ s)) as [Hin|Hin];
      apply IH in Hf as [Hs Hd]; cbn zeta in Hs, Hd |- *;
      destruct (decide (TxIn.previous_output input = p)) as [Hp|Hp];
      cbn [length]; rewrite Hs, Hd; clear Hs Hd.
    + subst p. split; [split; [intros _; by left|intros _; by left]|].
      split; [|intros _; left; set_solver].
      intros _. right. left. split; [done|lia].
    + split; [done|]. rewrite elem_of_union, elem_of_singleton.
      split; [intros [[?|?]|?]; [congruence|by left|by right]|].
      intros [?|?]; [left; by right|by right].
    + subst p. rewrite elem_of_union, elem_of_singleton.
      split; [split; [intros _; right; lia|intros _; left; by left]|].
      split.
      * intros [?|[[_ ?]|?]]; [by left|right; right; lia|right; right; lia].
      * intros [?|[[? _]|?]]; [by left|done|].
        right. left. split; [by left|lia].
    + rewrite elem_of_union, elem_of_singleton.
      split; [split; [intros [[?|?]|?]; [congruence|by left|by right]|]|].
      * intros [?|?]; [left; by right|by right].
      * split; [intros [?|[[[?|?] ?]|?]]; [by left|congruence| |by right; right]|].
        -- right. left. by split.
        -- intros [?|[[? ?]|?]]; [by left| |by right; right].
           right. left. split; [by right|done].
Qed.

(** X17.  The first loop of [get_utxos] collects in [spends] exactly the
    outpoints that some input of the table spends, and in [doubleSpends]
    exactly those that two inputs or more spend, of one transaction or of
    several, whatever the iteration order. *)
Theorem get_utxos_spends_counts (db : TxDatabase) (p : Point.t) :
  (p ∈ (get_utxos_spends db).1 ↔ (1 ≤ spend_count db p)%nat)
  ∧ (p ∈ (get_utxos_spends db).2 ↔ (2 ≤ spend_count db p)%nat).
Proof.
  rewrite get_utxos_spends_flat.
  assert (Hc : spend_count db p
               = length (filter (λ input, TxIn.previous_output input = p)
                           (flat_map (λ kr : hash_digest * TxRow.t,
                                        Tx.inputs (TxRow.tx kr.2))
                                     (iterate (rows_ db))))).
  { unfold spend_count. apply Permutation_length, filter_Permutation.
    apply Permutation_flat_map. symmetry. apply iterate_perm. }
  rewrite Hc. clear Hc.
  destruct (foldl get_utxos_spend (∅, ∅)
              (flat_map (λ kr : hash_digest * TxRow.t,
                           Tx.inputs (TxRow.tx kr.2))
                        (iterate (rows_ db)))) as [s d] eqn:Hf.
  apply (get_utxos_spend_fold p) in Hf as [Hs Hd]. cbn zeta in Hs, Hd.
  cbn [fst snd]. rewrite Hs, Hd. set_solver.
Qed.

Lemma get_utxos_outputs_cons (cache_ : TxDatabase)
  (spends doubleSpends : gset Point.t) (addresses : AddressSet)
  (filter : bool) (fuel : nat) (k : hash_digest) (r : TxRow.t) (i : Z)
  (output : TxOut.t) (outputs : list TxOut.t)
  (visited_ : gmap hash_digest bool) (out : list OutputInfo.t) :
  get_utxos_outputs extract encoded cache_ spends doubleSpends addresses
    filter fuel (k, r) i (output :: outputs) visited_ out
  = match
      (if decide (Point.mk k i ∉ spends) then
         match extract (TxOut.script output) with
         | Some address =>
             if decide (encoded address ∈ addresses)
             then check extract encoded cache_ doubleSpends addresses fuel
                        k r filter visited_
             else Some (false, visited_)
         | None => Some (false, visited_)
         end
       else Some (false, visited_))
    with
    | None => None
    | Some (b, visited_) =>
        get_utxos_outputs extract encoded cache_ spends doubleSpends
          addresses filter fuel (k, r) (i + 1) outputs visited_
          (if b then out ++ [OutputInfo.mk (Point.mk k i) (TxOut.value output)]
           else out)
    end.
Proof. reflexivity. Qed.

(** The inner loop of [get_utxos] on the outputs [outs] of the row [r]
    under [k], from the index [i] on: it returns, and appends to [out] the
    outputs that pass, once each. *)
Lemma get_utxos_outputs_spec (cache_ : TxDatabase)
  (spends doubleSpends : gset Point.t) (addresses : AddressSet)
  (filter : bool) (rank : hash_digest → nat) (fuel : nat)
  (k : hash_digest) (r : TxRow.t) :
  acyclic_by rank cache_ →
  (rank k < fuel)%nat →
  ∀ outs i visited_ out,
    memo_ok cache_ doubleSpends visited_ →
    ∃ visited' new,
      get_utxos_outputs extract encoded cache_ spends doubleSpends addresses
        filter fuel (k, r) i outs visited_ out
      = Some (visited', out ++ new)
      ∧ memo_ok cache_ doubleSpends visited'
      ∧ NoDup new
      ∧ ∀ info,
          info ∈ new
          ↔ ∃ j output address,
              outs !! j = Some output
              ∧ info = OutputInfo.mk (Point.mk k (i + Z.of_nat j))
                                     (TxOut.value output)
              ∧ (Point.mk k (i + Z.of_nat j) ∉ spends)
              ∧ extract (TxOut.script output) = Some address
              ∧ encoded address ∈ addresses
              ∧ (filter = true → TxRow.state r ≠ TxState.confirmed →
                 check_inputs extract encoded addresses
                   (Tx.inputs (TxRow.tx r)) = true)
              ∧ is_safe_spec cache_ doubleSpends k true.
Proof using Type.
  clear satoshi_save satoshi_load satoshi_raw_size.
  intros Hac Hrank. induction outs as [|output outs IH];
    intros i visited_ out Hmemo.
  - exists visited_, []. cbn. rewrite app_nil_r. split; [done|].
    split; [done|]. split; [constructor|].
    intros info. split; [intros Hin; by apply elem_of_nil in Hin|].
    intros (j & output & address & Hj & _). by rewrite lookup_nil in Hj.
  - rewrite get_utxos_outputs_cons.
    assert (Hint : ∃ b v1,
               (if decide (Point.mk k i ∉ spends) then
                  match extract (TxOut.script output) with
                  | Some address =>
                      if decide (encoded address ∈ addresses)
                      then check extract encoded cache_ doubleSpends
                                 addresses fuel k r filter visited_
                      else Some (false, visited_)
                  | None => Some (false, visited_)
                  end
                else Some (false, visited_)) = Some (b, v1)
               ∧ memo_ok cache_ doubleSpends v1
               ∧ (b = true
                  ↔ ∃ address,
                      (Point.mk k i ∉ spends)
                      ∧ extract (TxOut.script output) = Some address
                      ∧ encoded address ∈ addresses
                      ∧ (filter = true →
                         TxRow.state r ≠ TxState.confirmed →
                         check_inputs extract encoded addresses
                           (Tx.inputs (TxRow.tx r)) = true)
                      ∧ is_safe_spec cache_ doubleSpends k true)).
    { destruct (decide (Point.mk k i ∉ spends)) as [Hs|Hs].
      2:{ exists false, visited_. do 2 (split; [done|]).
          split; [done|]. by intros (? & ? & _). }
      destruct (extract (TxOut.script output)) as [address|] eqn:Hex.
      2:{ exists false, visited_. do 2 (split; [done|]).
          split; [done|]. by intros (? & _ & ? & _). }
      destruct (decide (encoded address ∈ addresses)) as [Ha|Ha].
      2:{ exists false, visited_. do 2 (split; [done|]).
          split; [done|]. intros (a & _ & Heq & Ha' & _). congruence. }
      destruct (check_spec cache_ doubleSpends addresses rank Hac fuel k r
                  filter visited_ Hrank Hmemo)
        as (b & v1 & Hc & Hm1 & _ & Hb).
      exists b, v1. do 2 (split; [done|]). rewrite Hb. split.
      - intros [? ?]. by exists address.
      - intros (a & _ & _ & _ & ? & ?). done. }
    destruct Hint as (b & v1 & -> & Hm1 & Hb).
    destruct (IH (i + 1)
                 v1 (if b then out ++ [OutputInfo.mk (Point.mk k i)
                                         (TxOut.value output)]
                     else out) Hm1)
      as (visited' & new2 & -> & Hm' & Hnd2 & Hin2).
    exists visited',
      ((if b then [OutputInfo.mk (Point.mk k i) (TxOut.value output)]
        else []) ++ new2).
    split; [destruct b; by rewrite <- ?app_assoc|].
    split; [done|]. split.
    + destruct b; [|done]. cbn. apply NoDup_cons. split; [|done].
      intros Hin. apply Hin2 in Hin as (j & o & a & _ & Heq & _).
      injection Heq as Heq _. lia.
    + intros info. rewrite elem_of_app, Hin2. split.
      * intros [Hhead|(j & o & a & Hj & -> & Hrest)].
        -- destruct b; [|by apply elem_of_nil in Hhead].
           apply list_elem_of_singleton in Hhead as ->.
           destruct Hb as [Hb _]. destruct (Hb eq_refl) as (a & ? & ? & ? & ? & ?).
           exists 0%nat, output, a. cbn. rewrite Z.add_0_r. done.
        -- exists (S j), o, a. cbn [lookup list_lookup]. split; [done|].
           replace (i + Z.of_nat (S j)) with (i + 1 + Z.of_nat j) by lia.
           done.
      * intros (j & o & a & Hj & -> & Hs & Hex & Ha & Hf & Hsafe).
        destruct j as [|j].
        -- cbn in Hj. injection Hj as <-. left.
           rewrite Z.add_0_r in *.
           destruct Hb as [_ Hb]. rewrite Hb by (by exists a).
           by apply list_elem_of_singleton.
        -- right. cbn [lookup list_lookup] in Hj. exists j, o, a.
           replace (i + Z.of_nat (S j)) with (i + 1 + Z.of_nat j) in * by lia.
           done.
Qed.

(** The second loop of [get_utxos] on the rows [l]. *)
Lemma get_utxos_rows_spec (cache_ : TxDatabase)
  (spends doubleSpends : gset Point.t) (addresses : AddressSet)
  (filter : bool) (rank : hash_digest → nat) (fuel : nat) :
  acyclic_by rank cache_ →
  ∀ l visited_ out,
    (∀ k r, (k, r) ∈ l →
            (rank k < fuel)%nat
            ∧ Z.of_nat (length (Tx.outputs (TxRow.tx r))) < 2 ^ 32) →
    NoDup l.*1 →
    memo_ok cache_ doubleSpends visited_ →
    ∃ visited' new,
      get_utxos_rows extract encoded cache_ spends doubleSpends addresses
        filter fuel l visited_ out
      = Some (visited', out ++ new)
      ∧ memo_ok cache_ doubleSpends visited'
      ∧ NoDup new
      ∧ ∀ info,
          info ∈ new
          ↔ ∃ k r j output address,
              (k, r) ∈ l
              ∧ Tx.outputs (TxRow.tx r) !! j = Some output
              ∧ info = OutputInfo.mk (Point.mk k (Z.of_nat j))
                                     (TxOut.value output)
              ∧ (Point.mk k (Z.of_nat j) ∉ spends)
              ∧ extract (TxOut.script output) = Some address
              ∧ encoded address ∈ addresses
              ∧ (filter = true → TxRow.state r ≠ TxState.confirmed →
                 check_inputs extract encoded addresses
                   (Tx.inputs (TxRow.tx r)) = true)
              ∧ is_safe_spec cache_ doubleSpends k true.
Proof using Type.
  clear satoshi_save satoshi_load satoshi_raw_size.
  intros Hac. induction l as [|[k r] l IH]; intros visited_ out Hl Hnd Hmemo.
  - exists visited_, []. cbn. rewrite app_nil_r. split; [done|].
    split; [done|]. split; [constructor|].
    intros info. split; [intros Hin; by apply elem_of_nil in Hin|].
    intros (k & r & j & o & a & Hin & _). by apply elem_of_nil in Hin.
  - cbn [get_utxos_rows snd].
    destruct (Hl k r ltac:(left)) as [Hrank Hlen].
    rewrite decide_False by lia.
    destruct (get_utxos_outputs_spec cache_ spends doubleSpends addresses
                filter rank fuel k r Hac Hrank
                (Tx.outputs (TxRow.tx r)) 0 visited_ out Hmemo)
      as (v1 & new1 & -> & Hm1 & Hnd1 & Hin1).
    cbn in Hnd. apply NoDup_cons in Hnd as [Hk Hnd].
    destruct (IH v1 (out ++ new1)
                 ltac:(intros k' r' Hin'; apply Hl; by right) Hnd Hm1)
      as (visited' & new2 & -> & Hm' & Hnd2 & Hin2).
    exists visited', (new1 ++ new2).
    split; [by rewrite app_assoc|]. split; [done|]. split.
    + apply NoDup_app. split; [done|]. split; [|done].
      intros info H1 H2.
      apply Hin1 in H1 as (j1 & o1 & a1 & _ & -> & _).
      apply Hin2 in H2 as (k2 & r2 & j2 & o2 & a2 & Hin & _ & Heq & _).
      injection Heq as -> _ _. apply Hk.
      apply list_elem_of_fmap. by exists (k2, r2).
    + intros info. rewrite elem_of_app, Hin1, Hin2. split.
      * intros [(j & o & a & Hj & -> & Hrest)|
                (k2 & r2 & j & o & a & Hin & Hrest)].
        -- exists k, r, j, o, a. split; [by left|]. by rewrite Z.add_0_l in Hrest.
        -- exists k2, r2, j, o, a. split; [by right|done].
      * intros (k2 & r2 & j & o & a & Hin & Hrest).
        apply elem_of_cons in Hin as [Heq|Hin].
        -- injection Heq as -> ->. left. exists j, o, a.
           by rewrite Z.add_0_l.
        -- right. by exists k2, r2, j, o, a.
Qed.

(** X18.  On an acyclic graph, with fewer than 2^32 outputs in every
    transaction, [get_utxos] returns, and it reports every unspent output
    of ours whose transaction passes the check, once, and nothing else:
    the outputs that no input of the table spends, whose script has an
    address of [addresses], and whose transaction is safe for the double
    spends of the table and, under [filter], is confirmed or has only
    inputs of ours. *)
Theorem get_utxos_reports_utxos (rank : hash_digest → nat) (fuel : nat)
  (addresses : AddressSet) (filter : bool) (db : TxDatabase) :
  acyclic_by rank db →
  (∀ k r, rows_ db !! k = Some r →
          (rank k < fuel)%nat
          ∧ Z.of_nat (length (Tx.outputs (TxRow.tx r))) < 2 ^ 32) →
  ∃ out,
    get_utxos extract encoded fuel addresses filter db = Some out
    ∧ NoDup out
    ∧ ∀ info,
        info ∈ out
        ↔ is_utxo extract encoded db (get_utxos_spends db).2 addresses
                  filter info.
Proof using iterate_perm.
  clear satoshi_save satoshi_load satoshi_raw_size.
  intros Hac Hrows. unfold get_utxos.
  pose proof (get_utxos_spends_counts db) as Hcount.
  destruct (get_utxos_spends db) as [spends doubleSpends].
  cbn [fst snd] in Hcount |- *.
  destruct (get_utxos_rows_spec db spends doubleSpends addresses filter rank
              fuel Hac (iterate (rows_ db)) ∅ [])
    as (visited' & new & -> & _ & Hnd & Hin).
  - intros k r Hkr. apply Hrows. by apply elem_of_iterate.
  - apply NoDup_iterate_keys.
  - intros txid b Hlk. by rewrite lookup_empty in Hlk.
  - exists new. cbn. split; [done|]. split; [done|].
    intros info. rewrite Hin. unfold is_utxo. split.
    + intros (k & r & j & o & a & Hkr & Hj & -> & Hs & Hrest).
      exists k, r, j, o, a. apply elem_of_iterate in Hkr.
      do 3 (split; [done|]). split; [|done].
      destruct (Hcount (Point.mk k (Z.of_nat j))) as [[_ Hc] _].
      destruct (spend_count db (Point.mk k (Z.of_nat j))); [done|].
      destruct Hs. apply Hc. lia.
    + intros (k & r & j & o & a & Hkr & Hj & -> & Hs & Hrest).
      exists k, r, j, o, a. apply elem_of_iterate in Hkr.
      do 3 (split; [done|]). split; [|done].
      intros Hp. apply Hcount in Hp. lia.
Qed.

End Addresses_properties.

End Cache.

(** * Properties of the debug log *)

Lemma strlen_app_nul (s r : list byte) :
  x00 ∉ s → strlen (s ++ x00 :: r) = Some (length s).
Proof.
  induction s as [|c s IH]; intros Hs; cbn.
  - by rewrite decide_True.
  - rewrite not_elem_of_cons in Hs. destruct Hs as [Hc Hs].
    rewrite decide_False by congruence. by rewrite (IH Hs).
Qed.

Lemma c_string_split (f : list byte) :
  (x00 ∉ c_string f)
  ∧ (length (c_string f) ≤ length f)%nat
  ∧ (x00 ∉ f → c_string f = f)
  ∧ ∃ r, f ++ [x00] = c_string f ++ x00 :: r.
Proof.
  induction f as [|c f (IH1 & IH2 & IH3 & r & IH4)]; cbn.
  - split; [apply not_elem_of_nil|]. split; [lia|]. split; [done|].
    by exists [].
  - destruct (decide (c = x00)) as [->|Hc]; cbn.
    + split; [apply not_elem_of_nil|]. split; [lia|].
      split; [intros H; contradict H; left|]. by exists (f ++ [x00]).
    + split; [rewrite not_elem_of_cons; split; [congruence|done]|].
      split; [lia|]. split.
      * intros H. rewrite not_elem_of_cons in H. f_equal. apply IH3, H.
      * exists r. by rewrite IH4.
Qed.

Lemma sprintf_length (buf : list byte) (off : nat) (f buf' : list byte) :
  sprintf buf off f = Some buf' → length buf' = length buf.
Proof.
  unfold sprintf. destruct (decide _) as [Hle|]; [|done].
  intros [= <-]. rewrite !length_app, length_take. cbn.
  rewrite length_drop. lia.
Qed.

Lemma decimal_digits_no_nul (d : Decimal.uint) :
  x00 ∉ list_byte_of_string (NilEmpty.string_of_uint d).
Proof.
  induction d; cbn; [apply not_elem_of_nil|..];
    (rewrite not_elem_of_cons; split; [discriminate|assumption]).
Qed.

Lemma format_d_no_nul (width precision : nat) (z : Z) :
  x00 ∉ format_d width precision z.
Proof.
  assert (Hd : x00 ∉ decimal_digits z).
  { unfold decimal_digits, NilZero.string_of_uint.
    destruct (N.to_uint (Z.abs_N z)) eqn:E;
      try (rewrite <- E; apply decimal_digits_no_nul).
    cbn. rewrite not_elem_of_cons. split; [discriminate|].
    apply not_elem_of_nil. }
  assert (Hr : ∀ n, x00 ∉ replicate n "0"%byte).
  { intros n H. apply elem_of_replicate in H. destruct H as [H _].
    discriminate H. }
  unfold format_d. rewrite !not_elem_of_app.
  repeat split; try apply Hr; try exact Hd.
  destruct (decide _); [|apply not_elem_of_nil].
  rewrite not_elem_of_cons. split; [discriminate|apply not_elem_of_nil].
Qed.

Lemma timestamp_no_nul (newtime : Tm.t) : x00 ∉ timestamp newtime.
Proof.
  unfold timestamp.
  repeat (rewrite not_elem_of_app || rewrite not_elem_of_cons).
  repeat split; try apply format_d_no_nul; try discriminate.
  cbn. repeat (rewrite not_elem_of_cons; split; [discriminate|]).
  apply not_elem_of_nil.
Qed.

Lemma timestamp_last (newtime : Tm.t) (t : list byte) :
  last (timestamp newtime ++ t)
  = if decide (t = []) then Some " "%byte else last t.
Proof.
  unfold timestamp.
  repeat (rewrite <- app_assoc || rewrite <- app_comm_cons).
  destruct (decide (t = [])) as [->|Ht].
  - rewrite app_nil_r.
    change (list_byte_of_string " ABC_Log: ")
      with (list_byte_of_string " ABC_Log:" ++ [" "%byte]).
    repeat (rewrite app_comm_cons || rewrite app_assoc).
    apply last_snoc.
  - repeat (rewrite app_comm_cons || rewrite app_assoc).
    rewrite last_app. destruct (last t) eqn:E; [done|].
    apply last_None in E. done.
Qed.

Lemma newline_tail (s r : list byte) :
  x00 ∉ s → s ≠ [] →
  (n ← strlen (s ++ x00 :: r);
   c ← (if decide (n = 0%nat) then None
        else (s ++ x00 :: r) !! (n - 1)%nat);
   szOut ← (if decide (c ≠ x0a) then
              n ← strlen (s ++ x00 :: r);
              szOut ← store (s ++ x00 :: r) (n + 1) x00;
              n ← strlen szOut;
              store szOut n x0a
            else Some (s ++ x00 :: r));
   n ← strlen szOut;
   Some (take n szOut, szOut))
  = if decide (last s = Some x0a) then Some (s, s ++ x00 :: r)
    else if decide (r = []) then None
         else Some (s ++ [x0a], s ++ x0a :: x00 :: tail r).
Proof.
  intros Hs Hne.
  rewrite (strlen_app_nul s r Hs). cbn [mbind option_bind].
  assert (Hlen : length s ≠ 0%nat) by (destruct s; [done|cbn; lia]).
  rewrite decide_False by exact Hlen.
  assert (Hlast : (s ++ x00 :: r) !! (length s - 1)%nat = last s).
  { rewrite lookup_app_l by lia. by rewrite last_lookup, Nat.sub_1_r. }
  rewrite Hlast.
  destruct (last s) as [c|] eqn:E; [|by apply last_None in E].
  cbn [mbind option_bind].
  destruct (decide (c ≠ x0a)) as [Hc|Hc].
  - rewrite decide_False by congruence.
    unfold store at 2.
    destruct r as [|c0 r].
    + rewrite decide_False; [|rewrite length_app; cbn; lia].
      cbn [mbind option_bind]. by rewrite decide_True.
    + rewrite decide_True; [|rewrite length_app; cbn; lia].
      cbn [mbind option_bind]. rewrite decide_False by done.
      assert (H1 : <[(length s + 1)%nat := x00]> (s ++ x00 :: c0 :: r)
                   = s ++ x00 :: x00 :: r).
      { rewrite insert_app_r_alt by lia.
        replace (length s + 1 - length s)%nat with 1%nat by lia. done. }
      rewrite H1, (strlen_app_nul s _ Hs). cbn [mbind option_bind].
      unfold store. rewrite decide_True; [|rewrite length_app; cbn; lia].
      cbn [mbind option_bind].
      assert (H2 : <[length s := x0a]> (s ++ x00 :: x00 :: r)
                   = (s ++ [x0a]) ++ x00 :: r).
      { rewrite insert_app_r_alt by lia. rewrite Nat.sub_diag. cbn.
        by rewrite <- app_assoc. }
      rewrite H2, strlen_app_nul.
      * cbn [mbind option_bind]. rewrite take_app_length.
        by rewrite <- app_assoc.
      * rewrite not_elem_of_app. split; [done|].
        rewrite not_elem_of_cons. split; [discriminate|].
        apply not_elem_of_nil.
  - apply dec_stable in Hc. subst c. rewrite decide_True by done.
    cbn [mbind option_bind]. rewrite (strlen_app_nul s r Hs).
    cbn [mbind option_bind]. by rewrite take_app_length.
Qed.

Lemma ABC_DebugLog_outcome (newtime : Tm.t) (formatted szOut : list byte) :
  ∃ szOut',
    length szOut' = length szOut
    ∧ ABC_DebugLog true newtime formatted szOut
      = if decide (length (timestamp newtime) + length formatted + 1
                   ≤ length szOut)%nat
        then
          if decide (last (timestamp newtime ++ c_string formatted)
                     = Some x0a)
          then Some (timestamp newtime ++ c_string formatted, szOut')
          else if decide (length (timestamp newtime ++ c_string formatted)
                          + 2 ≤ length szOut)%nat
               then Some ((timestamp newtime ++ c_string formatted)
                          ++ [x0a], szOut')
               else None
        else None.
Proof.
  pose proof (timestamp_no_nul newtime) as Hp.
  destruct (c_string_split formatted) as (Ht & Hlen & _ & r0 & Hsplit).
  assert (Hne : timestamp newtime ++ c_string formatted ≠ []).
  { intros H. apply app_eq_nil in H as [H _].
    pose proof (timestamp_last newtime []) as Hl.
    rewrite H in Hl. discriminate Hl. }
  assert (Hs : x00 ∉ timestamp newtime ++ c_string formatted).
  { rewrite not_elem_of_app. by split. }
  unfold ABC_DebugLog.
  set (p := timestamp newtime) in *. set (t := c_string formatted) in *.
  assert (E1 : sprintf szOut 0 p
               = if decide (0 + length p + 1 ≤ length szOut)%nat
                 then Some (p ++ x00 :: drop (0 + length p + 1) szOut)
                 else None) by reflexivity.
  rewrite E1. clear E1.
  destruct (decide (0 + length p + 1 ≤ length szOut)%nat) as [H1|H1].
  2: { exists szOut. split; [done|]. rewrite decide_False by lia. done. }
  cbn [mbind option_bind take app].
  rewrite (strlen_app_nul p _ Hp). cbn [mbind option_bind].
  unfold sprintf.
  assert (Hl1 : length (p ++ x00 :: drop (0 + length p + 1) szOut)
                = length szOut).
  { rewrite length_app. cbn. rewrite length_drop. lia. }
  rewrite Hl1.
  destruct (decide (length p + length formatted + 1 ≤ length szOut)%nat)
    as [H2|H2].
  2: { exists szOut. done. }
  cbn [mbind option_bind].
  rewrite take_app_length.
  set (r := drop _ (p ++ _)).
  assert (Hr : length r
               = (length szOut - (length p + length formatted + 1))%nat).
  { unfold r. rewrite length_drop, Hl1. done. }
  assert (Hb : p ++ formatted ++ x00 :: r = (p ++ t) ++ x00 :: (r0 ++ r)).
  { rewrite <- app_assoc. f_equal.
    change (formatted ++ x00 :: r) with (formatted ++ [x00] ++ r).
    rewrite app_assoc, Hsplit, <- app_assoc. done. }
  rewrite Hb.
  rewrite (newline_tail (p ++ t) (r0 ++ r) Hs Hne).
  assert (Hr0 : (length formatted + 1 = length t + 1 + length r0)%nat).
  { apply (f_equal length) in Hsplit. rewrite !length_app in Hsplit.
    cbn in Hsplit. lia. }
  assert (Hlb : length ((p ++ t) ++ x00 :: r0 ++ r) = length szOut).
  { rewrite !length_app. cbn. rewrite length_app. lia. }
  destruct (decide (last (p ++ t) = Some x0a)).
  { eexists. split; [|reflexivity]. exact Hlb. }
  destruct (decide (r0 ++ r = [])) as [He|He].
  - exists szOut. split; [done|]. rewrite decide_False; [done|].
    apply (f_equal length) in He. rewrite length_app in He. cbn in He.
    rewrite length_app. lia.
  - destruct (r0 ++ r) as [|c0 r'] eqn:Er; [done|]. cbn [tail].
    eexists. split; [|rewrite decide_True; [reflexivity|]].
    + rewrite <- Hlb, !length_app. cbn. lia.
    + apply (f_equal length) in Er. rewrite length_app in Er. cbn in Er.
      rewrite length_app. lia.
Qed.

Lemma to_i32_small (z : Z) : - 2 ^ 31 ≤ z < 2 ^ 31 → to_i32 z = z.
Proof. intros H. unfold to_i32. rewrite Z.mod_small; lia. Qed.

Lemma format_d_length_range (width precision : nat) (lo len : Z) (n : nat) :
  Forall (λ z, length (format_d width precision z) = n) (seqZ lo len) →
  ∀ z, lo ≤ z < lo + len → length (format_d width precision z) = n.
Proof.
  intros H z Hz. rewrite Forall_forall in H. apply H.
  apply elem_of_seqZ. lia.
Qed.

Lemma timestamp_length (newtime : Tm.t) :
  calendar newtime → length (timestamp newtime) = 29%nat.
Proof.
  intros (Hy & Hmo & Hd & Hh & Hmi & Hs).
  assert (H4 : ∀ z, 1000 ≤ z < 1000 + 9000 →
                    length (format_d 0 1 z) = 4%nat).
  { apply format_d_length_range, (bool_decide_unpack _).
    vm_compute. exact I. }
  assert (H2 : ∀ z, 0 ≤ z < 0 + 100 → length (format_d 2 1 z) = 2%nat).
  { apply format_d_length_range, (bool_decide_unpack _).
    vm_compute. exact I. }
  assert (H2' : ∀ z, 0 ≤ z < 0 + 100 → length (format_d 0 2 z) = 2%nat).
  { apply format_d_length_range, (bool_decide_unpack _).
    vm_compute. exact I. }
  unfold timestamp.
  rewrite !to_i32_small by lia.
  repeat (rewrite length_app || rewrite length_cons).
  rewrite H4, !H2, !H2' by lia. reflexivity.
Qed.

(** X23.  With room in the buffer for the text, a newline and the NUL,
    [ABC_DebugLog] returns without a read or a write outside [szOut], and
    it prints one line, whatever the buffer held before: the timestamp,
    then the text that [vsprintf] formatted up to its first NUL, then a
    newline unless the text ends with one.  What it prints ends with a
    newline and has no NUL. *)
Theorem ABC_DebugLog_prints_line (newtime : Tm.t)
  (formatted szOut : list byte) :
  length szOut = 4096%nat →
  (length (timestamp newtime) + length formatted + 2 ≤ 4096)%nat →
  ∃ szOut',
    ABC_DebugLog true newtime formatted szOut
    = Some (line (timestamp newtime ++ c_string formatted), szOut')
    ∧ length szOut' = 4096%nat
    ∧ last (line (timestamp newtime ++ c_string formatted)) = Some x0a
    ∧ (x00 ∉ line (timestamp newtime ++ c_string formatted)).
Proof.
  intros Hsz Hfit.
  destruct (ABC_DebugLog_outcome newtime formatted szOut)
    as (szOut' & Hlen & Heq).
  destruct (c_string_split formatted) as (Ht & Hle & _).
  pose proof (timestamp_no_nul newtime) as Hp.
  exists szOut'. rewrite Heq, Hlen, Hsz. unfold line.
  rewrite decide_True by lia.
  destruct (decide (last _ = Some x0a)) as [Hl|Hl].
  - split; [done|]. split; [done|]. split; [done|].
    rewrite not_elem_of_app. by split.
  - rewrite decide_True by (rewrite length_app; lia).
    split; [done|]. split; [done|]. split; [apply last_snoc|].
    rewrite !not_elem_of_app. split; [by split|].
    rewrite not_elem_of_cons. split; [discriminate|apply not_elem_of_nil].
Qed.

(** X24.  For a time of the years 1000 to 9999 the timestamp has 29 bytes,
    so a text without NUL stays inside the 4096 bytes of [szOut] exactly
    when it has at most 4065 bytes, or 4066 bytes the last of which is a
    newline; for any longer text the call writes past the end of the
    buffer. *)
Theorem ABC_DebugLog_capacity (newtime : Tm.t)
  (formatted szOut : list byte) :
  calendar newtime →
  length szOut = 4096%nat →
  x00 ∉ formatted →
  length (timestamp newtime) = 29%nat
  ∧ (is_Some (ABC_DebugLog true newtime formatted szOut)
     ↔ (length formatted ≤ 4065)%nat
       ∨ (length formatted = 4066%nat ∧ last formatted = Some x0a)).
Proof.
  intros Hcal Hsz Hnul.
  pose proof (timestamp_length newtime Hcal) as Hp.
  split; [exact Hp|].
  destruct (ABC_DebugLog_outcome newtime formatted szOut)
    as (szOut' & _ & Heq).
  destruct (c_string_split formatted) as (_ & _ & Hc & _).
  rewrite Heq, (Hc Hnul), Hp, timestamp_last, length_app, Hp.
  clear Heq.
  destruct (decide (29 + length formatted + 1 ≤ length szOut)%nat)
    as [H1|H1].
  2: { split; [intros [? [=]]|]. intros [H|[H _]]; lia. }
  destruct (decide (formatted = [])) as [->|Hne].
  { rewrite decide_False by discriminate.
    rewrite decide_True by (cbn; lia).
    split; [intros _; left; cbn; lia|intros _; by eexists]. }
  destruct (decide (last formatted = Some x0a)) as [Hl|Hl].
  { split; [intros _|intros _; by eexists].
    assert (length formatted ≤ 4065 ∨ length formatted = 4066)%nat
      as [H|H] by lia; [by left|by right]. }
  destruct (decide (29 + length formatted + 2 ≤ length szOut)%nat)
    as [H2|H2].
  - split; [intros _; left; lia|intros _; by eexists].
  - split; [intros [? [=]]|].
    intros [H|[_ H]]; [lia|done].
Qed.

(** * Closed examples *)

(** ** The transactions and databases of the examples *)

(** Three malleated siblings: they differ in the input script only. *)
Definition demo_tx (script : list byte) : transaction_type :=
  Tx.mk 1 0 [TxIn.mk (Point.mk (pad32 [x07]) 0) script 4294967295]
        [TxOut.mk 100 [x0a]].

Definition demo_M1 : transaction_type := demo_tx [x01].

Definition demo_M2 : transaction_type := demo_tx [x02].

Definition demo_M3 : transaction_type := demo_tx [x03].

Definition demo_run : list operation → TxDatabase → option TxDatabase :=
  run demo_hash_transaction demo_makeNtxid map_to_list.

(** the row under [k], or an empty row *)
Definition demo_row (db : TxDatabase) (k : hash_digest) : TxRow.t :=
  default (TxRow.mk Tx.default [] [] TxState.unconfirmed 0 0 false false false)
          (rows_ db !! k).

(** The database after the inserts of [demo_M1] and [demo_M2]. *)
Definition demo_db_1 : TxDatabase :=
  (insert demo_hash_transaction demo_makeNtxid map_to_list 10 demo_M1
          (TxDatabase_new 60)).2.

Definition demo_db_2 : TxDatabase :=
  (insert demo_hash_transaction demo_makeNtxid map_to_list 11 demo_M2
          demo_db_1).2.

(** The rows of [demo_M1] and [demo_M2] after the master row of their
    cluster was confirmed and then unconfirmed: both are unconfirmed, and
    the sibling carries the sentinel height -1. *)
Definition demo_ops_sentinel : list operation :=
  [Op_insert 10 demo_M1; Op_insert 11 demo_M2;
   Op_confirmed (demo_hash_transaction demo_M1) 500;
   Op_unconfirmed (demo_hash_transaction demo_M1)].

Definition demo_db_sentinel : TxDatabase :=
  default (TxDatabase_new 60) (demo_run demo_ops_sentinel (TxDatabase_new 60)).

(** The result the specification states for [ntxid_height], in its words:
    failure ([None]) for an empty cluster, otherwise the maximum block
    height over the confirmed rows; if no row is confirmed and the cluster
    has more than one row, -1; otherwise 0. *)
Definition ntxid_height_claimed (cluster : list TxRow.t) : option Z :=
  match cluster with
  | [] => None
  | _ :: _ =>
      match TxRow.block_height
              <$> filter (λ r, TxRow.state r = TxState.confirmed) cluster with
      | h :: hs => Some (foldr Z.max h hs)
      | [] => if decide (1 < length cluster)%nat then Some (-1) else Some 0
      end
  end.

(** Two siblings, confirmed in the block of height 0. *)
Definition demo_db_height_0 : TxDatabase :=
  default (TxDatabase_new 60)
    (demo_run [Op_insert 10 demo_M1; Op_insert 11 demo_M2;
               Op_confirmed (demo_hash_transaction demo_M1) 0]
              (TxDatabase_new 60)).

(** A transaction confirmed at height 95. *)
Definition demo_db_95 : TxDatabase :=
  default (TxDatabase_new 60)
    (demo_run [Op_insert 10 demo_M1;
               Op_confirmed (demo_hash_transaction demo_M1) 95]
              (TxDatabase_new 60)).

(** Scenario S2: [demo_A] has one output; [demo_B1] and [demo_B2] both
    spend it; [demo_C] spends the output of [demo_B1]. *)
Definition demo_spend (version : Z) (source : hash_digest) : transaction_type :=
  Tx.mk version 0 [TxIn.mk (Point.mk source 0) [x01] 4294967295]
        [TxOut.mk 100 [x0a]].

Definition demo_A : transaction_type := Tx.mk 2 0 [] [TxOut.mk 100 [x0a]].

Definition demo_B1 : transaction_type :=
  demo_spend 3 (demo_hash_transaction demo_A).

Definition demo_B2 : transaction_type :=
  demo_spend 4 (demo_hash_transaction demo_A).

Definition demo_C : transaction_type :=
  demo_spend 5 (demo_hash_transaction demo_B1).

Definition demo_db_spends : TxDatabase :=
  default (TxDatabase_new 60)
    (demo_run [Op_insert 10 demo_A; Op_insert 11 demo_B1;
               Op_insert 12 demo_B2; Op_insert 13 demo_C]
              (TxDatabase_new 60)).

(** The outpoint spent twice. *)
Definition demo_doubleSpends : gset Point.t :=
  {[ Point.mk (demo_hash_transaction demo_A) 0 ]}.

(** The version of a demo transaction is its depth in the graph. *)
Definition demo_rank (txid : hash_digest) : nat :=
  match txid with
  | b :: _ => N.to_nat (Byte.to_N b)
  | [] => 0
  end.

(** An instance of the wire format for the closed examples: the satoshi
    layout, with one-byte counts and script lengths. *)
Definition demo_save_input (input : TxIn.t) : list byte :=
  write_hash (Point.hash (TxIn.previous_output input))
  ++ write_4_bytes (Point.index (TxIn.previous_output input))
  ++ write_byte (Z.of_nat (length (TxIn.script input)))
  ++ TxIn.script input
  ++ write_4_bytes (TxIn.sequence input).

Definition demo_save_output (output : TxOut.t) : list byte :=
  write_8_bytes (TxOut.value output)
  ++ write_byte (Z.of_nat (length (TxOut.script output)))
  ++ TxOut.script output.

Definition demo_satoshi_save (tx : transaction_type) : list byte :=
  write_4_bytes (Tx.version tx)
  ++ write_byte (Z.of_nat (length (Tx.inputs tx)))
  ++ flat_map demo_save_input (Tx.inputs tx)
  ++ write_byte (Z.of_nat (length (Tx.outputs tx)))
  ++ flat_map demo_save_output (Tx.outputs tx)
  ++ write_4_bytes (Tx.locktime tx).

Definition demo_load_input (s : list byte) : option (TxIn.t * list byte) :=
  '(hash, s) ← read_hash s;
  '(index, s) ← read_4_bytes s;
  '(n, s) ← read_byte s;
  '(script, s) ← read_data (Z.to_nat n) s;
  '(sequence, s) ← read_4_bytes s;
  Some (TxIn.mk (Point.mk hash index) script sequence, s).

Definition demo_load_output (s : list byte) : option (TxOut.t * list byte) :=
  '(value, s) ← read_8_bytes s;
  '(n, s) ← read_byte s;
  '(script, s) ← read_data (Z.to_nat n) s;
  Some (TxOut.mk value script, s).

Fixpoint demo_load_list {A : Type}
  (load_one : list byte → option (A * list byte)) (n : nat) (s : list byte)
  : option (list A * list byte) :=
  match n with
  | O => Some ([], s)
  | S n =>
      '(a, s) ← load_one s;
      '(l, s) ← demo_load_list load_one n s;
      Some (a :: l, s)
  end.

Definition demo_satoshi_load (s : list byte) : option transaction_type :=
  '(version, s) ← read_4_bytes s;
  '(n, s) ← read_byte s;
  '(inputs, s) ← demo_load_list demo_load_input (Z.to_nat n) s;
  '(n, s) ← read_byte s;
  '(outputs, s) ← demo_load_list demo_load_output (Z.to_nat n) s;
  '(locktime, s) ← read_4_bytes s;
  Some (Tx.mk version locktime inputs outputs).

Definition demo_satoshi_raw_size (tx : transaction_type) : nat :=
  length (demo_satoshi_save tx).

(** At height 100: [demo_A] confirmed at 95, [demo_B1] unconfirmed since
    time 11, [demo_C] unconfirmed since time 90. *)
Definition demo_db_snapshot : TxDatabase :=
  at_height map_to_list 100
    (default (TxDatabase_new 60)
       (demo_run [Op_insert 10 demo_A; Op_insert 11 demo_B1;
                  Op_insert 90 demo_C;
                  Op_confirmed (demo_hash_transaction demo_A) 95]
                 (TxDatabase_new 60))).

(** A row inserted at the greatest time of a 64-bit clock. *)
Definition demo_db_overflow : TxDatabase :=
  (insert demo_hash_transaction demo_makeNtxid map_to_list (2 ^ 63 - 1)
          demo_A (TxDatabase_new 60)).2.

(** [demo_M1] and [demo_M2] inserted, then [confirmed] called on
    [demo_M1]. *)
Definition demo_ops_master : list operation :=
  [Op_insert 10 demo_M1; Op_insert 11 demo_M2;
   Op_confirmed (demo_hash_transaction demo_M1) 500].

(** A table as [load] builds it from a snapshot: the row of [demo_M1] is
    confirmed and the row of [demo_M2] is not, and neither has
    [bMasterConfirm]. *)
Definition demo_db_no_master : TxDatabase :=
  mkTxDatabase 0 60
    (<[demo_hash_transaction demo_M2 :=
         TxRow.mk demo_M2 (demo_hash_transaction demo_M2)
                  (demo_makeNtxid demo_M2) TxState.unconfirmed 11 11
                  true false false]>
       {[ demo_hash_transaction demo_M1 :=
            TxRow.mk demo_M1 (demo_hash_transaction demo_M1)
                     (demo_makeNtxid demo_M1) TxState.confirmed 500 200
                     true false false ]}).

(** ** The databases of the examples of the further properties *)

Definition demo_exec : list command → TxDatabase → option TxDatabase :=
  exec demo_hash_transaction demo_makeNtxid map_to_list.

(** [demo_M1] and [demo_M2], confirmed at the height 500 by a call on
    [demo_M1]. *)
Definition demo_db_confirmed : TxDatabase :=
  default (TxDatabase_new 60)
    (confirmed map_to_list (demo_hash_transaction demo_M1) 500 demo_db_2).

(** A sequence of calls of every operation but [clear]. *)
Definition demo_commands : list command :=
  [Cmd_insert 10 demo_M1; Cmd_at_height 100; Cmd_insert 11 demo_M2;
   Cmd_confirmed (demo_hash_transaction demo_M1) 95;
   Cmd_reset_timestamp 50 (demo_hash_transaction demo_M2);
   Cmd_unconfirmed (demo_hash_transaction demo_M1)].

Definition demo_db_commands : TxDatabase :=
  default (TxDatabase_new 60) (demo_exec demo_commands (TxDatabase_new 60)).

(** An instance of the addresses for the closed examples: a script that
    is not empty is its own address. *)
Definition demo_extract (script : data_chunk) : option data_chunk :=
  match script with
  | [] => None
  | _ :: _ => Some script
  end.

Definition demo_encoded (address : data_chunk) : string :=
  string_of_list_byte address.

Definition demo_addresses : AddressSet := {[ demo_encoded [x0a] ]}.

(** The snapshot of [demo_db_snapshot] at time 100, and the database that
    [load] makes of it at time 200. *)
Definition demo_snapshot_bytes : data_chunk :=
  serialize map_to_list demo_satoshi_save 100 demo_db_snapshot.

Definition demo_db_loaded : TxDatabase :=
  default (TxDatabase_new 60)
    (snd <$> load demo_satoshi_load demo_satoshi_raw_size 200
               demo_snapshot_bytes (TxDatabase_new 60)).

(** ** The time and the message of the examples of the debug log *)

Definition demo_time : Tm.t := Tm.mk 5 4 3 30 9 126.

Definition demo_message : list byte :=
  list_byte_of_string "ENTER TxDatabase::serialize".

(** ** The examples *)

Lemma map_to_list_perm (m : row_table) : map_to_list m ≡ₚ map_to_list m.
Proof. reflexivity. Qed.

(** C3 as stated fails: after [confirmed] on both siblings of a cluster,
    both have [bMasterConfirm] set. *)
Lemma C3_two_masters :
  ∃ db,
    demo_run [Op_insert 10 demo_M1; Op_insert 11 demo_M2;
              Op_confirmed (demo_hash_transaction demo_M1) 500;
              Op_confirmed (demo_hash_transaction demo_M2) 501]
             (TxDatabase_new 60) = Some db
    ∧ ¬ single_master db.
Proof.
  eexists. split; [vm_compute; reflexivity|].
  intros H.
  specialize (H (demo_hash_transaction demo_M1)
                (demo_hash_transaction demo_M2) _ _ eq_refl eq_refl
                eq_refl eq_refl eq_refl).
  discriminate H.
Qed.

Lemma C3_master_confirm_follows_confirmed_calls_witness :
  (∃ db db' r1' r2',
     demo_run [Op_insert 10 demo_M1; Op_insert 11 demo_M2]
              (TxDatabase_new 60) = Some db
     ∧ confirmed map_to_list (demo_hash_transaction demo_M1) 500 db
       = Some db'
     ∧ rows_ db' !! demo_hash_transaction demo_M1 = Some r1'
     ∧ rows_ db' !! demo_hash_transaction demo_M2 = Some r2'
     ∧ TxRow.state r1' = TxState.confirmed ∧ TxRow.block_height r1' = 500
     ∧ TxRow.state r2' = TxState.confirmed ∧ TxRow.block_height r2' = 500
     ∧ TxRow.bMasterConfirm r1' = true
     ∧ TxRow.bMasterConfirm r2' = false)
  ∧ ∃ db,
      demo_run demo_ops_master (TxDatabase_new 60) = Some db
      ∧ TxRow.bMasterConfirm (demo_row db (demo_hash_transaction demo_M1))
        = true
      ∧ TxRow.bMasterConfirm (demo_row db (demo_hash_transaction demo_M2))
        = false
      ∧ single_master db.
Proof.
  split.
  - destruct (C3_master_confirm_follows_confirmed_calls
                demo_hash_transaction demo_makeNtxid map_to_list
                map_to_list_perm 60
                [Op_insert 10 demo_M1; Op_insert 11 demo_M2] demo_db_2)
      as (_ & _ & Hpair); [vm_compute; reflexivity|].
    destruct (Hpair (demo_hash_transaction demo_M1)
                (demo_hash_transaction demo_M2)
                (demo_row demo_db_2 (demo_hash_transaction demo_M1))
                (demo_row demo_db_2 (demo_hash_transaction demo_M2)) 500)
      as (db' & r1' & r2' & H).
    + vm_compute. discriminate.
    + vm_compute. reflexivity.
    + vm_compute. reflexivity.
    + vm_compute. reflexivity.
    + vm_compute. reflexivity.
    + exists demo_db_2, db', r1', r2'.
      split; [vm_compute; reflexivity|exact H].
  - destruct (C3_master_confirm_follows_confirmed_calls
                demo_hash_transaction demo_makeNtxid map_to_list
                map_to_list_perm 60 demo_ops_master demo_db_confirmed)
      as (Hflag & Hsingle & _); [vm_compute; reflexivity|].
    exists demo_db_confirmed. split; [vm_compute; reflexivity|].
    split; [|split].
    + apply (Hflag (demo_hash_transaction demo_M1)).
      * vm_compute. reflexivity.
      * exists 500. apply elem_of_list_here || (do 2 right; left).
    + destruct (TxRow.bMasterConfirm
                  (demo_row demo_db_confirmed (demo_hash_transaction demo_M2)))
        eqn:E; [|reflexivity].
      vm_compute in E. discriminate E.
    + apply Hsingle. intros k1 k2 h1 h2 r1 r2 H1 H2 _ _ _.
      assert (Hk : ∀ k h, Op_confirmed k h ∈ demo_ops_master →
                          k = demo_hash_transaction demo_M1).
      { intros k h Hin. unfold demo_ops_master in Hin.
        apply elem_of_cons in Hin as [Hin|Hin]; [discriminate Hin|].
        apply elem_of_cons in Hin as [Hin|Hin]; [discriminate Hin|].
        apply elem_of_cons in Hin as [Hin|Hin];
          [by injection Hin as -> _|].
        destruct (proj1 (elem_of_nil _) Hin). }
      rewrite (Hk k1 h1 H1), (Hk k2 h2 H2). reflexivity.
Defined.

Lemma C6_insert_semantics_witness :
  insert demo_hash_transaction demo_makeNtxid map_to_list 12 demo_M2 demo_db_2
  = (false, demo_db_2)
  ∧ TxRow.bMalleated
      (demo_row demo_db_2 (demo_hash_transaction demo_M1)) = true
  ∧ TxRow.bMalleated
      (demo_row demo_db_2 (demo_hash_transaction demo_M2)) = true.
Proof.
  destruct (C6_insert_semantics demo_hash_transaction demo_makeNtxid
              map_to_list map_to_list_perm 11 demo_M2 demo_db_1)
    as (_ & _ & Hagain).
  split; [apply Hagain|]. split; vm_compute; reflexivity.
Defined.

Lemma C8_malleated_invariant_witness :
  TxRow.bMalleated
    (demo_row demo_db_sentinel (demo_hash_transaction demo_M1)) = true
  ∧ TxRow.bMalleated
      (demo_row demo_db_sentinel (demo_hash_transaction demo_M2)) = true.
Proof.
  apply (C8_malleated_invariant demo_hash_transaction demo_makeNtxid
           map_to_list map_to_list_perm 60 demo_ops_sentinel
           demo_db_sentinel)
    with (k1 := demo_hash_transaction demo_M1)
         (k2 := demo_hash_transaction demo_M2).
  - vm_compute. reflexivity.
  - vm_compute. discriminate.
  - vm_compute. reflexivity.
  - vm_compute. reflexivity.
  - vm_compute. reflexivity.
Defined.

Lemma C10_unconfirmed_on_unconfirmed_witness :
  TxRow.block_height
    (demo_row demo_db_sentinel (demo_hash_transaction demo_M2)) = -1
  ∧ ∃ db' row',
      unconfirmed map_to_list (demo_hash_transaction demo_M2)
                  demo_db_sentinel = Some db'
      ∧ rows_ db' !! demo_hash_transaction demo_M2 = Some row'
      ∧ TxRow.block_height row' = 0.
Proof.
  split; [vm_compute; reflexivity|].
  destruct (C10_unconfirmed_on_unconfirmed map_to_list
              (demo_hash_transaction demo_M2) demo_db_sentinel
              (demo_row demo_db_sentinel (demo_hash_transaction demo_M2)))
    as (db' & row' & Hu & _ & Hrow' & _ & Hbh & _).
  - vm_compute. reflexivity.
  - vm_compute. reflexivity.
  - exists db', row'. split; [exact Hu|]. split; [exact Hrow'|exact Hbh].
Defined.

(** ** ntxidHeight at height 0 *)

(** C4 as stated fails: both rows of the cluster are confirmed and their
    maximum block height is 0, which is what the claim says is returned,
    but [ntxidHeight] returns -1. *)
Lemma C4_confirmed_at_height_0 :
  ntxid_height_claimed
    (deref_all (rows_ demo_db_height_0)
       (ntxidLookupAll map_to_list (demo_makeNtxid demo_M1)
          (rows_ demo_db_height_0)))
  = Some 0
  ∧ ntxidHeight map_to_list 7 (demo_makeNtxid demo_M1) demo_db_height_0
    = (Status_ok, -1).
Proof. split; vm_compute; reflexivity. Qed.

Lemma C4_ntxidHeight_result_witness :
  ∃ height,
    ntxidHeight map_to_list 7 (demo_makeNtxid demo_M1) demo_db_sentinel
    = (Status_ok, height).
Proof.
  destruct (C4_ntxidHeight_result map_to_list map_to_list_perm 7
              (demo_makeNtxid demo_M1) demo_db_sentinel)
    as (_ & _ & Hok).
  destruct Hok as (height & Hh & _).
  - exists (demo_hash_transaction demo_M1),
           (demo_row demo_db_sentinel (demo_hash_transaction demo_M1)).
    split; vm_compute; reflexivity.
  - exists height. exact Hh.
Defined.

(** ** The fork detector *)

(** C2 on the code.  [check_fork] never changes the database, whatever the
    iteration order: it assigns [need_check] in copies of the rows.  With a
    transaction confirmed at height 95, [at_height 100] records the height
    and leaves [need_check] false, and [foreach_forked] then calls its
    callback on nothing. *)
Theorem C2_check_fork_marks_no_row :
  (∀ iterate height db, check_fork iterate height db = db)
  ∧ txidHeight (demo_hash_transaction demo_M1) demo_db_95 = 95
  ∧ last_height (at_height map_to_list 100 demo_db_95) = 100
  ∧ TxRow.need_check
      (demo_row (at_height map_to_list 100 demo_db_95)
                (demo_hash_transaction demo_M1)) = false
  ∧ foreach_forked map_to_list (at_height map_to_list 100 demo_db_95) = [].
Proof.
  split; [apply check_fork_unchanged|].
  repeat split; vm_compute; reflexivity.
Qed.

(** ** ntxidLookup with a stale master flag *)

(** C5 as stated fails.  In [demo_db_sentinel] the row of [demo_M1] has
    [bMasterConfirm] set (it was confirmed, then unconfirmed) and the table
    is iterated with its sibling first: [ntxidLookup] returns the
    transaction of the sibling, which is the transaction of no row with
    [bMasterConfirm]. *)
Lemma C5_master_row_not_returned :
  (TxRow.ntxid (demo_row demo_db_sentinel (demo_hash_transaction demo_M1))
   = demo_makeNtxid demo_M1
   ∧ TxRow.bMasterConfirm
       (demo_row demo_db_sentinel (demo_hash_transaction demo_M1)) = true
   ∧ rows_ demo_db_sentinel !! demo_hash_transaction demo_M1
     = Some (demo_row demo_db_sentinel (demo_hash_transaction demo_M1)))
  ∧ ntxidLookup map_to_list 0 0 (demo_makeNtxid demo_M1) demo_db_sentinel
    = demo_M2
  ∧ map_Forall
      (λ _ r, TxRow.ntxid r = demo_makeNtxid demo_M1 →
              TxRow.bMasterConfirm r = true →
              ntxidLookup map_to_list 0 0 (demo_makeNtxid demo_M1)
                          demo_db_sentinel ≠ TxRow.tx r)
      (rows_ demo_db_sentinel).
Proof.
  split; [split; [|split]; vm_compute; reflexivity|].
  split; [vm_compute; reflexivity|].
  apply (bool_decide_unpack _). vm_compute. exact I.
Qed.

(** decidable forms of the conditions of the selection *)
Lemma masters_confirmed_map_Forall (n : hash_digest) (db : TxDatabase) :
  map_Forall (λ _ r, TxRow.ntxid r = n → TxRow.bMasterConfirm r = true →
                     TxRow.state r = TxState.confirmed) (rows_ db) →
  ∀ k r, rows_ db !! k = Some r ∧ TxRow.ntxid r = n →
         TxRow.bMasterConfirm r = true →
         TxRow.state r = TxState.confirmed.
Proof. intros H k r [Hr Hn]. exact (H k r Hr Hn). Qed.

Lemma no_row_map_Forall (n : hash_digest) (db : TxDatabase) :
  map_Forall (λ _ r, TxRow.ntxid r ≠ n) (rows_ db) →
  ¬ ∃ k r, rows_ db !! k = Some r ∧ TxRow.ntxid r = n.
Proof. intros H (k & r & Hr & Hn). exact (H k r Hr Hn). Qed.

Lemma no_master_map_Forall (n : hash_digest) (db : TxDatabase) :
  map_Forall (λ _ r, TxRow.ntxid r = n → TxRow.bMasterConfirm r = false)
             (rows_ db) →
  ∀ k r, rows_ db !! k = Some r ∧ TxRow.ntxid r = n →
         TxRow.bMasterConfirm r = false.
Proof. intros H k r [Hr Hn]. exact (H k r Hr Hn). Qed.

Lemma C5_ntxidLookup_selection_witness :
  (∃ k r,
     (rows_ demo_db_confirmed !! k = Some r
      ∧ TxRow.ntxid r = demo_makeNtxid demo_M1)
     ∧ ntxidLookup map_to_list 7 9 (demo_makeNtxid demo_M1)
                   demo_db_confirmed
       = TxRow.tx r
     ∧ TxRow.bMasterConfirm r = true)
  ∧ (∃ k r,
       (rows_ demo_db_no_master !! k = Some r
        ∧ TxRow.ntxid r = demo_makeNtxid demo_M1)
       ∧ ntxidLookup map_to_list 7 9 (demo_makeNtxid demo_M1)
                     demo_db_no_master
         = TxRow.tx r
       ∧ TxRow.state r = TxState.confirmed)
  ∧ ntxidLookup map_to_list 7 9 (demo_makeNtxid demo_A) demo_db_confirmed
    = Tx.mk 7 9 [] [].
Proof.
  split; [|split].
  2:{ destruct (C5_ntxidLookup_selection map_to_list map_to_list_perm 7 9
                  (demo_makeNtxid demo_M1) demo_db_no_master)
        as (_ & Hsel).
      destruct Hsel as (k & r & Hk & Heq & _ & Hc).
      - exists (demo_hash_transaction demo_M1),
               (demo_row demo_db_no_master (demo_hash_transaction demo_M1)).
        split; vm_compute; reflexivity.
      - exists k, r. split; [exact Hk|]. split; [exact (Heq 7 9)|].
        apply Hc.
        + apply no_master_map_Forall, (bool_decide_unpack _).
          vm_compute. exact I.
        + exists (demo_hash_transaction demo_M1),
                 (demo_row demo_db_no_master
                    (demo_hash_transaction demo_M1)).
          split; [split|]; vm_compute; reflexivity. }
  - destruct (C5_ntxidLookup_selection map_to_list map_to_list_perm 7 9
                (demo_makeNtxid demo_M1) demo_db_confirmed)
      as (_ & Hsel).
    destruct Hsel as (k & r & Hk & Heq & Hm & _).
    + exists (demo_hash_transaction demo_M1),
             (demo_row demo_db_confirmed (demo_hash_transaction demo_M1)).
      split; vm_compute; reflexivity.
    + exists k, r. split; [exact Hk|]. split; [exact (Heq 7 9)|].
      apply Hm.
      * exists (demo_hash_transaction demo_M1),
               (demo_row demo_db_confirmed (demo_hash_transaction demo_M1)).
        split; [split|]; vm_compute; reflexivity.
      * apply masters_confirmed_map_Forall, (bool_decide_unpack _).
        vm_compute. exact I.
  - destruct (C5_ntxidLookup_selection map_to_list map_to_list_perm 7 9
                (demo_makeNtxid demo_A) demo_db_confirmed)
      as (Hnone & _).
    apply Hnone.
    apply no_row_map_Forall, (bool_decide_unpack _).
    vm_compute. exact I.
Defined.

(** ** A double spend and its descendant *)

(** A decidable form of [acyclic_by]. *)
Lemma acyclic_by_map_Forall (rank : hash_digest → nat) (cache_ : TxDatabase) :
  map_Forall
    (λ txid row,
       TxRow.state row ≠ TxState.confirmed →
       Forall (λ input,
                 (rank (Point.hash (TxIn.previous_output input))
                  < rank txid)%nat)
              (Tx.inputs (TxRow.tx row)))
    (rows_ cache_) →
  acyclic_by rank cache_.
Proof.
  intros H txid row input Hrow Hnc Hin.
  specialize (H txid row Hrow Hnc). rewrite Forall_forall in H. by apply H.
Qed.

Lemma demo_db_spends_acyclic : acyclic_by demo_rank demo_db_spends.
Proof.
  apply acyclic_by_map_Forall. apply (bool_decide_unpack _).
  vm_compute. exact I.
Qed.

Lemma C9_isSafe_reference_witness :
  ∃ visited_ visited',
    isSafe_calls demo_db_spends demo_doubleSpends 6
      [demo_hash_transaction demo_B2; demo_hash_transaction demo_A] ∅
    = Some visited_
    ∧ isSafe demo_db_spends demo_doubleSpends 6
        (demo_hash_transaction demo_C) visited_
      = Some (false, visited').
Proof.
  destruct (C9_isSafe_reference demo_db_spends demo_doubleSpends demo_rank
              (demo_hash_transaction demo_C) demo_db_spends_acyclic)
    as (b & Hb & _ & Hany & Hprior).
  assert (Hfalse : b = false).
  { destruct (Hany 6%nat ∅) as (v & Hv & _).
    - vm_compute. lia.
    - intros k b' Hk. rewrite lookup_empty in Hk. discriminate Hk.
    - assert (Hc : ∃ v0, isSafe demo_db_spends demo_doubleSpends 6
                           (demo_hash_transaction demo_C) ∅
                         = Some (false, v0))
        by (eexists; vm_compute; reflexivity).
      destruct Hc as (v0 & Hc). rewrite Hc in Hv. congruence. }
  destruct (Hprior 6%nat
              [demo_hash_transaction demo_B2; demo_hash_transaction demo_A])
    as (visited_ & visited' & Hcalls & Hsafe).
  - vm_compute. lia.
  - intros t Ht.
    apply elem_of_cons in Ht as [->|Ht]; [vm_compute; lia|].
    apply elem_of_cons in Ht as [->|Ht]; [vm_compute; lia|].
    destruct (proj1 (elem_of_nil t) Ht).
  - exists visited_, visited'. split; [exact Hcalls|].
    rewrite Hfalse in Hsafe. exact Hsafe.
Defined.

(** ** A snapshot, saved and loaded *)

Lemma demo_db_snapshot_serializable :
  serializable demo_satoshi_save demo_satoshi_load demo_satoshi_raw_size
               demo_db_snapshot.
Proof.
  split; [vm_compute; split; [discriminate|reflexivity]|].
  apply map_Forall_to_list.
  set (l := map_to_list (rows_ demo_db_snapshot)). vm_compute in l. subst l.
  constructor; [|constructor; [|constructor; [|constructor]]].
  all: unfold uncurry, row_serializable; cbn [fst snd].
  all: split; [vm_compute; reflexivity|].
  all: split; [vm_compute; reflexivity|].
  all: split; [vm_compute; reflexivity|].
  all: split; [vm_compute; split; [discriminate|reflexivity]|].
  all: split; [vm_compute; split; [discriminate|reflexivity]|].
  all: split; [exact I|].
  all: split; [intros rest; vm_compute; reflexivity|vm_compute; reflexivity].
Qed.

Lemma C1_load_serialize_round_trip_witness :
  ∃ db',
    load demo_satoshi_load demo_satoshi_raw_size 200
         (serialize map_to_list demo_satoshi_save 100 demo_db_snapshot)
         (TxDatabase_new 60)
    = Some (Status_ok, db')
    ∧ last_height_ db' = 100
    ∧ rows_ db' !! demo_hash_transaction demo_B1 = None
    ∧ TxRow.block_height (demo_row db' (demo_hash_transaction demo_A)) = 95.
Proof.
  destruct (C1_load_serialize_round_trip map_to_list map_to_list_perm
              demo_satoshi_save demo_satoshi_load demo_satoshi_raw_size
              100 200 demo_db_snapshot (TxDatabase_new 60)
              demo_db_snapshot_serializable)
    as ((db' & Hload & Hlast & _ & Hrows) & _).
  exists db'. split; [exact Hload|]. split; [exact Hlast|].
  pose proof (Hrows (demo_hash_transaction demo_B1)) as HB1.
  pose proof (Hrows (demo_hash_transaction demo_A)) as HA.
  clear Hrows Hload Hlast. split.
  - destruct (rows_ demo_db_snapshot !! demo_hash_transaction demo_B1)
      as [r|] eqn:E; [|exact HB1].
    vm_compute in E. injection E as <-.
    destruct (decide (purged 100 (unconfirmed_timeout_ demo_db_snapshot) _))
      as [Hp|Hp] in HB1; [exact HB1|].
    exfalso. apply Hp. split; [vm_compute; reflexivity|reflexivity].
  - destruct (rows_ demo_db_snapshot !! demo_hash_transaction demo_A)
      as [r|] eqn:E; [|vm_compute in E; discriminate E].
    vm_compute in E. injection E as <-.
    destruct (decide (purged 100 (unconfirmed_timeout_ demo_db_snapshot) _))
      as [Hp|Hp] in HA.
    { exfalso. destruct Hp as [_ Hp]. discriminate Hp. }
    destruct HA as (r' & Hr' & _ & _ & _ & _ & Hbh & _).
    unfold demo_row. rewrite Hr'. cbn [default from_option id].
    rewrite Hbh; reflexivity.
Defined.

(** ** A timestamp at the end of the 64-bit clock *)

Lemma demo_db_overflow_serializable :
  serializable demo_satoshi_save demo_satoshi_load demo_satoshi_raw_size
               demo_db_overflow.
Proof.
  split; [vm_compute; split; [discriminate|reflexivity]|].
  apply map_Forall_to_list.
  set (l := map_to_list (rows_ demo_db_overflow)). vm_compute in l. subst l.
  constructor; [|constructor].
  unfold uncurry, row_serializable; cbn [fst snd].
  split; [vm_compute; reflexivity|].
  split; [vm_compute; reflexivity|].
  split; [vm_compute; reflexivity|].
  split; [vm_compute; split; [discriminate|reflexivity]|].
  split; [vm_compute; split; [discriminate|reflexivity]|].
  split; [exact I|].
  split; [intros rest; vm_compute; reflexivity|vm_compute; reflexivity].
Qed.

(** C1 as stated fails.  The row of [demo_db_overflow] is unconfirmed and
    has the timestamp 2^63 - 1.  At the time 100, with the timeout 60, its
    [timestamp + unconfirmed_timeout] is not less than [now], so the
    policy as stated keeps it; the 64-bit sum of [serialize] is negative,
    the row is purged, and the table that [load] builds is empty. *)
Lemma C1_overflow_purges_row :
  serializable demo_satoshi_save demo_satoshi_load demo_satoshi_raw_size
               demo_db_overflow
  ∧ rows_ demo_db_overflow !! demo_hash_transaction demo_A
    = Some (demo_row demo_db_overflow (demo_hash_transaction demo_A))
  ∧ TxRow.state (demo_row demo_db_overflow (demo_hash_transaction demo_A))
    = TxState.unconfirmed
  ∧ ¬ (TxRow.timestamp
         (demo_row demo_db_overflow (demo_hash_transaction demo_A))
       + unconfirmed_timeout_ demo_db_overflow < 100)
  ∧ load demo_satoshi_load demo_satoshi_raw_size 200
         (serialize map_to_list demo_satoshi_save 100 demo_db_overflow)
         (TxDatabase_new 60)
    = Some (Status_ok, TxDatabase_new 60).
Proof.
  split; [exact demo_db_overflow_serializable|].
  split; [vm_compute; reflexivity|].
  split; [vm_compute; reflexivity|].
  split; [vm_compute; discriminate|].
  vm_compute. reflexivity.
Qed.

(** ** load on the empty input *)

(** C7 as stated fails: on the empty input [load] reports a truncated
    database, and the input did not end in the middle of a record: it has
    no header. *)
Lemma C7_truncated_without_record :
  load demo_satoshi_load demo_satoshi_raw_size 0 [] (TxDatabase_new 60)
  = Some (Truncated, TxDatabase_new 60)
  ∧ ¬ truncated_mid_record demo_satoshi_load demo_satoshi_raw_size 0 [].
Proof.
  split; [reflexivity|].
  intros (b & s & Hrec & _). cbn in Hrec. inversion Hrec.
Qed.

(** ** The examples of the further properties *)

Lemma keys_consistent_map_Forall (db : TxDatabase) :
  map_Forall (λ k r, TxRow.txid r = k) (rows_ db) → keys_consistent db.
Proof. intros H k r Hr. exact (H k r Hr). Qed.

Lemma no_other_master_map_Forall (db : TxDatabase) (txid n : hash_digest) :
  map_Forall (λ k r, TxRow.ntxid r = n → k ≠ txid →
                     TxRow.bMasterConfirm r = false) (rows_ db) →
  ∀ k r, rows_ db !! k = Some r → TxRow.ntxid r = n → k ≠ txid →
         TxRow.bMasterConfirm r = false.
Proof. intros H k r Hr. exact (H k r Hr). Qed.

Lemma demo_db_2_keys_consistent : keys_consistent demo_db_2.
Proof.
  apply keys_consistent_map_Forall, (bool_decide_unpack _).
  vm_compute. exact I.
Qed.

Lemma demo_db_confirmed_keys_consistent : keys_consistent demo_db_confirmed.
Proof.
  apply keys_consistent_map_Forall, (bool_decide_unpack _).
  vm_compute. exact I.
Qed.

Lemma ntxidExists_iff_cluster_witness :
  NoDup (ntxidLookupAll map_to_list (demo_makeNtxid demo_M1) (rows_ demo_db_2))
  ∧ ntxidExists map_to_list (demo_makeNtxid demo_M1) demo_db_2 = true.
Proof.
  destruct (ntxidExists_iff_cluster map_to_list map_to_list_perm
              (demo_makeNtxid demo_M1) demo_db_2) as (Hnd & _ & Hex).
  split; [exact Hnd|]. apply Hex.
  exists (demo_hash_transaction demo_M1),
         (demo_row demo_db_2 (demo_hash_transaction demo_M1)).
  split; vm_compute; reflexivity.
Defined.

Lemma insert_then_lookup_witness :
  txidLookup (demo_hash_transaction demo_M1)
    (insert demo_hash_transaction demo_makeNtxid map_to_list 10 demo_M1
            (TxDatabase_new 60)).2
  = demo_M1
  ∧ ntxidExists map_to_list (demo_makeNtxid demo_M1)
      (insert demo_hash_transaction demo_makeNtxid map_to_list 10 demo_M1
              (TxDatabase_new 60)).2
    = true.
Proof.
  destruct (insert_then_lookup demo_hash_transaction demo_makeNtxid
              map_to_list map_to_list_perm 10 demo_M1 (TxDatabase_new 60))
    as (_ & _ & Hnew & _).
  apply Hnew. vm_compute. reflexivity.
Defined.

Lemma confirmed_then_heights_witness :
  ∃ db',
    confirmed map_to_list (demo_hash_transaction demo_M1) 500 demo_db_2
    = Some db'
    ∧ txidHeight (demo_hash_transaction demo_M1) db' = 500
    ∧ txidHeight (demo_hash_transaction demo_M2) db' = 500
    ∧ ntxidHeight map_to_list 7 (demo_makeNtxid demo_M1) db'
      = (Status_ok, 500).
Proof.
  destruct (confirmed_then_heights map_to_list map_to_list_perm
              (demo_hash_transaction demo_M1) 500 demo_db_2
              (demo_row demo_db_2 (demo_hash_transaction demo_M1)))
    as (db' & Hc & Hown & _ & Hsib & _ & Hn).
  - vm_compute. reflexivity.
  - exists db'. split; [exact Hc|]. split; [exact Hown|]. split.
    + apply (Hsib (demo_hash_transaction demo_M2)
                  (demo_row demo_db_2 (demo_hash_transaction demo_M2))).
      * vm_compute. reflexivity.
      * vm_compute. reflexivity.
      * vm_compute. discriminate.
    + apply Hn; [exact demo_db_2_keys_consistent|reflexivity].
Defined.

Lemma confirmed_idempotent_witness :
  confirmed map_to_list (demo_hash_transaction demo_M1) 500 demo_db_confirmed
  = Some demo_db_confirmed.
Proof.
  apply (confirmed_idempotent map_to_list map_to_list_perm
           (demo_hash_transaction demo_M1) 500 demo_db_2 demo_db_confirmed).
  vm_compute. reflexivity.
Defined.

Lemma confirmed_unconfirmed_defined_witness :
  is_Some (confirmed map_to_list (demo_hash_transaction demo_M1) 500
                     demo_db_2)
  ∧ ¬ is_Some (unconfirmed map_to_list (demo_hash_transaction demo_M3)
                           demo_db_2).
Proof.
  destruct (confirmed_unconfirmed_defined map_to_list map_to_list_perm
              (demo_hash_transaction demo_M1) 500 demo_db_2) as ([_ Hc] & _).
  destruct (confirmed_unconfirmed_defined map_to_list map_to_list_perm
              (demo_hash_transaction demo_M3) 500 demo_db_2)
    as (_ & [Hu _] & _).
  split.
  - apply Hc. vm_compute. reflexivity.
  - intros Hs. apply Hu in Hs. vm_compute in Hs. discriminate Hs.
Defined.

Lemma foreach_unconfirmed_exact_witness :
  NoDup (foreach_unconfirmed map_to_list demo_db_2)
  ∧ txidHeight (demo_hash_transaction demo_M1) demo_db_2 = 0.
Proof.
  destruct (foreach_unconfirmed_exact map_to_list map_to_list_perm demo_db_2)
    as (Hnd & Hin & Hh).
  split; [exact Hnd|].
  apply Hh, Hin.
  exists (demo_row demo_db_2 (demo_hash_transaction demo_M1)).
  split; [vm_compute; reflexivity|vm_compute; discriminate].
Defined.

Lemma exec_never_sets_need_check_witness :
  foreach_forked map_to_list demo_db_commands = [].
Proof.
  apply (exec_never_sets_need_check demo_hash_transaction demo_makeNtxid
           map_to_list map_to_list_perm demo_commands (TxDatabase_new 60)
           demo_db_commands).
  - intros k r Hr. change (rows_ (TxDatabase_new 60)) with (∅ : row_table) in Hr.
    rewrite lookup_empty in Hr. discriminate Hr.
  - vm_compute. reflexivity.
Defined.

Lemma exec_rows_consistent_witness :
  demo_hash_transaction (txidLookup (demo_hash_transaction demo_M2)
                                    demo_db_commands)
  = demo_hash_transaction demo_M2.
Proof.
  destruct (exec_rows_consistent demo_hash_transaction demo_makeNtxid
              map_to_list map_to_list_perm demo_commands (TxDatabase_new 60)
              demo_db_commands) as (_ & Hlook & _).
  - intros k r Hr. change (rows_ (TxDatabase_new 60)) with (∅ : row_table) in Hr.
    rewrite lookup_empty in Hr. discriminate Hr.
  - vm_compute. reflexivity.
  - apply (Hlook (demo_hash_transaction demo_M2)). vm_compute. reflexivity.
Defined.

Lemma reset_timestamp_defers_purge_witness :
  ∃ body,
    serialize_row demo_satoshi_save 150 (unconfirmed_timeout_ demo_db_2)
      (demo_hash_transaction demo_M1,
       TxRow.set_timestamp 100
         (demo_row demo_db_2 (demo_hash_transaction demo_M1)))
    = byte_of_Z serial_tx :: body.
Proof.
  destruct (reset_timestamp_defers_purge demo_hash_transaction
              demo_makeNtxid map_to_list map_to_list_perm demo_satoshi_save
              100 150 (demo_hash_transaction demo_M1) demo_db_2)
    as (_ & Hrow & _).
  - vm_compute. split; [discriminate|reflexivity].
  - vm_compute. discriminate.
  - apply (Hrow (demo_row demo_db_2 (demo_hash_transaction demo_M1))).
    vm_compute. reflexivity.
Defined.

Lemma unconfirmed_reverts_cluster_witness :
  ∃ db' row',
    unconfirmed map_to_list (demo_hash_transaction demo_M1) demo_db_confirmed
    = Some db'
    ∧ rows_ db' !! demo_hash_transaction demo_M1 = Some row'
    ∧ TxRow.block_height row' = -1
    ∧ ntxidHeight map_to_list 7 (demo_makeNtxid demo_M1) db'
      = (Status_ok, -1).
Proof.
  destruct (unconfirmed_reverts_cluster map_to_list map_to_list_perm
              (demo_hash_transaction demo_M1) demo_db_confirmed
              (demo_row demo_db_confirmed (demo_hash_transaction demo_M1)))
    as (db' & row' & Hu & Hrow' & _ & _ & Hsib & _).
  - exact demo_db_confirmed_keys_consistent.
  - vm_compute. reflexivity.
  - vm_compute. reflexivity.
  - apply no_other_master_map_Forall, (bool_decide_unpack _).
    vm_compute. exact I.
  - destruct Hsib as (Hh & _ & Hn).
    + exists (demo_hash_transaction demo_M2),
             (demo_row demo_db_confirmed (demo_hash_transaction demo_M2)).
      split; [vm_compute; reflexivity|].
      split; [vm_compute; reflexivity|vm_compute; discriminate].
    + exists db', row'. split; [exact Hu|]. split; [exact Hrow'|].
      split; [exact Hh|exact (Hn 7)].
Defined.
Lemma demo_snapshot_loaded :
  load demo_satoshi_load demo_satoshi_raw_size 200 demo_snapshot_bytes
       (TxDatabase_new 60)
  = Some (Status_ok, demo_db_loaded).
Proof. vm_compute. reflexivity. Qed.

Lemma load_replaces_table_witness :
  unconfirmed_timeout_ demo_db_loaded
  = unconfirmed_timeout_ (TxDatabase_new 60)
  ∧ loaded_row 200 (demo_hash_transaction demo_A)
      (demo_row demo_db_loaded (demo_hash_transaction demo_A)).
Proof.
  destruct (load_replaces_table demo_satoshi_load demo_satoshi_raw_size 200
              demo_snapshot_bytes (TxDatabase_new 60) demo_db_loaded
              demo_snapshot_loaded) as (Ht & _ & Hrows & _).
  split; [exact Ht|]. apply Hrows. vm_compute. reflexivity.
Defined.

Lemma load_last_record_wins_witness :
  ∃ l,
    parsed demo_satoshi_load demo_satoshi_raw_size 200
           (drop header_size demo_snapshot_bytes) l
    ∧ (demo_hash_transaction demo_A,
       demo_row demo_db_loaded (demo_hash_transaction demo_A)) ∈ l.
Proof.
  destruct (load_last_record_wins demo_satoshi_load demo_satoshi_raw_size 200
              demo_snapshot_bytes (TxDatabase_new 60) demo_db_loaded
              demo_snapshot_loaded) as (l & Hp & _ & Hin & _).
  exists l. split; [exact Hp|]. apply Hin. vm_compute. reflexivity.
Defined.

Lemma serialize_load_exact_witness :
  load demo_satoshi_load demo_satoshi_raw_size 200
       (serialize map_to_list demo_satoshi_save 100 demo_db_snapshot)
       (TxDatabase_new 60)
  = Some (Status_ok,
          mkTxDatabase (last_height_ demo_db_snapshot)
            (unconfirmed_timeout_ (TxDatabase_new 60))
            (reloaded 200
               <$> filter (λ kr : hash_digest * TxRow.t,
                             ¬ purged 100 (unconfirmed_timeout_ demo_db_snapshot)
                                 kr.2)
                          (rows_ demo_db_snapshot))).
Proof.
  exact (serialize_load_exact map_to_list map_to_list_perm demo_satoshi_save
           demo_satoshi_load demo_satoshi_raw_size 100 200 demo_db_snapshot
           (TxDatabase_new 60) demo_db_snapshot_serializable).
Defined.

Lemma point_type_hash_index_witness :
  point_type_hash (Point.mk (pad32 [x07]) 0)
  = point_type_hash (Point.mk (pad32 [x07]) 1)
  ↔ Point.index (Point.mk (pad32 [x07]) 0)
    = Point.index (Point.mk (pad32 [x07]) 1).
Proof.
  exact (point_type_hash_index (Point.mk (pad32 [x07]) 0)
           (Point.mk (pad32 [x07]) 1) eq_refl).
Defined.


Lemma memo_ok_empty (cache_ : TxDatabase) (doubleSpends_ : gset Point.t) :
  memo_ok cache_ doubleSpends_ ∅.
Proof. intros txid b H. rewrite lookup_empty in H. discriminate H. Qed.

Lemma check_filters_spends_witness :
  ∃ b visited',
    check demo_extract demo_encoded demo_db_spends demo_doubleSpends
          demo_addresses 6 (demo_hash_transaction demo_C)
          (demo_row demo_db_spends (demo_hash_transaction demo_C)) true ∅
    = Some (b, visited').
Proof.
  destruct (check_filters_spends demo_extract demo_encoded demo_db_spends
              demo_doubleSpends demo_addresses demo_rank 6
              (demo_hash_transaction demo_C)
              (demo_row demo_db_spends (demo_hash_transaction demo_C))
              true ∅ demo_db_spends_acyclic)
    as ((b & visited' & Hc & _) & _).
  - vm_compute. lia.
  - apply memo_ok_empty.
  - exists b, visited'. exact Hc.
Defined.

Lemma get_utxos_spends_counts_witness :
  Point.mk (demo_hash_transaction demo_A) 0
  ∈ (get_utxos_spends map_to_list demo_db_spends).2.
Proof.
  apply (get_utxos_spends_counts map_to_list map_to_list_perm demo_db_spends
           (Point.mk (demo_hash_transaction demo_A) 0)).
  vm_compute. lia.
Defined.

Lemma rows_bounded_map_Forall (rank : hash_digest → nat) (fuel : nat)
  (db : TxDatabase) :
  map_Forall (λ k r, (rank k < fuel)%nat
                     ∧ Z.of_nat (length (Tx.outputs (TxRow.tx r))) < 2 ^ 32)
             (rows_ db) →
  ∀ k r, rows_ db !! k = Some r →
         (rank k < fuel)%nat
         ∧ Z.of_nat (length (Tx.outputs (TxRow.tx r))) < 2 ^ 32.
Proof. intros H k r Hr. exact (H k r Hr). Qed.

Lemma get_utxos_reports_utxos_witness :
  ∃ out,
    get_utxos map_to_list demo_extract demo_encoded 6 demo_addresses false
              demo_db_spends = Some out
    ∧ NoDup out.
Proof.
  destruct (get_utxos_reports_utxos map_to_list map_to_list_perm demo_extract
              demo_encoded demo_rank 6 demo_addresses false demo_db_spends
              demo_db_spends_acyclic) as (out & Hout & Hnd & _).
  - apply rows_bounded_map_Forall, (bool_decide_unpack _).
    vm_compute. exact I.
  - exists out. split; [exact Hout|exact Hnd].
Defined.

Lemma confirmed_then_ntxidLookup_witness :
  ∃ db',
    confirmed map_to_list (demo_hash_transaction demo_M1) 500 demo_db_2
    = Some db'
    ∧ ntxidLookup map_to_list 7 9
        (TxRow.ntxid (demo_row demo_db_2 (demo_hash_transaction demo_M1))) db'
      = TxRow.tx (demo_row demo_db_2 (demo_hash_transaction demo_M1)).
Proof.
  destruct (confirmed_then_ntxidLookup map_to_list map_to_list_perm
              (demo_hash_transaction demo_M1) 500 demo_db_2
              (demo_row demo_db_2 (demo_hash_transaction demo_M1))
              demo_db_2_keys_consistent) as (db' & Hc & Hl).
  - vm_compute. reflexivity.
  - apply no_other_master_map_Forall, (bool_decide_unpack _).
    vm_compute. exact I.
  - exists db'. split; [exact Hc|exact (proj1 (Hl 7 9))].
Defined.

Lemma cluster_confirmed_map_Forall (n : hash_digest) (h : Z)
  (db : TxDatabase) :
  map_Forall (λ _ r, TxRow.ntxid r = n →
                     TxRow.state r = TxState.confirmed
                     ∧ TxRow.block_height r = h) (rows_ db) →
  ∀ k r, rows_ db !! k = Some r → TxRow.ntxid r = n →
         TxRow.state r = TxState.confirmed ∧ TxRow.block_height r = h.
Proof. intros H k r Hr. exact (H k r Hr). Qed.

Lemma insert_into_confirmed_cluster_witness :
  txidHeight (demo_hash_transaction demo_M3)
    (insert demo_hash_transaction demo_makeNtxid map_to_list 12 demo_M3
            demo_db_confirmed).2
  = 500.
Proof.
  destruct (insert_into_confirmed_cluster demo_hash_transaction
              demo_makeNtxid map_to_list map_to_list_perm 12 demo_M3 500
              demo_db_confirmed) as (_ & Hh & _).
  - vm_compute. reflexivity.
  - exists (demo_hash_transaction demo_M1),
           (demo_row demo_db_confirmed (demo_hash_transaction demo_M1)).
    split; [vm_compute; reflexivity|].
    split; [vm_compute; reflexivity|vm_compute; discriminate].
  - apply cluster_confirmed_map_Forall, (bool_decide_unpack _).
    vm_compute. exact I.
  - exact Hh.
Defined.


Lemma clear_empties_witness :
  last_height (clear demo_db_2) = 0
  ∧ foreach_unconfirmed map_to_list (clear demo_db_2) = [].
Proof.
  destruct (clear_empties map_to_list map_to_list_perm demo_satoshi_save
              demo_db_2) as (_ & Hl & _ & _ & Hu & _).
  split; [exact Hl|exact Hu].
Defined.

(** ** The examples of the debug log *)

Lemma ABC_DebugLog_prints_line_witness :
  ∃ szOut',
    ABC_DebugLog true demo_time demo_message (replicate 4096 x00)
    = Some (line (timestamp demo_time ++ c_string demo_message), szOut').
Proof.
  destruct (ABC_DebugLog_prints_line demo_time demo_message
              (replicate 4096 x00)) as (szOut' & H & _).
  - apply length_replicate.
  - vm_compute. lia.
  - exists szOut'. exact H.
Defined.

Lemma ABC_DebugLog_capacity_witness :
  length (timestamp demo_time) = 29%nat
  ∧ is_Some (ABC_DebugLog true demo_time demo_message (replicate 4096 x00)).
Proof.
  destruct (ABC_DebugLog_capacity demo_time demo_message
              (replicate 4096 x00)) as (H29 & Hfit).
  - cbv [calendar demo_time Tm.tm_year Tm.tm_mon Tm.tm_mday Tm.tm_hour
         Tm.tm_min Tm.tm_sec]. lia.
  - apply length_replicate.
  - apply (bool_decide_unpack _). vm_compute. exact I.
  - split; [exact H29|]. apply Hfit. left. vm_compute. lia.
Defined.
